(** * site-estoque: inventory and sales web application (src/app.py)

    A shallow embedding of the Flask view functions that write to the
    database, and of the report's low-stock list, together with the
    properties stated about them.

    Conventions of the embedding.
    - Python [int] is [Z]; Python [float] is an IEEE binary64 value, taken
      as the Standard Library's [spec_float] at precision 53 and maximal
      exponent 1024; Python [str] is [string], one character per code
      point below 256.
    - The built-ins [int(str)] and [float(str)] are parameters of the
      development: [None] stands for the [ValueError] they raise.
    - The SQLAlchemy session is a state with the committed tables, the
      tables as the running transaction sees them, and a count of the round
      trips made to the storage engine.  The engine may refuse one round
      trip (a fault named by the environment), which raises in the view.
      A table is the list of its rows in storage order; a new row takes
      the largest identifier of its table plus one (SQLite's rule, the
      engine the application falls back to).
    - A view function is a computation in a state-and-exception monad; the
      exception that leaves a view is what Flask turns into an HTTP error.
      Every view is behind [login_required]: the requests are those of a
      logged-in user.  A request that is not a POST is a GET.
    - The two authentication views run on a state of their own: the users
      table, committed and pending, and the user id that Flask-Login keeps
      in the browser session.  werkzeug's [generate_password_hash], with
      the salt it draws, and [check_password_hash] are parameters.
    - A column holds what the view gives it: the declared lengths of the
      string columns are not enforced (as under SQLite). *)

From Stdlib Require Import ZArith String Ascii List Lia Bool.
From Stdlib Require Import SpecFloat DecimalString.
From stdpp Require Import base numbers list strings.
Import ListNotations.
Open Scope Z_scope.

(** ** Python values *)

Module Py.

(** binary64 *)
Definition prec : Z := 53.
Definition emax : Z := 1024.
Definition float : Type := spec_float.

Definition float_zero : float := S754_zero false.

(** [PyLong_AsDouble]: round to nearest, ties to even; [None] is the
  [OverflowError] "int too large to convert to float". *)
Definition float_of_int (z : Z) : option float :=
  match binary_normalize prec emax z 0 false with
  | S754_infinity _ => None
  | f => Some f
  end.

(** [x * n] for a float [x] and an int [n]. *)
Definition float_mul_int (x : float) (n : Z) : option float :=
  match float_of_int n with
  | Some y => Some (SFmul prec emax x y)
  | None => None
  end.

(** [x > 0] for a float [x] (the int 0 converts exactly). *)
Definition float_gt_zero (x : float) : bool := SFltb float_zero x.

(** [x < 0] *)
Definition float_lt_zero (x : float) : bool := SFltb x float_zero.

(** truth value of a float: false for 0.0 and -0.0 *)
Definition float_truthy (x : float) : bool :=
  match x with S754_zero _ => false | _ => true end.

(** [math.isnan(x)] *)
Definition is_nan (x : float) : bool :=
  match x with S754_nan => true | _ => false end.

(** [str.isspace] on the code points below 256. *)
Definition isspace (c : ascii) : bool :=
  let n := N_of_ascii c in
  ((9 <=? n) && (n <=? 13) || (28 <=? n) && (n <=? 32)
   || (n =? 133) || (n =? 160))%N.

Fixpoint lstrip_list (l : list ascii) : list ascii :=
  match l with
  | c :: l' => if isspace c then lstrip_list l' else l
  | [] => []
  end.

(** [s.strip()] *)
Definition strip (s : string) : string :=
  string_of_list_ascii
    (rev (lstrip_list (rev (lstrip_list (list_ascii_of_string s))))).

(** [s.replace(',', '.')] *)
Fixpoint replace_comma (s : string) : string :=
  match s with
  | EmptyString => EmptyString
  | String c s' =>
      String (if Ascii.eqb c ","%char then "."%char else c) (replace_comma s')
  end.

(** [str(n)] for an int *)
Definition str_of_int (n : Z) : string :=
  NilZero.string_of_int (Z.to_int n).

(** truth value of a str *)
Definition truthy (s : string) : bool := negb (String.eqb s "").

End Py.

(** ** Tables (lines 58-83) *)

Module Produto.

Record t := mk {
  id : Z;
  nome : string;
  quantidade : Z;
  preco : Py.float;
  preco_compra : option Py.float;
  validade : option string
}.

Definition set_nome (x : string) (p : t) : t :=
  mk (id p) x (quantidade p) (preco p) (preco_compra p) (validade p).
Definition set_quantidade (x : Z) (p : t) : t :=
  mk (id p) (nome p) x (preco p) (preco_compra p) (validade p).
Definition set_preco (x : Py.float) (p : t) : t :=
  mk (id p) (nome p) (quantidade p) x (preco_compra p) (validade p).
Definition set_preco_compra (x : option Py.float) (p : t) : t :=
  mk (id p) (nome p) (quantidade p) (preco p) x (validade p).
Definition set_validade (x : option string) (p : t) : t :=
  mk (id p) (nome p) (quantidade p) (preco p) (preco_compra p) x.

End Produto.

Module Cliente.

Record t := mk {
  id : Z;
  nome : string;
  telefone : option string;
  email : option string;
  cidade : option string
}.

End Cliente.

Module Venda.

Record t := mk {
  id : Z;
  data : Z;
  quantidade : Z;
  valor_total : Py.float;
  produto_id : Z;
  cliente_id : option Z
}.

End Venda.

#[global] Instance spec_float_eq_dec : EqDecision spec_float.
Proof. solve_decision. Defined.
#[global] Instance Produto_eq_dec : EqDecision Produto.t.
Proof. solve_decision. Defined.
#[global] Instance Cliente_eq_dec : EqDecision Cliente.t.
Proof. solve_decision. Defined.
#[global] Instance Venda_eq_dec : EqDecision Venda.t.
Proof. solve_decision. Defined.

Record Tables := mkTables {
  produtos : list Produto.t;
  clientes : list Cliente.t;
  vendas : list Venda.t
}.

Definition with_produtos (f : list Produto.t -> list Produto.t) (t : Tables) :=
  mkTables (f (produtos t)) (clientes t) (vendas t).
Definition with_clientes (f : list Cliente.t -> list Cliente.t) (t : Tables) :=
  mkTables (produtos t) (f (clientes t)) (vendas t).
Definition with_vendas (f : list Venda.t -> list Venda.t) (t : Tables) :=
  mkTables (produtos t) (clientes t) (f (vendas t)).

(** Integer primary key of a new row. *)
Definition next_id (ids : list Z) : Z := 1 + fold_right Z.max 0 ids.

(** ** Exceptions, session and the monad of a view function *)

Inductive Exn :=
| BadRequestKeyError   (* request.form[k] with k missing: HTTP 400 *)
| NotFound             (* get_or_404: HTTP 404 *)
| ValueError
| IndexError
| AttributeError
| OverflowError
| IntegrityError       (* a NOT NULL column is given NULL *)
| DBError.             (* the storage engine refuses a round trip *)

Record Session := mkSession {
  committed : Tables;
  pending : Tables;
  calls : nat
}.

Record Env := mkEnv {
  fault : option nat;   (* the round trip the engine refuses, if any *)
  now : Z               (* datetime.now() *)
}.

Inductive Result (A : Type) :=
| Return (a : A)
| Raise (e : Exn).
Arguments Return {A} a.
Arguments Raise {A} e.

Definition M (A : Type) : Type := Env -> Session -> Result A * Session.

Definition ret {A} (a : A) : M A := fun _ s => (Return a, s).
Definition raise {A} (e : Exn) : M A := fun _ s => (Raise e, s).
Definition bind {A B} (m : M A) (k : A -> M B) : M B :=
  fun env s =>
    match m env s with
    | (Return a, s') => k a env s'
    | (Raise e, s') => (Raise e, s')
    end.

Notation "x <- m ;; k" := (bind m (fun x => k))
  (at level 100, m at next level, right associativity).
Notation "m ;;; k" := (bind m (fun _ => k))
  (at level 100, right associativity).

(** [try: body except <handles>: handler] *)
Definition try_except {A} (body : M A) (handles : Exn -> bool)
    (handler : Exn -> M A) : M A :=
  fun env s =>
    match body env s with
    | (Raise e, s') => if handles e then handler e env s' else (Raise e, s')
    | r => r
    end.

Definition is_ValueError (e : Exn) : bool :=
  match e with ValueError => true | _ => false end.
Definition is_Exception (e : Exn) : bool := true.

Definition of_option {A} (e : Exn) (o : option A) : M A :=
  match o with Some a => ret a | None => raise e end.

Definition ask_now : M Z := fun env s => (Return (now env), s).
Definition get_pending : M Tables := fun _ s => (Return (pending s), s).
Definition modify_pending (f : Tables -> Tables) : M unit :=
  fun _ s => (Return tt, mkSession (committed s) (f (pending s)) (calls s)).

(** One round trip to the storage engine. *)
Definition db_call : M unit :=
  fun env s =>
    let s' := mkSession (committed s) (pending s) (S (calls s)) in
    match fault env with
    | Some n =>
        if Nat.eqb n (calls s) then (Raise DBError, s') else (Return tt, s')
    | None => (Return tt, s')
    end.

(** [for x in l: f(x)] *)
Fixpoint for_each {A} (f : A -> M unit) (l : list A) : M unit :=
  match l with
  | [] => ret tt
  | x :: l' => f x ;;; for_each f l'
  end.

(** ** What the engine takes *)

(** An INTEGER column holds a 64-bit signed integer: the driver refuses
    to bind any other int, with OverflowError ("Python int too large to
    convert to SQLite INTEGER"), before the statement is sent. *)
Definition in_int64 (n : Z) : bool := (- 2 ^ 63 <=? n) && (n <? 2 ^ 63).

(** A NaN is bound as NULL.  In a nullable REAL column it is stored so,
    and the attribute reads None from then on. *)
Definition sql_real (x : option Py.float) : option Py.float :=
  match x with
  | Some v => if Py.is_nan v then None else Some v
  | None => None
  end.

(** The INSERT or UPDATE of a row of [Produto]: its ints are bound, then
    the statement runs, and NOT NULL refuses the NULL that a NaN price
    has become. *)
Definition refuses_produto (p : Produto.t) : option Exn :=
  if negb (in_int64 (Produto.quantidade p)) then Some OverflowError
  else if Py.is_nan (Produto.preco p) then Some IntegrityError
  else None.

(** The same for a row of [Venda]. *)
Definition refuses_venda (v : Venda.t) : option Exn :=
  if negb (in_int64 (Venda.quantidade v) && in_int64 (Venda.produto_id v)
           && from_option in_int64 true (Venda.cliente_id v))
  then Some OverflowError
  else if Py.is_nan (Venda.valor_total v) then Some IntegrityError
  else None.

(** The rows that the transaction has added or changed: those it sees
    and the stored table does not hold.  A row that was deleted, or
    assigned the values it had, is not written. *)
Definition written {A} `{EqDecision A} (stored seen : list A) : list A :=
  filter (fun r => r ∉ stored) seen.

(** The first row written that the engine refuses, with its error. *)
Definition first_refusal {A} `{EqDecision A} (refuses : A -> option Exn)
    (stored seen : list A) : option Exn :=
  head (omap refuses (written stored seen)).

(** The products are written before the sales, which refer to them; a
    row of [Cliente] holds strings only and is never refused. *)
Definition flush_refusal (stored seen : Tables) : option Exn :=
  match first_refusal refuses_produto (produtos stored) (produtos seen) with
  | Some e => Some e
  | None => first_refusal refuses_venda (vendas stored) (vendas seen)
  end.

(** The flush of the session: the INSERTs and UPDATEs of the rows written,
    sent before the COMMIT and before a query. *)
Definition flush : M unit :=
  fun _ s =>
    match flush_refusal (committed s) (pending s) with
    | Some e => (Raise e, s)
    | None => (Return tt, s)
    end.

(** db.session.commit() *)
Definition commit : M unit :=
  flush ;;;
  db_call ;;;
  fun _ s => (Return tt, mkSession (pending s) (pending s) (calls s)).

(** db.session.rollback() *)
Definition rollback : M unit :=
  fun _ s => (Return tt, mkSession (committed s) (committed s) (calls s)).

(** [Model.query.get(id)] on the rows of the model's table: the row with
    this id and its place.  The id is bound as the parameter of a SELECT.
    The ids of the rows are the engine's own, 64-bit integers: an id
    outside 64 bits is one that no row has, and the driver refuses to
    bind it, so that no round trip is made. *)
Definition query_get {A} (key : A -> Z) (rows : list A) (id : Z)
    : M (option (nat * A)) :=
  match list_find (fun r => key r = id) rows with
  | Some found => db_call ;;; ret (Some found)
  | None => if in_int64 id then db_call ;;; ret None else raise OverflowError
  end.

(** Produto.query.get(id) *)
Definition Produto_query_get (pid : Z) : M (option (nat * Produto.t)) :=
  t <- get_pending ;;
  query_get Produto.id (produtos t) pid.

Definition Cliente_query_get (cid : Z) : M (option (nat * Cliente.t)) :=
  t <- get_pending ;;
  query_get Cliente.id (clientes t) cid.

(** Produto.query.filter_by(nome=nome).first() *)
Definition Produto_query_filter_by_nome_first (nome : string)
    : M (option (nat * Produto.t)) :=
  db_call ;;;
  t <- get_pending ;;
  ret (list_find (fun p => Produto.nome p = nome) (produtos t)).

(** Model.query.get_or_404(id) *)
Definition or_404 {A} (o : option A) : M A := of_option NotFound o.

(** Attribute assignments on the object found at place [i]. *)
Definition update_produto (i : nat) (f : Produto.t -> Produto.t) : M unit :=
  modify_pending (with_produtos (alter f i)).
Definition update_cliente (i : nat) (f : Cliente.t -> Cliente.t) : M unit :=
  modify_pending (with_clientes (alter f i)).

(** db.session.add(Produto(...)); the purchase cost is the one that the
    nullable column will hold. *)
Definition add_produto (nome : string) (quantidade : Z) (preco : Py.float)
    (preco_compra : option Py.float) (validade : option string) : M unit :=
  modify_pending (with_produtos (fun l =>
    l ++ [Produto.mk (next_id (Produto.id <$> l)) nome quantidade preco
            (sql_real preco_compra) validade])).

(** db.session.add(Cliente(...)) *)
Definition add_cliente (nome : string) (telefone email cidade : option string)
    : M unit :=
  modify_pending (with_clientes (fun l =>
    l ++ [Cliente.mk (next_id (Cliente.id <$> l)) nome telefone email cidade])).

(** db.session.add(Venda(...)); [data] takes its default. *)
Definition add_venda (produto_id : Z) (cliente_id : option Z) (quantidade : Z)
    (valor_total : Py.float) : M unit :=
  t <- ask_now ;;
  modify_pending (with_vendas (fun l =>
    l ++ [Venda.mk (next_id (Venda.id <$> l)) t quantidade valor_total
            produto_id cliente_id])).

(** db.session.delete(obj) for the object at place [i]. *)
Definition delete_produto (i : nat) : M unit :=
  modify_pending (with_produtos (delete i)).
Definition delete_cliente (i : nat) : M unit :=
  modify_pending (with_clientes (delete i)).

(** db.session.query(Venda).delete() *)
Definition query_Venda_delete : M unit :=
  db_call ;;;
  modify_pending (with_vendas (fun _ => [])).

(** ** Requests and responses *)

Inductive Method := GET | POST.

Record Upload := mkUpload {
  filename : string;
  rows : list (list string)   (* what csv.reader yields, header first *)
}.

Record Request := mkRequest {
  method : Method;
  form : list (string * string);
  files : list (string * Upload)
}.

Definition lookup_key {A} (k : string) (l : list (string * A)) : option A :=
  snd <$> List.find (fun kv => String.eqb (fst kv) k) l.

(** request.form.get(k) *)
Definition form_get (req : Request) (k : string) : option string :=
  lookup_key k (form req).

(** request.form[k] *)
Definition form_getitem (req : Request) (k : string) : M string :=
  of_option BadRequestKeyError (form_get req k).

(** A flashed message with its category, and where the view sends the
    browser.  Of the template context only the report's low-stock list is
    kept. *)
Inductive Response :=
| Redirect (endpoint : string) (flash : string * string)
| Render (template : string)
| RenderRelatorios (estoque_baixo : list Produto.t).

(** row[i] *)
Definition getitem (row : list string) (i : nat) : M string :=
  of_option IndexError (row !! i).

(** line 299 *)
Definition estoque_baixo (produtos : list Produto.t) : list Produto.t :=
  List.filter (fun p => Produto.quantidade p <? 5) produtos.

Definition msg_historico_limpo : string :=
  "Hist" ++ String "243"%char "rico limpo.".

Definition msg_importacao (count_novos count_at : Z) : string :=
  "Importa" ++ String "231"%char (String "227"%char "o: ")
    ++ Py.str_of_int count_novos ++ " novos, "
    ++ Py.str_of_int count_at ++ " atualizados.".

Definition msg_estoque_insuficiente (restam : Z) : string :=
  "Estoque insuficiente! Restam " ++ Py.str_of_int restam ++ ".".

(** ** The view functions *)

Section Views.

(** Python's [int(s)], [float(s)] and [str(e)]. *)
Variable py_int : string -> option Z.
Variable py_float : string -> option Py.float.
Variable py_str_exn : Exn -> string.

Definition int (s : string) : M Z := of_option ValueError (py_int s).
Definition float (s : string) : M Py.float := of_option ValueError (py_float s).

(** [float(x) if x else None] on the result of [form.get]. *)
Definition float_or_None (x : option string) : M (option Py.float) :=
  match x with
  | Some s => if Py.truthy s then (v <- float s ;; ret (Some v)) else ret None
  | None => ret None
  end.

(** [int(x) if x else None] *)
Definition int_or_None (x : option string) : M (option Z) :=
  match x with
  | Some s => if Py.truthy s then (v <- int s ;; ret (Some v)) else ret None
  | None => ret None
  end.

(** lines 148-166 *)
Definition adicionar (req : Request) : M Response :=
  match method req with
  | POST =>
      p_compra <- float_or_None (form_get req "preco_compra") ;;
      nome <- form_getitem req "nome" ;;
      quantidade_s <- form_getitem req "quantidade" ;;
      quantidade <- int quantidade_s ;;
      preco_s <- form_getitem req "preco" ;;
      preco <- float preco_s ;;
      add_produto nome quantidade preco p_compra (form_get req "validade") ;;;
      commit ;;;
      ret (Redirect "index" ("Produto adicionado!", "success"))
  | GET => ret (Render "adicionar.html")
  end.

(** lines 168-182 *)
Definition editar (id : Z) (req : Request) : M Response :=
  found <- Produto_query_get id ;;
  produto <- or_404 found ;;
  let i := fst produto in
  match method req with
  | POST =>
      nome <- form_getitem req "nome" ;;
      update_produto i (Produto.set_nome nome) ;;;
      quantidade_s <- form_getitem req "quantidade" ;;
      quantidade <- int quantidade_s ;;
      update_produto i (Produto.set_quantidade quantidade) ;;;
      preco_s <- form_getitem req "preco" ;;
      preco <- float preco_s ;;
      update_produto i (Produto.set_preco preco) ;;;
      p_compra <- float_or_None (form_get req "preco_compra") ;;
      update_produto i (Produto.set_preco_compra (sql_real p_compra)) ;;;
      update_produto i (Produto.set_validade (form_get req "validade")) ;;;
      commit ;;;
      ret (Redirect "index" ("Atualizado!", "success"))
  | GET => ret (Render "adicionar.html")
  end.

(** lines 184-191 *)
Definition deletar (id : Z) : M Response :=
  found <- Produto_query_get id ;;
  produto <- or_404 found ;;
  delete_produto (fst produto) ;;;
  commit ;;;
  ret (Redirect "index" ("Removido.", "success")).

(** lines 200-212 *)
Definition adicionar_cliente (req : Request) : M Response :=
  match method req with
  | POST =>
      nome <- form_getitem req "nome" ;;
      add_cliente nome (form_get req "telefone") (form_get req "email")
        (form_get req "cidade") ;;;
      commit ;;;
      ret (Redirect "clientes" ("Cliente cadastrado!", "success"))
  | GET => ret (Render "adicionar_cliente.html")
  end.

(** lines 214-226 *)
Definition editar_cliente (id : Z) (req : Request) : M Response :=
  found <- Cliente_query_get id ;;
  cliente <- or_404 found ;;
  match method req with
  | POST =>
      nome <- form_getitem req "nome" ;;
      update_cliente (fst cliente) (fun c =>
        Cliente.mk (Cliente.id c) nome (form_get req "telefone")
          (form_get req "email") (form_get req "cidade")) ;;;
      commit ;;;
      ret (Redirect "clientes" ("Cliente atualizado!", "success"))
  | GET => ret (Render "adicionar_cliente.html")
  end.

(** lines 228-235 *)
Definition deletar_cliente (id : Z) : M Response :=
  found <- Cliente_query_get id ;;
  cliente <- or_404 found ;;
  delete_cliente (fst cliente) ;;;
  commit ;;;
  ret (Redirect "clientes" ("Cliente removido.", "success")).

(** lines 244-270.  [produto.quantidade] on the [None] that
    [Produto.query.get] returns for an unknown id raises AttributeError.
    The row of the product and the new sale are written at the commit. *)
Definition nova_venda (req : Request) : M Response :=
  match method req with
  | POST =>
      produto_id_s <- form_getitem req "produto_id" ;;
      produto_id <- int produto_id_s ;;
      let cliente_id_form := form_get req "cliente_id" in
      quantidade_s <- form_getitem req "quantidade" ;;
      quantidade <- int quantidade_s ;;
      found <- Produto_query_get produto_id ;;
      produto <- of_option AttributeError found ;;
      let '(i, p) := produto in
      if Produto.quantidade p <? quantidade then
        ret (Redirect "nova_venda"
               (msg_estoque_insuficiente (Produto.quantidade p), "danger"))
      else
        valor_total <-
          of_option OverflowError
            (Py.float_mul_int (Produto.preco p) quantidade) ;;
        cliente_id <- int_or_None cliente_id_form ;;
        update_produto i (fun p' =>
          Produto.set_quantidade (Produto.quantidade p' - quantidade) p') ;;;
        add_venda produto_id cliente_id quantidade valor_total ;;;
        commit ;;;
        ret (Redirect "vendas" ("Venda registrada!", "success"))
  | GET =>
      db_call ;;;   (* Produto.query.all() *)
      db_call ;;;   (* Cliente.query.all() *)
      ret (Render "nova_venda.html")
  end.

(** lines 273-301.  The two tables are read and nothing is written.  Of
    the figures of the report the model keeps what can end the view: the
    products [float * int] of lines 281 and 282, which raise OverflowError
    for a quantity that does not convert ([p.preco_compra or 0] is the int
    0 for a cost that is None or zero), and the loads of [v.produto] at
    line 287, which go to the engine for a product that is not among the
    rows read.  The sums and the two series are not kept. *)
Definition relatorios : M Response :=
  db_call ;;;
  t <- get_pending ;;
  db_call ;;;
  for_each (fun p =>
    match Produto.preco_compra p with
    | Some custo =>
        if Py.float_truthy custo
        then of_option OverflowError
               (Py.float_mul_int custo (Produto.quantidade p)) ;;; ret tt
        else ret tt
    | None => ret tt
    end) (produtos t) ;;;
  for_each (fun p =>
    of_option OverflowError
      (Py.float_mul_int (Produto.preco p) (Produto.quantidade p)) ;;; ret tt)
    (produtos t) ;;;
  for_each (fun v =>
    if existsb (fun p => Produto.id p =? Venda.produto_id v) (produtos t)
    then ret tt else db_call) (vendas t) ;;;
  ret (RenderRelatorios (estoque_baixo (produtos t))).

(** lines 345-352: update the product of that name, or insert one.  What
    the row writes is flushed by the query of the next row that is not
    skipped, or by the commit if there is none; nothing that can end the
    view lies between the write and that flush, so the flush is put
    here, after the write.  (A cost above zero is not a NaN.) *)
Definition upsert (nome : string) (qtd : Z) (preco_venda preco_custo : Py.float)
    (validade : string) (counts : Z * Z) : M (Z * Z) :=
  let '(count_novos, count_at) := counts in
  prod <- Produto_query_filter_by_nome_first nome ;;
  match prod with
  | Some (i, _) =>
      update_produto i (fun p =>
        Produto.set_quantidade (Produto.quantidade p + qtd) p) ;;;
      (if Py.float_gt_zero preco_custo
       then update_produto i (Produto.set_preco_compra (Some preco_custo))
       else ret tt) ;;;
      flush ;;;
      ret (count_novos, count_at + 1)
  | None =>
      add_produto nome qtd preco_venda (Some preco_custo) (Some validade) ;;;
      flush ;;;
      ret (count_novos + 1, count_at)
  end.

(** lines 336-353: the body of the loop, for one [row]; the counters are
    [(count_novos, count_at)]. *)
Definition importar_linha (row : list string) (counts : Z * Z) : M (Z * Z) :=
  if (length row <? 3)%nat then ret counts
  else
    try_except
      (row0 <- getitem row 0 ;;
       let nome := Py.strip row0 in
       if negb (Py.truthy nome) then ret counts
       else
         row1 <- getitem row 1 ;;
         qtd <- int row1 ;;
         row2 <- getitem row 2 ;;
         preco_venda <- float (Py.replace_comma row2) ;;
         preco_custo <-
           match row !! 3%nat with
           | Some row3 =>
               if Py.truthy row3 then float (Py.replace_comma row3)
               else ret Py.float_zero
           | None => ret Py.float_zero
           end ;;
         let validade :=
           match row !! 4%nat with
           | Some row4 => Py.strip row4
           | None => ""%string
           end in
         upsert nome qtd preco_venda preco_custo validade counts)
      is_ValueError (fun _ => ret counts).

Fixpoint for_rows (csv_input : list (list string)) (counts : Z * Z)
    : M (Z * Z) :=
  match csv_input with
  | [] => ret counts
  | row :: rest => counts' <- importar_linha row counts ;; for_rows rest counts'
  end.

(** lines 319-359.  Decoding the upload and splitting it into rows is
    done by the libraries; the view starts here from the rows. *)
Definition importar_csv (req : Request) : M Response :=
  match lookup_key "arquivo_csv" (files req) with
  | None => ret (Redirect "gerenciamento" ("Nenhum arquivo.", "danger"))
  | Some arquivo =>
      if String.eqb (filename arquivo) "" then
        ret (Redirect "gerenciamento" ("Selecione um arquivo.", "danger"))
      else
        try_except
          (counts <- for_rows (tail (rows arquivo)) (0, 0) ;;
           commit ;;;
           ret (Redirect "index"
                  (msg_importacao (fst counts) (snd counts), "success")))
          is_Exception
          (fun e =>
             ret (Redirect "gerenciamento"
                    (("Erro: " ++ py_str_exn e)%string, "danger")))
  end.

(** lines 385-396 *)
Definition limpar_vendas : M Response :=
  try_except
    (query_Venda_delete ;;;
     commit ;;;
     ret (Redirect "gerenciamento" (msg_historico_limpo, "success")))
    is_Exception
    (fun _ =>
       rollback ;;;
       ret (Redirect "gerenciamento" ("Erro.", "danger"))).

(** The routes that write to the tables of products, customers and sales,
    and the report.  The views left out only read these tables (the
    listings and the exports), or work on the users (login, registration,
    logout), or touch no table (the template download). *)
Inductive Route :=
| RAdicionar
| REditar (id : Z)
| RDeletar (id : Z)
| RAdicionarCliente
| REditarCliente (id : Z)
| RDeletarCliente (id : Z)
| RNovaVenda
| RRelatorios
| RImportarCsv
| RLimparVendas.

Definition view (r : Route) (req : Request) : M Response :=
  match r with
  | RAdicionar => adicionar req
  | REditar id => editar id req
  | RDeletar id => deletar id
  | RAdicionarCliente => adicionar_cliente req
  | REditarCliente id => editar_cliente id req
  | RDeletarCliente id => deletar_cliente id
  | RNovaVenda => nova_venda req
  | RRelatorios => relatorios
  | RImportarCsv => importar_csv req
  | RLimparVendas => limpar_vendas
  end.

(** One request: the view runs in a fresh session on the stored tables;
    what it did not commit is dropped with the session. *)
Definition serve (v : M Response) (env : Env) (db : Tables)
    : Result Response * Tables :=
  let '(r, s) := v env (mkSession db db 0) in (r, committed s).

Record Step := mkStep {
  step_route : Route;
  step_request : Request;
  step_env : Env
}.

Definition run (steps : list Step) (db : Tables) : Tables :=
  fold_left (fun db st =>
    snd (serve (view (step_route st) (step_request st)) (step_env st) db))
    steps db.

End Views.

(** ** Outcomes of a sale *)

(** The engine answers round trip [n]. *)
Definition answers (env : Env) (n : nat) : Prop := fault env <> Some n.

Section Sales.

Variable py_int : string -> option Z.

(** The POST of the sale form carries this product id and quantity. *)
Definition sale_form (req : Request) (produto_id quantidade : Z) : Prop :=
  method req = POST
  /\ (exists s, form_get req "produto_id" = Some s /\ py_int s = Some produto_id)
  /\ (exists s, form_get req "quantidade" = Some s /\ py_int s = Some quantidade).

(** The customer of the form: [None] when [int] rejects the field,
    [Some None] for a sale without customer. *)
Definition sale_customer (req : Request) : option (option Z) :=
  match form_get req "cliente_id" with
  | Some s => if Py.truthy s then option_map Some (py_int s) else Some None
  | None => Some None
  end.

Definition get_produto (db : Tables) (produto_id : Z)
    : option (nat * Produto.t) :=
  list_find (fun p => Produto.id p = produto_id) (produtos db).

(** The tables after the sale of [quantidade] units of the product [p]
    stored at place [i]. *)
Definition sold (env : Env) (db : Tables) (i : nat) (p : Produto.t)
    (cliente_id : option Z) (quantidade : Z) (valor_total : Py.float)
    : Tables :=
  mkTables
    (<[i := Produto.set_quantidade (Produto.quantidade p - quantidade) p]>
       (produtos db))
    (clientes db)
    (vendas db ++
       [Venda.mk (next_id (Venda.id <$> vendas db)) (now env) quantidade
          valor_total (Produto.id p) cliente_id]).

(** The values that the sale of [quantidade] units of [p] writes are ones
    that the engine takes: the new stock, the quantity, the product id and
    the customer id are 64-bit integers, and neither the price of the row
    rewritten nor the total is a NaN. *)
Definition sale_taken (p : Produto.t) (produto_id quantidade : Z)
    (cliente_id : option Z) (valor_total : Py.float) : bool :=
  in_int64 (Produto.quantidade p - quantidade)
  && negb (Py.is_nan (Produto.preco p))
  && in_int64 quantidade && in_int64 produto_id
  && from_option in_int64 true cliente_id
  && negb (Py.is_nan valor_total).

Definition sale_ok : Response := Redirect "vendas" ("Venda registrada!", "success").
Definition sale_insufficient (restam : Z) : Response :=
  Redirect "nova_venda" (msg_estoque_insuficiente restam, "danger").

(** Every outcome of the POST, in the order the view reaches them. *)
Definition sale_outcome (env : Env) (db : Tables) (req : Request)
    (produto_id quantidade : Z) : Result Response * Tables :=
  match get_produto db produto_id with
  | None =>
      if negb (in_int64 produto_id) then (Raise OverflowError, db)
      else if decide (fault env = Some 0%nat) then (Raise DBError, db)
      else (Raise AttributeError, db)
  | Some (i, p) =>
      if decide (fault env = Some 0%nat) then (Raise DBError, db)
      else if Produto.quantidade p <? quantidade then
        (Return (sale_insufficient (Produto.quantidade p)), db)
      else
        match Py.float_mul_int (Produto.preco p) quantidade with
        | None => (Raise OverflowError, db)
        | Some valor_total =>
            match sale_customer req with
            | None => (Raise ValueError, db)
            | Some cliente_id =>
                let db' :=
                  sold env db i p cliente_id quantidade valor_total in
                match flush_refusal db db' with
                | Some e => (Raise e, db)
                | None =>
                    if decide (fault env = Some 1%nat)
                    then (Raise DBError, db)
                    else (Return sale_ok, db')
                end
            end
        end
  end.

End Sales.

(** The session after one more round trip, with these products. *)
Definition set_pending_produtos (s : Session) (l : list Produto.t) : Session :=
  mkSession (committed s)
    (mkTables l (clientes (pending s)) (vendas (pending s)))
    (S (calls s)).

(** The answer of the loop body for a row whose write leaves the
    products [seen]: the counters, unless the engine refuses a row
    written. *)
Definition written_answer (s : Session) (seen : list Produto.t)
    (counts : Z * Z) : Result (Z * Z) * Session :=
  let s' := set_pending_produtos s seen in
  (match flush_refusal (committed s) (pending s') with
   | Some e => Raise e
   | None => Return counts
   end, s').

(** The rows [V] of the sales table are still there, each at its place,
    in the tables the transaction sees and in the committed ones. *)
Definition sales_kept (V : list Venda.t) (s : Session) : Prop :=
  V `prefix_of` vendas (pending s) /\ V `prefix_of` vendas (committed s).

(** A computation that never touches a sales row it finds. *)
Definition keeps_sales {A} (m : M A) : Prop :=
  forall V env s, sales_kept V s -> sales_kept V (snd (m env s)).

(** A computation that leaves both sets of tables as they are. *)
Definition reads_only {A} (m : M A) : Prop :=
  forall env s,
    committed (snd (m env s)) = committed s
    /\ pending (snd (m env s)) = pending s.

(** ** CSV import, as the specification words it *)

Section ImportRules.

Variable py_int : string -> option Z.
Variable py_float : string -> option Py.float.

(** The fields read from one row. *)
Record Linha := mkLinha {
  linha_nome : string;
  linha_qtd : Z;
  linha_preco_venda : Py.float;
  linha_preco_custo : Py.float;
  linha_validade : string
}.

(** Section 4.6, parsing rules.  [None] is a skipped row: fewer than 3
    columns; a name that is blank once trimmed; a quantity that is not an
    integer; a price or a cost that is not a decimal once its commas are
    periods.  The cost is 0.0 when its column is absent or empty (a cost
    column of white space is not empty: it is read as a decimal), the
    expiry the empty string when its column is absent (trimmed
    otherwise). *)
Definition spec_parse_row (row : list string) : option Linha :=
  match row with
  | nome :: quantidade :: preco_venda :: rest =>
      if String.eqb (Py.strip nome) "" then None
      else
        match py_int quantidade, py_float (Py.replace_comma preco_venda) with
        | Some qtd, Some venda =>
            let custo :=
              match rest with
              | [] => Some Py.float_zero
              | preco_custo :: _ =>
                  if String.eqb preco_custo "" then Some Py.float_zero
                  else py_float (Py.replace_comma preco_custo)
              end in
            let validade :=
              match rest with
              | _ :: validade :: _ => Py.strip validade
              | _ => ""%string
              end in
            match custo with
            | Some custo =>
                Some (mkLinha (Py.strip nome) qtd venda custo validade)
            | None => None
            end
        | _, _ => None
        end
  | _ => None
  end.

(** The stored product after a row for it: the quantity is added to the
    stock; the cost replaces the purchase cost when it is above zero. *)
Definition restocked (l : Linha) (p : Produto.t) : Produto.t :=
  Produto.mk (Produto.id p) (Produto.nome p)
    (Produto.quantidade p + linha_qtd l) (Produto.preco p)
    (if Py.float_gt_zero (linha_preco_custo l)
     then Some (linha_preco_custo l) else Produto.preco_compra p)
    (Produto.validade p).

(** The product inserted for a row whose name is not stored; a cost that
    is a NaN is stored as no cost. *)
Definition inserted (l : Linha) (stored : list Produto.t) : Produto.t :=
  Produto.mk (next_id (Produto.id <$> stored)) (linha_nome l) (linha_qtd l)
    (linha_preco_venda l) (sql_real (Some (linha_preco_custo l)))
    (Some (linha_validade l)).

Definition find_nome (nome : string) (stored : list Produto.t)
    : option (nat * Produto.t) :=
  list_find (fun p => Produto.nome p = nome) stored.

(** The products after a parsed row. *)
Definition upserted (l : Linha) (stored : list Produto.t) : list Produto.t :=
  match find_nome (linha_nome l) stored with
  | Some (i, p) => <[i := restocked l p]> stored
  | None => stored ++ [inserted l stored]
  end.

(** The counters [(count_novos, count_at)] after a parsed row. *)
Definition counted (l : Linha) (stored : list Produto.t) (counts : Z * Z)
    : Z * Z :=
  match find_nome (linha_nome l) stored with
  | Some _ => (fst counts, snd counts + 1)
  | None => (fst counts + 1, snd counts)
  end.

(** The products and the counters after the rows of a file, in order. *)
Definition import_rows (rows : list (list string))
    (start : list Produto.t * (Z * Z)) : list Produto.t * (Z * Z) :=
  fold_left
    (fun acc row =>
       match spec_parse_row row with
       | Some l => (upserted l (fst acc), counted l (fst acc) (snd acc))
       | None => acc
       end)
    rows start.

(** The answer of a completed import. *)
Definition import_done (counts : Z * Z) : Response :=
  Redirect "index" (msg_importacao (fst counts) (snd counts), "success").

(** The error of the first row of the file whose write the engine
    refuses, if there is one: [stored] are the products on record and
    [seen] those of the transaction. *)
Fixpoint import_refusal (stored : list Produto.t) (rows : list (list string))
    (seen : list Produto.t) : option Exn :=
  match rows with
  | [] => None
  | row :: rest =>
      match spec_parse_row row with
      | None => import_refusal stored rest seen
      | Some l =>
          match first_refusal refuses_produto stored (upserted l seen) with
          | Some e => Some e
          | None => import_refusal stored rest (upserted l seen)
          end
      end
  end.

(** Every outcome of the loop over the rows, in the order the view
    reaches them: the round trip of the lookup, number [n] for the first
    row that is not skipped, then the write of the row. *)
Fixpoint import_outcome (env : Env) (stored : list Produto.t)
    (rows : list (list string)) (seen : list Produto.t) (counts : Z * Z)
    (n : nat) : Result (list Produto.t * (Z * Z)) :=
  match rows with
  | [] => Return (seen, counts)
  | row :: rest =>
      match spec_parse_row row with
      | None => import_outcome env stored rest seen counts n
      | Some l =>
          if decide (fault env = Some n) then Raise DBError
          else
            match first_refusal refuses_produto stored (upserted l seen) with
            | Some e => Raise e
            | None =>
                import_outcome env stored rest (upserted l seen)
                  (counted l seen counts) (S n)
            end
      end
  end.

(** The parsing rules as claim C6 words them: as above, but with the cost
    0.0 for a cost column that is blank, be it empty or white space. *)
Definition claimed_parse_row (row : list string) : option Linha :=
  match row with
  | nome :: quantidade :: preco_venda :: rest =>
      if String.eqb (Py.strip nome) "" then None
      else
        match py_int quantidade, py_float (Py.replace_comma preco_venda) with
        | Some qtd, Some venda =>
            let custo :=
              match rest with
              | [] => Some Py.float_zero
              | preco_custo :: _ =>
                  if String.eqb (Py.strip preco_custo) ""
                  then Some Py.float_zero
                  else py_float (Py.replace_comma preco_custo)
              end in
            let validade :=
              match rest with
              | _ :: validade :: _ => Py.strip validade
              | _ => ""%string
              end in
            match custo with
            | Some custo =>
                Some (mkLinha (Py.strip nome) qtd venda custo validade)
            | None => None
            end
        | _, _ => None
        end
  | _ => None
  end.

End ImportRules.

(** ** Trimmed strings *)

(** White space only. *)
Definition blank (s : string) : Prop :=
  Forall (fun c => Py.isspace c = true) (list_ascii_of_string s).

(** Not empty, and without white space at either end. *)
Definition trimmed (s : string) : Prop :=
  (exists c, head (list_ascii_of_string s) = Some c /\ Py.isspace c = false)
  /\ (exists c, last (list_ascii_of_string s) = Some c
                /\ Py.isspace c = false).

(** ** Properties of the tables kept by a computation *)

(** [I] holds of the tables the transaction sees and of the committed
    ones after the computation, when it held of both before. *)
Definition maintains {A} (I : Tables -> Prop) (m : M A) : Prop :=
  forall env s,
    I (pending s) -> I (committed s) ->
    I (pending (snd (m env s))) /\ I (committed (snd (m env s))).

(** No two rows of a table share a primary key. *)
Definition keys_unique (t : Tables) : Prop :=
  NoDup (Produto.id <$> produtos t)
  /\ NoDup (Cliente.id <$> clientes t)
  /\ NoDup (Venda.id <$> vendas t).

(** The tables a route is allowed to write to are the only ones that may
    differ between [t] and [t']. *)
Definition frame (r : Route) (t t' : Tables) : Prop :=
  match r with
  | RAdicionar | REditar _ | RDeletar _ | RImportarCsv =>
      clientes t' = clientes t /\ vendas t' = vendas t
  | RAdicionarCliente | REditarCliente _ | RDeletarCliente _ =>
      produtos t' = produtos t /\ vendas t' = vendas t
  | RNovaVenda => clientes t' = clientes t
  | RRelatorios => t' = t
  | RLimparVendas => produtos t' = produtos t /\ clientes t' = clientes t
  end.

(** ** Outcomes of the product and customer views *)

(** The tables with one more product, under a new id. *)
Definition added (db : Tables) (nome : string) (quantidade : Z)
    (preco : Py.float) (preco_compra : option Py.float)
    (validade : option string) : Tables :=
  mkTables
    (produtos db ++
       [Produto.mk (next_id (Produto.id <$> produtos db)) nome quantidade
          preco preco_compra validade])
    (clientes db) (vendas db).

Definition adicionar_ok : Response :=
  Redirect "index" ("Produto adicionado!", "success").
Definition editar_ok : Response := Redirect "index" ("Atualizado!", "success").
Definition deletar_ok : Response := Redirect "index" ("Removido.", "success").

(** The computation leaves the committed tables as they are. *)
Definition no_commit {A} (m : M A) : Prop :=
  forall env s, committed (snd (m env s)) = committed s.

(** The computation leaves the committed tables as they are unless it
    returns a value of [P]. *)
Definition commits_only_with {A} (P : A -> Prop) (m : M A) : Prop :=
  forall env s,
    committed (snd (m env s)) = committed s
    \/ exists a, fst (m env s) = Return a /\ P a.

(** The answers with which a route reports that it stored something. *)
Definition stored_answer (r : Route) (resp : Response) : Prop :=
  match r with
  | RAdicionar => resp = adicionar_ok
  | REditar _ => resp = editar_ok
  | RDeletar _ => resp = deletar_ok
  | RAdicionarCliente =>
      resp = Redirect "clientes" ("Cliente cadastrado!", "success")
  | REditarCliente _ =>
      resp = Redirect "clientes" ("Cliente atualizado!", "success")
  | RDeletarCliente _ =>
      resp = Redirect "clientes" ("Cliente removido.", "success")
  | RNovaVenda => resp = Redirect "vendas" ("Venda registrada!", "success")
  | RRelatorios => False
  | RImportarCsv =>
      exists count_novos count_at,
        resp = Redirect "index"
                 (msg_importacao count_novos count_at, "success")
  | RLimparVendas =>
      resp = Redirect "gerenciamento" (msg_historico_limpo, "success")
  end.


(** The tables without the product at place [i]. *)
Definition without_produto_at (db : Tables) (i : nat) : Tables :=
  mkTables (delete i (produtos db)) (clientes db) (vendas db).

(** [float(x) if x else None] when it returns. *)
Definition optional_float (py_float : string -> option Py.float)
    (x : option string) : option Py.float :=
  match x with
  | Some s => if Py.truthy s then py_float s else None
  | None => None
  end.

(** Every outcome of the deletion of a product, in the order the view
    reaches them. *)
Definition deletar_outcome (id : Z) (env : Env) (db : Tables)
    : Result Response * Tables :=
  match get_produto db id with
  | None =>
      if negb (in_int64 id) then (Raise OverflowError, db)
      else if decide (fault env = Some 0%nat) then (Raise DBError, db)
      else (Raise NotFound, db)
  | Some (i, _) =>
      if decide (fault env = Some 0%nat) then (Raise DBError, db)
      else if decide (fault env = Some 1%nat) then (Raise DBError, db)
      else (Return deletar_ok, without_produto_at db i)
  end.

(** ** More on the CSV import *)

Section ImportCounts.

Variable py_int : string -> option Z.
Variable py_float : string -> option Py.float.

(** The rows of a file that are not skipped. *)
Definition parsed_rows (rows : list (list string)) : list Linha :=
  omap (spec_parse_row py_int py_float) rows.

(** No two products share a name. *)
Definition names_unique (stored : list Produto.t) : Prop :=
  NoDup (Produto.nome <$> stored).

(** What the import never changes of a stored product. *)
Definition same_identity (p p' : Produto.t) : Prop :=
  Produto.id p' = Produto.id p
  /\ Produto.nome p' = Produto.nome p
  /\ Produto.preco p' = Produto.preco p
  /\ Produto.validade p' = Produto.validade p.

(** The stored products are all still there, each at its place and with
    the same identity. *)
Definition identities_kept (stored : list Produto.t) (t : Tables) : Prop :=
  forall j p, stored !! j = Some p ->
    exists p', produtos t !! j = Some p' /\ same_identity p p'.

(** The answer of an import that ended with the exception [e]. *)
Definition import_error (py_str_exn : Exn -> string) (e : Exn) : Response :=
  Redirect "gerenciamento" (("Erro: " ++ py_str_exn e)%string, "danger").

End ImportCounts.

(** ** Figures of the report (lines 279-290) *)

(** line 280: [sum(v.quantidade for v in vendas)] *)
Definition total_itens_vendidos (vendas : list Venda.t) : Z :=
  fold_left (fun acc v => acc + Venda.quantidade v) vendas 0.

(** [v.produto]: the product the sale refers to, if it is still stored. *)
Definition produto_of (t : Tables) (v : Venda.t) : option Produto.t :=
  snd <$> list_find (fun p => Produto.id p = Venda.produto_id v) (produtos t).

(** [d[k] = d.get(k, 0) + n], the dict being the list of its items in the
    order of insertion. *)
Definition dict_add (k : string) (n : Z) (d : list (string * Z))
    : list (string * Z) :=
  match list_find (fun kv => fst kv = k) d with
  | Some (i, kv) => <[i := (k, snd kv + n)]> d
  | None => d ++ [(k, 0 + n)]
  end.

(** lines 285-288 *)
Definition vendas_por_produto (t : Tables) : list (string * Z) :=
  fold_left
    (fun d v =>
       match produto_of t v with
       | Some p => dict_add (Produto.nome p) (Venda.quantidade v) d
       | None => d
       end)
    (vendas t) [].

(** lines 289-290 *)
Definition grafico_prod_labels (t : Tables) : list string :=
  fst <$> vendas_por_produto t.
Definition grafico_prod_values (t : Tables) : list Z :=
  snd <$> vendas_por_produto t.

(** The units sold, over the sales [vs], of the stored products named
    [name]. *)
Definition units_sold (t : Tables) (name : string) (vs : list Venda.t) : Z :=
  foldr
    (fun v acc =>
       if decide (Produto.nome <$> produto_of t v = Some name)
       then Venda.quantidade v + acc else acc)
    0 vs.

(** [sum(l)] for a list of ints *)
Definition sum_ints (l : list Z) : Z := fold_left Z.add l 0.

(** The sales whose product is still stored. *)
Definition resolvable (t : Tables) (vs : list Venda.t) : list Venda.t :=
  List.filter (fun v => bool_decide (is_Some (produto_of t v))) vs.

(** ** CSV export (lines 361-383) *)

(** What is handed to [csv.writer]: an int, a str, a float, a datetime or
    None. *)
Inductive Cell :=
| CInt (n : Z)
| CStr (s : string)
| CFloat (x : Py.float)
| CDate (t : Z)
| CNone.

Definition cell_of_float (x : option Py.float) : Cell :=
  match x with Some f => CFloat f | None => CNone end.
Definition cell_of_str (x : option string) : Cell :=
  match x with Some s => CStr s | None => CNone end.

(** The response: the file name of the attachment and the rows written. *)
Record Attachment := mkAttachment {
  att_filename : string;
  att_rows : list (list Cell)
}.

Definition header_produtos : list Cell :=
  [CStr "ID"; CStr "Nome"; CStr "Quantidade";
   CStr ("Pre" ++ String "231"%char "o Venda");
   CStr ("Pre" ++ String "231"%char "o Custo")].
Definition header_vendas : list Cell :=
  [CStr "ID"; CStr "Data"; CStr "Produto"; CStr "Cliente"; CStr "Qtd";
   CStr "Total"].
Definition header_clientes : list Cell :=
  [CStr "ID"; CStr "Nome"; CStr "Telefone"; CStr "Email"; CStr "Cidade"].

Definition removido : string := "Removido".
Definition balcao : string := "Balc" ++ String "227"%char "o".

Definition row_produto (i : Produto.t) : list Cell :=
  [CInt (Produto.id i); CStr (Produto.nome i); CInt (Produto.quantidade i);
   CFloat (Produto.preco i); cell_of_float (Produto.preco_compra i)].

Definition row_cliente (i : Cliente.t) : list Cell :=
  [CInt (Cliente.id i); CStr (Cliente.nome i); cell_of_str (Cliente.telefone i);
   cell_of_str (Cliente.email i); cell_of_str (Cliente.cidade i)].

Definition row_venda (i : Venda.t) (p_nome c_nome : string) : list Cell :=
  [CInt (Venda.id i); CDate (Venda.data i); CStr p_nome; CStr c_nome;
   CInt (Venda.quantidade i); CFloat (Venda.valor_total i)].

(** [i.produto]: the related row by primary key.  The session answers
    from the objects it has loaded ([loaded], their ids) and asks the
    engine otherwise; a row that is found is loaded from then on. *)
Definition load_produto (loaded : list Z) (id : Z)
    : M (option Produto.t * list Z) :=
  t <- get_pending ;;
  let found := snd <$> list_find (fun p => Produto.id p = id) (produtos t) in
  if bool_decide (id ∈ loaded) then ret (found, loaded)
  else
    db_call ;;;
    ret (found, match found with Some _ => id :: loaded | None => loaded end).

(** [i.cliente]; no customer id, no load. *)
Definition load_cliente (loaded : list Z) (id : option Z)
    : M (option Cliente.t * list Z) :=
  match id with
  | None => ret (None, loaded)
  | Some id =>
      t <- get_pending ;;
      let found := snd <$> list_find (fun c => Cliente.id c = id) (clientes t) in
      if bool_decide (id ∈ loaded) then ret (found, loaded)
      else
        db_call ;;;
        ret (found, match found with Some _ => id :: loaded | None => loaded end)
  end.

(** lines 374-377 *)
Fixpoint export_vendas (vs : list Venda.t) (loaded_p loaded_c : list Z)
    : M (list (list Cell)) :=
  match vs with
  | [] => ret []
  | i :: rest =>
      produto <- load_produto loaded_p (Venda.produto_id i) ;;
      let p_nome :=
        match fst produto with Some p => Produto.nome p | None => removido end in
      cliente <- load_cliente loaded_c (Venda.cliente_id i) ;;
      let c_nome :=
        match fst cliente with Some c => Cliente.nome c | None => balcao end in
      rows <- export_vendas rest (snd produto) (snd cliente) ;;
      ret (row_venda i p_nome c_nome :: rows)
  end.

(** lines 361-383 *)
Definition exportar (tipo : string) : M Attachment :=
  if String.eqb tipo "produtos" then
    db_call ;;;
    t <- get_pending ;;
    ret (mkAttachment "produtos.csv"
           (header_produtos :: (row_produto <$> produtos t)))
  else if String.eqb tipo "vendas" then
    db_call ;;;
    t <- get_pending ;;
    rows <- export_vendas (vendas t) [] [] ;;
    ret (mkAttachment "vendas.csv" (header_vendas :: rows))
  else if String.eqb tipo "clientes" then
    db_call ;;;
    t <- get_pending ;;
    ret (mkAttachment "clientes.csv"
           (header_clientes :: (row_cliente <$> clientes t)))
  else ret (mkAttachment "dados.csv" []).

(** One request to a view of any answer type. *)
Definition serve_as {A} (v : M A) (env : Env) (db : Tables)
    : Result A * Tables :=
  let '(r, s) := v env (mkSession db db 0) in (r, committed s).

(** [i.cliente] *)
Definition cliente_of (t : Tables) (v : Venda.t) : option Cliente.t :=
  match Venda.cliente_id v with
  | Some id => snd <$> list_find (fun c => Cliente.id c = id) (clientes t)
  | None => None
  end.

(** The row of the sales export for one sale. *)
Definition export_row_venda (t : Tables) (i : Venda.t) : list Cell :=
  row_venda i
    match produto_of t i with Some p => Produto.nome p | None => removido end
    match cliente_of t i with Some c => Cliente.nome c | None => balcao end.

Section ExportText.

(** [str(x)] for a float and for a datetime, as the writer calls it. *)
Variable py_str_float : Py.float -> string.
Variable py_str_datetime : Z -> string.

(** The text the writer puts in a cell; None gives the empty string. *)
Definition cell_text (c : Cell) : string :=
  match c with
  | CInt n => Py.str_of_int n
  | CStr s => s
  | CFloat x => py_str_float x
  | CDate t => py_str_datetime t
  | CNone => ""
  end.

(** An exported file read back: the cells as text, row by row. *)
Definition read_back (a : Attachment) : list (list string) :=
  List.map (List.map cell_text) (att_rows a).

End ExportText.

(** POST /importar_csv with this file. *)
Definition upload_request (name : string) (rows : list (list string))
    : Request :=
  mkRequest POST [] [("arquivo_csv"%string, mkUpload name rows)].

(** ** Configuration (lines 23-29) *)

Fixpoint string_drop (n : nat) (s : string) : string :=
  match n, s with
  | O, _ => s
  | S n', String _ s' => string_drop n' s'
  | S _, EmptyString => EmptyString
  end.

(** [s.replace(old, new, 1)], for a non-empty [old]: the leftmost
    occurrence. *)
Fixpoint replace_first (old new s : string) : string :=
  if String.prefix old s then (new ++ string_drop (String.length old) s)%string
  else
    match s with
    | EmptyString => EmptyString
    | String c s' => String c (replace_first old new s')
    end.

(** The database URI handed to SQLAlchemy, from the value of the
    environment variable DATABASE_URL ([None] when it is not set). *)
Definition database_uri (database_url : option string) : string :=
  let database_url :=
    match database_url with
    | Some u =>
        if Py.truthy u && String.prefix "postgres://" u
        then Some (replace_first "postgres://" "postgresql://" u)
        else Some u
    | None => None
    end in
  match database_url with
  | Some u => if Py.truthy u then u else "sqlite:///estoque.db"%string
  | None => "sqlite:///estoque.db"%string
  end.

(** ** Authentication (lines 39-56, 93-129) *)

Module User.

Record t := mk {
  id : Z;
  username : string;
  password_hash : string
}.

End User.

(** The users table, committed and as the transaction sees it, the round
    trips made, and the user id that Flask-Login keeps in the browser
    session ([None] for a visitor who is not logged in). *)
Record AuthSession := mkAuthSession {
  users_committed : list User.t;
  users_pending : list User.t;
  auth_calls : nat;
  logged_in : option Z
}.

Definition AM (A : Type) : Type :=
  Env -> AuthSession -> Result A * AuthSession.

Definition aret {A} (a : A) : AM A := fun _ s => (Return a, s).
Definition araise {A} (e : Exn) : AM A := fun _ s => (Raise e, s).
Definition abind {A B} (m : AM A) (k : A -> AM B) : AM B :=
  fun env s =>
    match m env s with
    | (Return a, s') => k a env s'
    | (Raise e, s') => (Raise e, s')
    end.

Notation "x <~ m ;; k" := (abind m (fun x => k))
  (at level 100, m at next level, right associativity).
Notation "m ;;~ k" := (abind m (fun _ => k))
  (at level 100, right associativity).

Definition a_of_option {A} (e : Exn) (o : option A) : AM A :=
  match o with Some a => aret a | None => araise e end.

(** One round trip to the storage engine. *)
Definition a_db_call : AM unit :=
  fun env s =>
    let s' := mkAuthSession (users_committed s) (users_pending s)
                (S (auth_calls s)) (logged_in s) in
    match fault env with
    | Some n =>
        if Nat.eqb n (auth_calls s) then (Raise DBError, s')
        else (Return tt, s')
    | None => (Return tt, s')
    end.

(** User.query.filter_by(username=username).first() *)
Definition User_query_filter_by_username_first (username : string)
    : AM (option User.t) :=
  a_db_call ;;~
  fun _ s =>
    (Return (snd <$> list_find (fun u => User.username u = username)
                       (users_pending s)), s).

(** lines 39-41: load_user, User.query.get(int(user_id)) *)
Definition load_user (user_id : Z) : AM (option User.t) :=
  a_db_call ;;~
  fun _ s =>
    (Return (snd <$> list_find (fun u => User.id u = user_id)
                       (users_pending s)), s).

(** current_user.is_authenticated: the id kept in the browser session, if
    any, is looked up with [load_user]. *)
Definition is_authenticated : AM bool :=
  fun env s =>
    match logged_in s with
    | Some user_id =>
        (u <~ load_user user_id ;; aret (bool_decide (is_Some u))) env s
    | None => (Return false, s)
    end.

(** login_user(user) *)
Definition login_user (u : User.t) : AM unit :=
  fun _ s =>
    (Return tt,
     mkAuthSession (users_committed s) (users_pending s) (auth_calls s)
       (Some (User.id u))).

(** db.session.add(User(...)) and db.session.commit() *)
Definition add_user (username password_hash : string) : AM unit :=
  fun _ s =>
    (Return tt,
     mkAuthSession (users_committed s)
       (users_pending s ++
          [User.mk (next_id (User.id <$> users_pending s)) username
             password_hash])
       (auth_calls s) (logged_in s)).

Definition a_commit : AM unit :=
  a_db_call ;;~
  fun _ s =>
    (Return tt,
     mkAuthSession (users_pending s) (users_pending s) (auth_calls s)
       (logged_in s)).

(** What an authentication view answers: a redirect or a page, with the
    message flashed before it, if any. *)
Inductive AuthResponse :=
| ARedirect (endpoint : string) (flash : option (string * string))
| ARender (template : string) (flash : option (string * string)).

Definition msg_usuario_existe : string :=
  "Usu" ++ String "225"%char "rio j" ++ String "225"%char " existe.".
Definition msg_conta_criada : string :=
  "Conta criada! Fa" ++ String "231"%char "a login.".
Definition msg_credenciais : string :=
  "Usu" ++ String "225"%char "rio ou senha incorretos.".

Section Auth.

(** werkzeug's [generate_password_hash], with the salt it draws, and
    [check_password_hash]. *)
Variable generate_password_hash : string -> string -> string.
Variable check_password_hash : string -> string -> bool.

(** lines 111-129; [salt] is the salt drawn for this request. *)
Definition registrar (salt : string) (req : Request) : AM AuthResponse :=
  match method req with
  | POST =>
      username <~ a_of_option BadRequestKeyError (form_get req "username") ;;
      password <~ a_of_option BadRequestKeyError (form_get req "password") ;;
      existing <~ User_query_filter_by_username_first username ;;
      match existing with
      | Some _ =>
          aret (ARedirect "registrar"
                  (Some (msg_usuario_existe, "danger"%string)))
      | None =>
          add_user username (generate_password_hash salt password) ;;~
          a_commit ;;~
          aret (ARedirect "login" (Some (msg_conta_criada, "success"%string)))
      end
  | GET => aret (ARender "registrar.html" None)
  end.

(** lines 93-109 *)
Definition login (req : Request) : AM AuthResponse :=
  authenticated <~ is_authenticated ;;
  if authenticated : bool then aret (ARedirect "index" None)
  else
    match method req with
    | POST =>
        username <~ a_of_option BadRequestKeyError (form_get req "username") ;;
        password <~ a_of_option BadRequestKeyError (form_get req "password") ;;
        user <~ User_query_filter_by_username_first username ;;
        match user with
        | Some u =>
            if check_password_hash (User.password_hash u) password then
              login_user u ;;~ aret (ARedirect "index" None)
            else
              aret (ARender "login.html"
                      (Some (msg_credenciais, "danger"%string)))
        | None =>
            aret (ARender "login.html"
                    (Some (msg_credenciais, "danger"%string)))
        end
    | GET => aret (ARender "login.html" None)
    end.

(** One request: the view runs on the stored users, in the browser
    session of the visitor; it gives the answer, the users stored after
    it, and the browser session after it. *)
Definition auth_serve (v : AM AuthResponse) (env : Env)
    (users : list User.t) (visitor : option Z)
    : Result AuthResponse * list User.t * option Z :=
  let '(r, s) := v env (mkAuthSession users users 0 visitor) in
  (r, users_committed s, logged_in s).

End Auth.

(** ** The import template (lines 309-317) *)


(** ** An instance of the parsers, for the examples

    Plain decimal literals only: an optional minus sign and digits for
    [int]; an optional minus sign, digits and at most one point for
    [float], when the digits fit 53 bits and there are at most 22 of them
    after the point (one correctly rounded division then gives the
    nearest binary64 value), and the two words "nan" and "inf".
    Everything else is rejected here. *)

Module Sample.

Fixpoint digits_value (s : string) (acc : Z) : option Z :=
  match s with
  | EmptyString => Some acc
  | String c s' =>
      let n := Z.of_N (N_of_ascii c) in
      if (48 <=? n) && (n <=? 57) then digits_value s' (10 * acc + (n - 48))
      else None
  end.

Definition int (s : string) : option Z :=
  match s with
  | EmptyString => None
  | String "-" EmptyString => None
  | String "-" s' => Z.opp <$> digits_value s' 0
  | _ => digits_value s 0
  end.

Fixpoint split_dot (s : string) : string * option string :=
  match s with
  | EmptyString => (EmptyString, None)
  | String "." s' => (EmptyString, Some s')
  | String c s' => let '(a, b) := split_dot s' in (String c a, b)
  end.

Definition float_of_nat_ratio (m k : Z) : Py.float :=
  SFdiv Py.prec Py.emax
    (binary_normalize Py.prec Py.emax m 0 false)
    (binary_normalize Py.prec Py.emax (10 ^ k) 0 false).

Definition float_pos (s : string) : option Py.float :=
  let '(a, b) := split_dot s in
  let b := default EmptyString b in
  if String.eqb (a ++ b) "" then None
  else
    match digits_value (a ++ b) 0 with
    | Some m =>
        let k := Z.of_nat (String.length b) in
        if (m <? 2 ^ 53) && (k <=? 22) then Some (float_of_nat_ratio m k)
        else None
    | None => None
    end.

Definition float (s : string) : option Py.float :=
  if String.eqb s "nan" then Some S754_nan
  else if String.eqb s "inf" then Some (S754_infinity false)
  else
    match s with
    | String "-" s' => SFopp <$> float_pos s'
    | _ => float_pos s
    end.

(** [str(e)]: here the name of the class. *)
Definition str_exn (e : Exn) : string :=
  match e with
  | BadRequestKeyError => "BadRequestKeyError"
  | NotFound => "NotFound"
  | ValueError => "ValueError"
  | IndexError => "IndexError"
  | AttributeError => "AttributeError"
  | OverflowError => "OverflowError"
  | IntegrityError => "IntegrityError"
  | DBError => "DBError"
  end.

(** No fault, at instant 0. *)
Definition quiet : Env := mkEnv None 0.

(** 5.0 and 15.0 *)
Definition five : Py.float := S754_finite false 5629499534213120 (-50).
Definition fifteen : Py.float := S754_finite false 8444249301319680 (-49).

(** Product("Widget", qty=10, price=5.00) *)
Definition widget : Produto.t := Produto.mk 1 "Widget" 10 five None None.
Definition widget_db : Tables := mkTables [widget] [] [].

(** POST /vendas/nova for [quantidade] units of product 1, no customer. *)
Definition sale_of (quantidade : string) : Request :=
  mkRequest POST
    [("produto_id", "1"); ("cliente_id", ""); ("quantidade", quantidade)]%string
    [].

(** The same for any product id, without the customer field. *)
Definition sale_of_product (produto_id quantidade : string) : Request :=
  mkRequest POST
    [("produto_id", produto_id); ("quantidade", quantidade)]%string [].

(** The row ("Widget", 5, "10,50", "", "") of the specification. *)
Definition widget_row : list string :=
  ["Widget"; "5"; "10,50"; ""; ""]%string.

(** The same row with white space around the name. *)
Definition padded_row : list string :=
  ["  Widget "; "5"; "10,50"; ""; ""]%string.

(** 10.5 *)
Definition ten_and_a_half : Py.float := S754_finite false 5910974510923776 (-49).

(** Products with 0, 4 and 5 units in stock. *)
Definition stock_db : Tables :=
  mkTables
    [Produto.mk 1 "A" 0 five None None;
     Produto.mk 2 "B" 4 five None None;
     Produto.mk 3 "C" 5 five None None]
    [] [].

(** One sale of the widget on record. *)
Definition sold_db : Tables :=
  mkTables [widget] [] [Venda.mk 1 0 3 fifteen 1 None].

(** POST /editar/1 that sets the price of the widget to 10.5. *)
Definition price_change : Request :=
  mkRequest POST
    [("nome", "Widget"); ("quantidade", "10"); ("preco", "10.5")]%string [].

(** Two products of one name. *)
Definition twin_db : Tables :=
  mkTables
    [Produto.mk 1 "Widget" 10 five None None;
     Produto.mk 2 "Widget" 4 five (Some five) None]
    [] [].

(** POST /importar_csv with the header and these rows. *)
Definition upload_of (body : list (list string)) : Request :=
  mkRequest POST []
    [("arquivo_csv"%string,
      mkUpload "estoque.csv"
        (["nome"; "quantidade"; "preco_venda"; "preco_custo"; "validade"]%string
           :: body))].

(** The int -2^1024, as the form carries it. *)
Definition minus_two_to_1024 : string :=
  "-179769313486231590772930519078902473361797697894230657273430081157732675805500963132708477322407536021120113879871393357658789768814416622492847430639474124377767893424865485276302219601246094119453082952085005768838150682342462881473913110540827237163350510684586298239947245938479716304835356329624224137216".

(** POST /adicionar for 3 gadgets at 5.00, no cost and no expiry. *)
Definition new_product : Request :=
  mkRequest POST
    [("nome", "Gadget"); ("quantidade", "3"); ("preco", "5")]%string [].

(** The same with "nan" as the purchase cost. *)
Definition new_product_nan_cost : Request :=
  mkRequest POST
    [("nome", "Gadget"); ("quantidade", "3"); ("preco", "5");
     ("preco_compra", "nan")]%string [].




(** [str(x)] on the floats and the instants of the examples. *)
Definition str_float (x : Py.float) : string :=
  if SFeqb x five then "5.0" else "0.0".
Definition str_datetime (t : Z) : string := Py.str_of_int t.

(** A transparent stand-in for werkzeug's pair: the salt, a dollar sign
    and the password. *)
Fixpoint after_dollar (s : string) : string :=
  match s with
  | EmptyString => EmptyString
  | String "$" s' => s'
  | String _ s' => after_dollar s'
  end.
Definition generate_password_hash (salt password : string) : string :=
  (salt ++ "$" ++ password)%string.
Definition check_password_hash (hash password : string) : bool :=
  String.eqb (after_dollar hash) password.

(** One registered user, and the form of the two authentication views. *)
Definition ana : User.t := User.mk 1 "ana" "x$secret".
Definition credentials (username password : string) : Request :=
  mkRequest POST [("username", username); ("password", password)]%string [].

End Sample.

(* ================================================================ *)
(** * Properties *)

(** ** Running a computation *)

Lemma alter_found {A} (P : A -> Prop) `{!forall x, Decision (P x)}
    (f : A -> A) (l : list A) (i : nat) (x : A) :
  list_find P l = Some (i, x) -> alter f i l = <[i := f x]> l.
Proof.
  intros Hfind. apply list_find_Some in Hfind as (Hi & _ & _).
  apply list_eq. intros j. destruct (decide (i = j)) as [<-|Hne].
  - rewrite list_lookup_alter_eq, Hi. simpl.
    symmetry. apply list_lookup_insert_eq. eapply lookup_lt_Some; eauto.
  - rewrite list_lookup_alter_ne, list_lookup_insert_ne by done. done.
Qed.

Lemma db_call_answers env s :
  answers env (calls s) ->
  db_call env s = (Return tt, mkSession (committed s) (pending s) (S (calls s))).
Proof.
  unfold answers, db_call. intros H. destruct (fault env) as [n|]; [|done].
  destruct (Nat.eqb_spec n (calls s)); [congruence | done].
Qed.

Lemma db_call_refused env s :
  fault env = Some (calls s) ->
  db_call env s = (Raise DBError, mkSession (committed s) (pending s) (S (calls s))).
Proof.
  unfold db_call. intros ->. rewrite Nat.eqb_refl. done.
Qed.

Lemma db_call_cases env s :
  (db_call env s = (Return tt, mkSession (committed s) (pending s) (S (calls s)))
   /\ answers env (calls s))
  \/ (db_call env s = (Raise DBError, mkSession (committed s) (pending s) (S (calls s)))
      /\ fault env = Some (calls s)).
Proof.
  destruct (decide (fault env = Some (calls s))) as [H|H].
  - right. split; [by apply db_call_refused | done].
  - left. split; [by apply db_call_answers | done].
Qed.

Lemma db_call_run env s :
  db_call env s
  = (if decide (fault env = Some (calls s)) then Raise DBError else Return tt,
     mkSession (committed s) (pending s) (S (calls s))).
Proof.
  destruct (db_call_cases env s) as [[-> Ha]|[-> Hf]].
  - by rewrite decide_False.
  - by rewrite decide_True.
Qed.

(** ** What a flush writes *)

Section Written.

Context {A : Type} `{EqDecision A}.

Lemma written_app (stored l1 l2 : list A) :
  written stored (l1 ++ l2) = written stored l1 ++ written stored l2.
Proof. apply filter_app. Qed.

Lemma written_one (stored : list A) (x : A) :
  written stored [x] = if decide (x ∈ stored) then [] else [x].
Proof.
  unfold written. rewrite filter_cons. simpl.
  destruct (decide (x ∈ stored)).
  - by rewrite decide_False by tauto.
  - by rewrite decide_True.
Qed.

(** Rows that are stored as they are seen are not written. *)
Lemma written_stored (stored seen : list A) :
  seen ⊆ stored -> written stored seen = [].
Proof.
  intros Hsub. unfold written. induction seen as [|x seen IH]; [done|].
  rewrite filter_cons, decide_False.
  - apply IH. intros y Hy. apply Hsub. by right.
  - intros Hx. apply Hx, Hsub. by left.
Qed.

Lemma written_snoc (stored seen : list A) (x : A) :
  seen ⊆ stored ->
  written stored (seen ++ [x]) = if decide (x ∈ stored) then [] else [x].
Proof.
  intros Hsub. by rewrite written_app, written_stored, written_one.
Qed.

Lemma written_insert (stored seen : list A) (i : nat) (x : A) :
  (i < length seen)%nat -> seen ⊆ stored ->
  written stored (<[i := x]> seen) = if decide (x ∈ stored) then [] else [x].
Proof.
  intros Hi Hsub. rewrite insert_take_drop by done.
  change (x :: drop (S i) seen) with ([x] ++ drop (S i) seen).
  rewrite !written_app, written_one.
  rewrite (written_stored _ (take i seen)), (written_stored _ (drop _ seen)).
  - by rewrite app_nil_r.
  - intros y Hy. apply Hsub. eapply elem_of_sublist; [exact Hy|].
    apply sublist_drop.
  - intros y Hy. apply Hsub. eapply elem_of_sublist; [exact Hy|].
    apply sublist_take.
Qed.

Lemma written_delete (stored seen : list A) (i : nat) :
  seen ⊆ stored -> written stored (delete i seen) = [].
Proof.
  intros Hsub. apply written_stored. intros y Hy. apply Hsub.
  by eapply list_elem_of_delete_inv.
Qed.

(** No row written is refused: every row seen is stored or is taken. *)
Lemma first_refusal_None (refuses : A -> option Exn) (stored seen : list A) :
  first_refusal refuses stored seen = None
  <-> Forall (fun r => r ∈ stored \/ refuses r = None) seen.
Proof.
  unfold first_refusal, written. induction seen as [|x seen IH]; [done|].
  rewrite filter_cons, Forall_cons.
  destruct (decide (x ∉ stored)) as [Hx|Hx]; simpl.
  - destruct (refuses x) as [e|] eqn:Hr; simpl.
    + split; [done|]. intros [[?|?] _]; done.
    + rewrite IH. split; [by split; [right|] | by intros [_ ?]].
  - rewrite IH. apply dec_stable in Hx.
    split; [by split; [left|] | by intros [_ ?]].
Qed.

Lemma first_refusal_stored (refuses : A -> option Exn) (stored seen : list A) :
  seen ⊆ stored -> first_refusal refuses stored seen = None.
Proof. intros Hsub. unfold first_refusal. by rewrite written_stored. Qed.

Lemma first_refusal_insert (refuses : A -> option Exn) (stored seen : list A)
    (i : nat) (x : A) :
  (i < length seen)%nat -> seen ⊆ stored ->
  first_refusal refuses stored (<[i := x]> seen)
  = if decide (x ∈ stored) then None else refuses x.
Proof.
  intros Hi Hsub. unfold first_refusal. rewrite written_insert by done.
  destruct (decide _); [done|]. simpl. by destruct (refuses x).
Qed.

Lemma first_refusal_snoc (refuses : A -> option Exn) (stored seen : list A)
    (x : A) :
  seen ⊆ stored ->
  first_refusal refuses stored (seen ++ [x])
  = if decide (x ∈ stored) then None else refuses x.
Proof.
  intros Hsub. unfold first_refusal. rewrite written_snoc by done.
  destruct (decide _); [done|]. simpl. by destruct (refuses x).
Qed.

End Written.

Lemma flush_refusal_same (t : Tables) : flush_refusal t t = None.
Proof. unfold flush_refusal. by rewrite !first_refusal_stored. Qed.

Lemma flush_run env s :
  flush env s
  = (match flush_refusal (committed s) (pending s) with
     | Some e => Raise e
     | None => Return tt
     end, s).
Proof. unfold flush. by destruct (flush_refusal _ _). Qed.

(** The commit: the flush, then the round trip of the COMMIT. *)
Lemma commit_run env s :
  commit env s
  = match flush_refusal (committed s) (pending s) with
    | Some e => (Raise e, s)
    | None =>
        if decide (fault env = Some (calls s))
        then (Raise DBError, mkSession (committed s) (pending s) (S (calls s)))
        else (Return tt, mkSession (pending s) (pending s) (S (calls s)))
    end.
Proof.
  unfold commit, bind at 1. rewrite flush_run.
  destruct (flush_refusal _ _); [done|].
  unfold bind. rewrite db_call_run. by destruct (decide _).
Qed.

Lemma query_get_run {A} (key : A -> Z) (rows : list A) (id : Z) env s :
  query_get key rows id env s
  = match list_find (fun r => key r = id) rows with
    | None =>
        if negb (in_int64 id) then (Raise OverflowError, s)
        else
          (if decide (fault env = Some (calls s)) then Raise DBError
           else Return None,
           mkSession (committed s) (pending s) (S (calls s)))
    | Some found =>
        (if decide (fault env = Some (calls s)) then Raise DBError
         else Return (Some found),
         mkSession (committed s) (pending s) (S (calls s)))
    end.
Proof.
  unfold query_get. destruct (list_find _ rows) as [found|].
  - unfold bind. rewrite db_call_run. by destruct (decide _).
  - destruct (in_int64 id); [|done]. simpl.
    unfold bind. rewrite db_call_run. by destruct (decide _).
Qed.

Lemma Produto_query_get_run id env s :
  Produto_query_get id env s
  = match list_find (fun p => Produto.id p = id) (produtos (pending s)) with
    | None =>
        if negb (in_int64 id) then (Raise OverflowError, s)
        else
          (if decide (fault env = Some (calls s)) then Raise DBError
           else Return None,
           mkSession (committed s) (pending s) (S (calls s)))
    | Some found =>
        (if decide (fault env = Some (calls s)) then Raise DBError
         else Return (Some found),
         mkSession (committed s) (pending s) (S (calls s)))
    end.
Proof. unfold Produto_query_get, bind. simpl. apply query_get_run. Qed.

Lemma Cliente_query_get_run id env s :
  Cliente_query_get id env s
  = match list_find (fun c => Cliente.id c = id) (clientes (pending s)) with
    | None =>
        if negb (in_int64 id) then (Raise OverflowError, s)
        else
          (if decide (fault env = Some (calls s)) then Raise DBError
           else Return None,
           mkSession (committed s) (pending s) (S (calls s)))
    | Some found =>
        (if decide (fault env = Some (calls s)) then Raise DBError
         else Return (Some found),
         mkSession (committed s) (pending s) (S (calls s)))
    end.
Proof. unfold Cliente_query_get, bind. simpl. apply query_get_run. Qed.

(** The key of a new row is not the key of a row of the table. *)
Lemma next_id_not_in {A} (key : A -> Z) (rows : list A) (x : A) :
  key x = next_id (key <$> rows) -> x ∉ rows.
Proof.
  intros Hx Hin.
  assert (Hlt : key x < next_id (key <$> rows)).
  { unfold next_id. clear Hx. induction rows as [|y rows IH].
    - by apply elem_of_nil in Hin.
    - rewrite fmap_cons. cbn [fold_right].
      apply elem_of_cons in Hin as [->|Hin]; [lia|]. specialize (IH Hin). lia. }
  lia.
Qed.

(** ** Binary64 facts *)

Lemma digits2_pos_log2 p : Zpos (digits2_pos p) = Z.log2 (Zpos p) + 1.
Proof.
  assert (H : forall q, digits2_pos q = Pos.size q).
  { induction q; simpl; congruence. }
  destruct p; simpl; rewrite ?H; lia.
Qed.

Lemma shr_1_m r : 0 <= shr_m r -> shr_m (shr_1 r) = Z.div2 (shr_m r).
Proof.
  destruct r as [m rb sb]. simpl. intros Hm.
  destruct m as [|[p|p|]|p]; simpl; try reflexivity; lia.
Qed.

Lemma iter_shr_1_m p : forall r,
  0 <= shr_m r -> shr_m (SpecFloat.iter_pos shr_1 p r) = Z.shiftr (shr_m r) (Zpos p).
Proof.
  induction p as [p IH|p IH|]; intros r Hr; simpl.
  - assert (H1 : 0 <= shr_m (shr_1 r)).
    { rewrite shr_1_m, Z.div2_spec by done. by apply Z.shiftr_nonneg. }
    assert (H2 : 0 <= shr_m (SpecFloat.iter_pos shr_1 p (shr_1 r))).
    { rewrite IH by done. by apply Z.shiftr_nonneg. }
    rewrite IH, IH, shr_1_m, Z.div2_spec, !Z.shiftr_shiftr by (done || lia).
    f_equal. lia.
  - assert (H2 : 0 <= shr_m (SpecFloat.iter_pos shr_1 p r)).
    { rewrite IH by done. by apply Z.shiftr_nonneg. }
    rewrite IH, IH, !Z.shiftr_shiftr by (done || lia).
    f_equal. lia.
  - rewrite shr_1_m, Z.div2_spec by done. reflexivity.
Qed.

Lemma shr_record_of_loc_m m l : shr_m (shr_record_of_loc m l) = m.
Proof. by destruct l as [|[]]. Qed.

(** Shifting to the canonical exponent keeps the position of the leading
    bit, for a mantissa above the smallest subnormal. *)
Lemma shr_fexp_leading m e l :
  0 < m ->
  emin Py.prec Py.emax <= Z.log2 m + e ->
  exists r e',
    shr_fexp Py.prec Py.emax m e l = (r, e')
    /\ 0 < shr_m r
    /\ Z.log2 (shr_m r) + e' = Z.log2 m + e.
Proof.
  intros Hm Hmin. unfold shr_fexp, shr.
  assert (Hd : Zdigits2 m = Z.log2 m + 1).
  { destruct m as [|p|p]; [lia| |lia]. apply digits2_pos_log2. }
  rewrite Hd.
  set (n := fexp Py.prec Py.emax (Z.log2 m + 1 + e) - e).
  assert (Hn : n <= Z.log2 m).
  { unfold n, fexp, emin, Py.prec, Py.emax in *. lia. }
  pose proof (Z.log2_nonneg m) as Hlog.
  destruct n as [|p|p] eqn:Hp.
  - eexists _, _. split; [reflexivity|]. rewrite shr_record_of_loc_m. lia.
  - eexists _, _. split; [reflexivity|].
    rewrite iter_shr_1_m by (rewrite shr_record_of_loc_m; lia).
    rewrite shr_record_of_loc_m.
    assert (Hnz : Z.shiftr m (Z.pos p) <> 0).
    { rewrite Z.shiftr_eq_0_iff. lia. }
    pose proof (Z.shiftr_nonneg m (Z.pos p)) as Hnn.
    split; [lia|]. rewrite Z.log2_shiftr by done. lia.
  - eexists _, _. split; [reflexivity|]. rewrite shr_record_of_loc_m. lia.
Qed.

Lemma round_nearest_even_ge m l : m <= round_nearest_even m l.
Proof.
  destruct l as [|[]]; simpl; try lia. destruct (Z.even m); lia.
Qed.

(** Rounding an exact nonzero value that is not below the smallest
    subnormal gives a nonzero value of the same sign, or the infinity of
    that sign; the leading bit does not move down. *)
Lemma binary_round_aux_leading s m e :
  emin Py.prec Py.emax <= Z.log2 (Zpos m) + e ->
  match binary_round_aux Py.prec Py.emax s (Zpos m) e loc_Exact with
  | S754_finite s' m' e' =>
      s' = s /\ Z.log2 (Zpos m) + e <= Z.log2 (Zpos m') + e'
  | S754_infinity s' => s' = s
  | _ => False
  end.
Proof.
  intros Hmin. unfold binary_round_aux.
  destruct (shr_fexp_leading (Zpos m) e loc_Exact) as (r1 & e1 & -> & Hr1 & He1);
    [done | done |].
  pose proof (round_nearest_even_ge (shr_m r1) (loc_of_shr_record r1)) as Hge.
  set (m2 := round_nearest_even (shr_m r1) (loc_of_shr_record r1)) in *.
  assert (Hlog2 : Z.log2 (shr_m r1) <= Z.log2 m2) by (apply Z.log2_le_mono; lia).
  destruct (shr_fexp_leading m2 e1 loc_Exact) as (r2 & e2 & -> & Hr2 & He2);
    [lia | lia |].
  destruct (shr_m r2) as [|m'|m'] eqn:Hm'; [lia| |lia].
  destruct (e2 <=? Py.emax - Py.prec); [|done]. split; [done|lia].
Qed.

Lemma log2_iter_xO m d :
  Z.log2 (Zpos (Pos.iter xO m d)) = Z.log2 (Zpos m) + Zpos d.
Proof.
  induction d as [|d IH] using Pos.peano_ind.
  - change (Pos.iter xO m 1) with (m~0)%positive.
    rewrite (Pos2Z.inj_xO m), Z.log2_double; lia.
  - rewrite Pos.iter_succ. rewrite (Pos2Z.inj_xO (Pos.iter xO m d)).
    rewrite Z.log2_double, IH; lia.
Qed.

Lemma binary_round_leading s m e :
  emin Py.prec Py.emax <= Z.log2 (Zpos m) + e ->
  match binary_round Py.prec Py.emax s m e with
  | S754_finite s' m' e' =>
      s' = s /\ Z.log2 (Zpos m) + e <= Z.log2 (Zpos m') + e'
  | S754_infinity s' => s' = s
  | _ => False
  end.
Proof.
  intros Hmin. unfold binary_round, shl_align.
  destruct (fexp Py.prec Py.emax (Zpos (digits2_pos m) + e) - e) as [|d|d] eqn:Hd;
    try by apply binary_round_aux_leading.
  pose proof (log2_iter_xO m d) as Hlog.
  assert (Hr := binary_round_aux_leading s (Pos.iter xO m d)
                  (fexp Py.prec Py.emax (Zpos (digits2_pos m) + e))).
  specialize (Hr ltac:(lia)).
  destruct (binary_round_aux _ _ _ _ _ _) as [| | |s' m' e']; try done.
  destruct Hr as [-> Hr]. split; [done|lia].
Qed.

(** [float(q)] for a negative int that converts: negative, of magnitude at
    least one. *)
Lemma float_of_int_negative q f :
  q < 0 -> Py.float_of_int q = Some f ->
  exists m e, f = S754_finite true m e /\ 0 <= Z.log2 (Zpos m) + e.
Proof.
  intros Hq. unfold Py.float_of_int, binary_normalize.
  destruct q as [|q|q]; [lia|lia|].
  pose proof (Z.log2_nonneg (Zpos q)) as Hlog.
  assert (Hr := binary_round_leading true q 0).
  specialize (Hr ltac:(unfold emin, Py.prec, Py.emax; lia)).
  destruct (binary_round _ _ _ _ _) as [| | |s' m' e']; try done.
  destruct Hr as [-> Hr]. intros [= <-]. exists m', e'. split; [done|lia].
Qed.

(** A binary64 value above zero times a negative one of magnitude at
    least one is below zero: the product cannot round to zero. *)
Lemma SFmul_positive_negative x m e :
  valid_binary Py.prec Py.emax x = true ->
  Py.float_gt_zero x = true ->
  0 <= Z.log2 (Zpos m) + e ->
  Py.float_lt_zero (SFmul Py.prec Py.emax x (S754_finite true m e)) = true.
Proof.
  intros Hvalid Hpos Hmag.
  destruct x as [sx|[]| |[] mx ex]; try discriminate; [done|].
  simpl in Hvalid. unfold bounded, canonical_mantissa in Hvalid.
  apply andb_prop in Hvalid as [Hcanon _]. apply Z.eqb_eq in Hcanon.
  assert (Hex : emin Py.prec Py.emax <= ex) by (unfold fexp in Hcanon; lia).
  pose proof (Z.log2_nonneg (Zpos mx)) as Hlog.
  pose proof (Z.log2_mul_below (Zpos mx) (Zpos m)) as Hmul.
  assert (Hr := binary_round_aux_leading true (mx * m) (ex + e)).
  specialize (Hr ltac:(rewrite Pos2Z.inj_mul; lia)).
  unfold SFmul, xorb.
  destruct (binary_round_aux _ _ _ _ _ _) as [|[]| |[] m' e']; try done.
  by destruct Hr.
Qed.

(** [x * q] for a price above zero and a negative int that converts. *)
Lemma float_mul_int_negative x q v :
  valid_binary Py.prec Py.emax x = true ->
  Py.float_gt_zero x = true ->
  q < 0 ->
  Py.float_mul_int x q = Some v ->
  Py.float_lt_zero v = true.
Proof.
  intros Hvalid Hpos Hq. unfold Py.float_mul_int.
  destruct (Py.float_of_int q) as [f|] eqn:Hf; [|discriminate].
  destruct (float_of_int_negative _ _ Hq Hf) as (m & e & -> & Hmag).
  intros [= <-]. by apply SFmul_positive_negative.
Qed.

(** ** Sales *)

Section SalesFacts.

Variable py_int : string -> option Z.

Lemma int_or_None_run (x : option string) env s :
  int_or_None py_int x env s =
  match x with
  | Some str => if Py.truthy str
                then match py_int str with
                     | Some v => (Return (Some v), s)
                     | None => (Raise ValueError, s)
                     end
                else (Return None, s)
  | None => (Return None, s)
  end.
Proof.
  destruct x as [str|]; [|done]. simpl. destruct (Py.truthy str); [|done].
  unfold bind, int, of_option. by destruct (py_int str).
Qed.

Lemma nova_venda_post env db req produto_id quantidade :
  sale_form py_int req produto_id quantidade ->
  serve (nova_venda py_int req) env db
  = sale_outcome py_int env db req produto_id quantidade.
Proof.
  intros (Hm & (s1 & Hs1 & Hp1) & (s2 & Hs2 & Hp2)).
  unfold serve, nova_venda, sale_outcome. rewrite Hm.
  unfold form_getitem, int, bind at 1 2 3 4. rewrite Hs1, Hs2. simpl.
  rewrite Hp1, Hp2. simpl.
  unfold bind at 1. rewrite Produto_query_get_run. simpl.
  fold (get_produto db produto_id).
  destruct (get_produto db produto_id) as [[i p]|] eqn:Hget.
  2: { destruct (in_int64 produto_id); simpl; [|done].
       by destruct (decide _). }
  destruct (decide (fault env = Some 0%nat)) as [Hf0|Hf0]; [done|].
  unfold bind at 1. simpl.
  destruct (Produto.quantidade p <? quantidade) eqn:Hlt; [done|].
  unfold bind at 1.
  destruct (Py.float_mul_int (Produto.preco p) quantidade) as [v|]; simpl; [|done].
  unfold bind at 1. rewrite int_or_None_run. unfold sale_customer.
  set (after := mkSession db db 1).
  assert (Hrest : forall cid,
    (update_produto i
       (fun p' => Produto.set_quantidade (Produto.quantidade p' - quantidade) p') ;;;
     add_venda produto_id cid quantidade v ;;;
     commit ;;; ret (Redirect "vendas" ("Venda registrada!", "success")))
      env after
    = (let '(r, t) :=
         match flush_refusal db (sold env db i p cid quantidade v) with
         | Some e => (Raise e, db)
         | None =>
             if decide (fault env = Some 1%nat) then (Raise DBError, db)
             else (Return sale_ok, sold env db i p cid quantidade v)
         end
       in (r, mkSession t (sold env db i p cid quantidade v)
                (match flush_refusal db (sold env db i p cid quantidade v)
                 with Some _ => 1%nat | None => 2%nat end)))).
  { intros cid. unfold bind at 1. simpl.
    unfold bind at 1. unfold add_venda, bind at 1. simpl.
    unfold bind at 1. rewrite commit_run. simpl.
    assert (Hid : Produto.id p = produto_id).
    { apply list_find_Some in Hget as (_ & ? & _). done. }
    pose proof (alter_found _ (fun p' =>
      Produto.set_quantidade (Produto.quantidade p' - quantidade) p')
      _ _ _ Hget) as Halter.
    unfold with_vendas, with_produtos; simpl. rewrite Halter.
    unfold sold. rewrite Hid.
    destruct (flush_refusal db _); [done|].
    by destruct (decide _). }
  destruct (form_get req "cliente_id") as [c|].
  - destruct (Py.truthy c).
    + destruct (py_int c) as [cid|]; simpl; [|done].
      rewrite Hrest. destruct (flush_refusal _ _); [done|].
      by destruct (decide _).
    + rewrite Hrest. destruct (flush_refusal _ _); [done|].
      by destruct (decide _).
  - rewrite Hrest. destruct (flush_refusal _ _); [done|].
    by destruct (decide _).
Qed.

Lemma get_produto_insert db produto_id i p p' :
  get_produto db produto_id = Some (i, p) ->
  Produto.id p' = produto_id ->
  list_find (fun x => Produto.id x = produto_id) (<[i := p']> (produtos db))
  = Some (i, p').
Proof.
  unfold get_produto. intros Hget Hid.
  apply list_find_Some in Hget as (Hi & _ & Hfirst).
  apply list_find_Some. split; [|split; [done|]].
  - apply list_lookup_insert_eq. eapply lookup_lt_Some; eauto.
  - intros j y Hj Hlt. rewrite list_lookup_insert_ne in Hj by lia. eauto.
Qed.

(** What the commit of a sale writes: the row of the product, unless it
    is left as it was, and the new row of the sale. *)
Lemma sold_refusal env db produto_id i p cid quantidade v :
  get_produto db produto_id = Some (i, p) ->
  let p' := Produto.set_quantidade (Produto.quantidade p - quantidade) p in
  let venda := Venda.mk (next_id (Venda.id <$> vendas db)) (now env)
                 quantidade v (Produto.id p) cid in
  flush_refusal db (sold env db i p cid quantidade v)
  = match (if decide (p' ∈ produtos db) then None else refuses_produto p')
    with
    | Some e => Some e
    | None => refuses_venda venda
    end.
Proof.
  intros Hget. cbv zeta. unfold flush_refusal, sold. simpl.
  apply list_find_Some in Hget as (Hi & _).
  rewrite first_refusal_insert by (by eapply lookup_lt_Some || done).
  rewrite first_refusal_snoc by done.
  rewrite (decide_False (P := _ ∈ vendas db)); [done|].
  by apply (next_id_not_in Venda.id).
Qed.

Lemma sale_taken_refusal env db produto_id i p cid quantidade v :
  get_produto db produto_id = Some (i, p) ->
  sale_taken p produto_id quantidade cid v = true ->
  flush_refusal db (sold env db i p cid quantidade v) = None.
Proof.
  intros Hget Htaken. rewrite (sold_refusal _ _ _ _ _ _ _ _ Hget).
  assert (Hid : Produto.id p = produto_id).
  { apply list_find_Some in Hget as (_ & ? & _). done. }
  unfold sale_taken in Htaken.
  apply andb_prop in Htaken as [Htaken Hv%negb_true_iff].
  apply andb_prop in Htaken as [Htaken Hcid].
  apply andb_prop in Htaken as [Htaken Hpid].
  apply andb_prop in Htaken as [Htaken Hq].
  apply andb_prop in Htaken as [Hstock Hpreco%negb_true_iff].
  unfold refuses_produto, refuses_venda. simpl.
  rewrite Hid, Hstock, Hpreco, Hq, Hpid, Hcid, Hv. simpl.
  by destruct (decide _).
Qed.

(** The sale is refused with OverflowError when the new stock or the
    quantity is not a 64-bit integer. *)
Lemma sold_overflow env db produto_id i p cid quantidade v :
  get_produto db produto_id = Some (i, p) ->
  Forall (fun x => in_int64 (Produto.quantidade x) = true) (produtos db) ->
  Py.is_nan (Produto.preco p) = false ->
  in_int64 (Produto.quantidade p - quantidade) = false
  \/ in_int64 quantidade = false ->
  flush_refusal db (sold env db i p cid quantidade v) = Some OverflowError.
Proof.
  intros Hget Hdb Hnan Hover. rewrite (sold_refusal _ _ _ _ _ _ _ _ Hget).
  unfold refuses_produto, refuses_venda. simpl. rewrite Hnan.
  destruct (in_int64 (Produto.quantidade p - quantidade)) eqn:Hstock; simpl.
  - destruct Hover as [?|Hq]; [done|]. rewrite Hq. simpl.
    by destruct (decide _).
  - rewrite decide_False; [done|]. intros Hin.
    rewrite Forall_forall in Hdb. specialize (Hdb _ Hin). simpl in Hdb.
    congruence.
Qed.

(** What a sale that went through did, from the table of outcomes. *)
Lemma sale_outcome_ok env db req produto_id quantidade i p db' :
  get_produto db produto_id = Some (i, p) ->
  sale_outcome py_int env db req produto_id quantidade = (Return sale_ok, db') ->
  quantidade <= Produto.quantidade p
  /\ exists cliente_id valor_total,
       Py.float_mul_int (Produto.preco p) quantidade = Some valor_total
       /\ db' = sold env db i p cliente_id quantidade valor_total
       /\ flush_refusal db db' = None.
Proof.
  unfold sale_outcome. intros ->.
  destruct (decide (fault env = Some 0%nat)); [discriminate|].
  destruct (Z.ltb_spec (Produto.quantidade p) quantidade); [discriminate|].
  destruct (Py.float_mul_int _ _) as [v|]; [|discriminate].
  destruct (sale_customer _ _) as [cid|]; [|discriminate].
  cbv zeta.
  destruct (flush_refusal _ _) eqn:Hflush; [discriminate|].
  destruct (decide (fault env = Some 1%nat)); [discriminate|].
  intros [= <-]. split; [lia|]. by exists cid, v.
Qed.

(** C1.  A sale that succeeds (the view answers with the redirect to the
    list of sales) was for at most the stock of the product; it leaves the
    product with its former quantity minus the quantity sold, every other
    product and the customers as they were, and adds exactly one row to
    the sales, whose total is the product's price, as read before the
    sale, times the quantity: the binary64 product of the price and of the
    quantity rounded to binary64.  The quantity recorded is a 64-bit
    integer. *)
Theorem nova_venda_success env db req produto_id quantidade i p db' :
  sale_form py_int req produto_id quantidade ->
  get_produto db produto_id = Some (i, p) ->
  serve (nova_venda py_int req) env db = (Return sale_ok, db') ->
  quantidade <= Produto.quantidade p
  /\ produtos db'
     = <[i := Produto.set_quantidade (Produto.quantidade p - quantidade) p]>
         (produtos db)
  /\ get_produto db' produto_id
     = Some (i, Produto.set_quantidade (Produto.quantidade p - quantidade) p)
  /\ clientes db' = clientes db
  /\ exists venda,
       vendas db' = vendas db ++ [venda]
       /\ Venda.valor_total venda
          = SFmul 53 1024 (Produto.preco p)
              (binary_normalize 53 1024 quantidade 0 false)
       /\ Py.float_mul_int (Produto.preco p) quantidade
          = Some (Venda.valor_total venda)
       /\ Venda.quantidade venda = quantidade
       /\ Venda.produto_id venda = produto_id
       /\ in_int64 quantidade = true.
Proof.
  intros Hform Hget Hrun. rewrite (nova_venda_post _ _ _ _ _ Hform) in Hrun.
  destruct (sale_outcome_ok _ _ _ _ _ _ _ _ Hget Hrun)
    as (Hle & cid & v & Hmul & -> & Hflush).
  assert (Hid : Produto.id p = produto_id).
  { apply list_find_Some in Hget as (_ & ? & _). done. }
  split; [done|]. split; [done|]. split.
  { unfold get_produto at 1, sold. simpl. by eapply get_produto_insert. }
  split; [done|]. eexists. split; [reflexivity|]. simpl.
  split.
  { unfold Py.float_mul_int, Py.float_of_int in Hmul.
    change Py.prec with 53 in Hmul. change Py.emax with 1024 in Hmul.
    destruct (binary_normalize 53 1024 quantidade 0 false);
      try discriminate; by injection Hmul as <-. }
  split; [done|]. split; [done|]. split; [done|].
  rewrite (sold_refusal _ _ _ _ _ _ _ _ Hget) in Hflush.
  destruct (if decide _ then _ else _); [discriminate|].
  unfold refuses_venda in Hflush. simpl in Hflush.
  destruct (in_int64 quantidade); [done|]. discriminate.
Qed.

(** C2.  For a product that exists, the view answers "insufficient stock"
    exactly when the quantity asked for exceeds the quantity in stock; the
    message then carries the quantity in stock, and the tables are left as
    they were. *)
Theorem nova_venda_insufficient env db req produto_id quantidade i p :
  sale_form py_int req produto_id quantidade ->
  answers env 0 ->
  get_produto db produto_id = Some (i, p) ->
  (forall restam db',
     serve (nova_venda py_int req) env db
     = (Return (sale_insufficient restam), db') ->
     Produto.quantidade p < quantidade)
  /\ (Produto.quantidade p < quantidade ->
      serve (nova_venda py_int req) env db
      = (Return (sale_insufficient (Produto.quantidade p)), db)).
Proof.
  intros Hform Hans Hget. rewrite (nova_venda_post _ _ _ _ _ Hform).
  unfold sale_outcome. rewrite Hget, decide_False by exact Hans.
  destruct (Z.ltb_spec (Produto.quantidade p) quantidade) as [Hlt|Hge].
  - split; [done|]. done.
  - split; [|lia]. intros restam db'.
    destruct (Py.float_mul_int _ _); [|discriminate].
    destruct (sale_customer _ _); [|discriminate].
    cbv zeta. destruct (flush_refusal _ _); [discriminate|].
    destruct (decide _); discriminate.
Qed.


(** C9, as amended.  For a product in stock at a non-negative quantity,
    the view either leaves the tables as they were or completes the sale,
    and the product's quantity is non-negative afterwards.  A negative
    quantity is never answered with "insufficient stock".  If it is too
    large in magnitude to convert to a float, the multiplication by the
    price raises OverflowError and nothing changes.  If it converts and
    the customer field is valid, the sale is written at the commit: when
    the quantity or the stock that it leaves is not a 64-bit integer
    (the stored quantities being 64-bit, the stored price no NaN) the
    commit raises OverflowError and nothing changes; when the engine
    takes the values written and answers the commit, the sale is
    accepted, the stock grows by the magnitude of the quantity, and the
    total recorded is below zero when the price is a binary64 value above
    zero. *)
Theorem nova_venda_negative env db req produto_id quantidade i p :
  sale_form py_int req produto_id quantidade ->
  answers env 0 ->
  get_produto db produto_id = Some (i, p) ->
  0 <= Produto.quantidade p ->
  let out := serve (nova_venda py_int req) env db in
  ((fst out = Return sale_ok \/ snd out = db)
   /\ exists p', get_produto (snd out) produto_id = Some (i, p')
                 /\ 0 <= Produto.quantidade p')
  /\ (quantidade < 0 ->
      (forall restam, fst out <> Return (sale_insufficient restam))
      /\ (Py.float_of_int quantidade = None -> out = (Raise OverflowError, db))
      /\ (forall valor_total cliente_id,
            Py.float_mul_int (Produto.preco p) quantidade = Some valor_total ->
            sale_customer py_int req = Some cliente_id ->
            (Forall (fun x => in_int64 (Produto.quantidade x) = true)
               (produtos db) ->
             Py.is_nan (Produto.preco p) = false ->
             in_int64 (Produto.quantidade p - quantidade) = false
             \/ in_int64 quantidade = false ->
             out = (Raise OverflowError, db))
            /\ (sale_taken p produto_id quantidade cliente_id valor_total
                = true ->
                answers env 1 ->
                out = (Return sale_ok,
                       sold env db i p cliente_id quantidade valor_total)
                /\ get_produto (snd out) produto_id
                   = Some (i, Produto.set_quantidade
                                (Produto.quantidade p + Z.abs quantidade) p)
                /\ (valid_binary Py.prec Py.emax (Produto.preco p) = true ->
                    Py.float_gt_zero (Produto.preco p) = true ->
                    Py.float_lt_zero valor_total = true)))).
Proof.
  intros Hform Hans Hget Hstock out. subst out.
  rewrite (nova_venda_post _ _ _ _ _ Hform).
  assert (Hid : Produto.id p = produto_id).
  { apply list_find_Some in Hget as (_ & ? & _). done. }
  unfold sale_outcome. rewrite Hget, decide_False by exact Hans.
  destruct (Z.ltb_spec (Produto.quantidade p) quantidade) as [Hlt|Hge].
  { split; [|lia]. simpl. split; [by right|]. by exists p. }
  unfold Py.float_mul_int.
  destruct (Py.float_of_int quantidade) as [f|] eqn:Hconv.
  2: { split; [simpl; split; [by right | by exists p] |].
       intros _. split; [done|]. split; [done|]. intros; discriminate. }
  destruct (sale_customer py_int req) as [cid|].
  2: { split; [simpl; split; [by right | by exists p] |].
       intros _. split; [done|]. split; [done|]. intros; discriminate. }
  cbv zeta.
  set (v := SFmul Py.prec Py.emax (Produto.preco p) f).
  destruct (flush_refusal db (sold env db i p cid quantidade v)) as [e|]
    eqn:Hflush.
  { split; [simpl; split; [by right | by exists p] |].
    intros _. split; [done|]. split; [done|].
    intros v' cid' [= <-] [= <-]. split.
    - intros Hdb Hnan Hover.
      rewrite (sold_overflow _ _ _ _ _ _ _ _ Hget Hdb Hnan Hover) in Hflush.
      by injection Hflush as <-.
    - intros Htaken.
      rewrite (sale_taken_refusal _ _ _ _ _ _ _ _ Hget Htaken) in Hflush.
      discriminate. }
  destruct (decide (fault env = Some 1%nat)) as [Hf|Hf].
  { split; [simpl; split; [by right | by exists p] |].
    intros _. split; [done|]. split; [done|].
    intros v' cid' [= <-] [= <-]. split.
    - intros Hdb Hnan Hover.
      rewrite (sold_overflow _ _ _ _ _ _ _ _ Hget Hdb Hnan Hover) in Hflush.
      discriminate.
    - unfold answers. intros; done. }
  assert (Hfound :
    get_produto (sold env db i p cid quantidade v) produto_id
    = Some (i, Produto.set_quantidade (Produto.quantidade p - quantidade) p)).
  { unfold get_produto at 1, sold. simpl. by eapply get_produto_insert. }
  split.
  - simpl. split; [by left|]. eexists. split; [exact Hfound|]. simpl. lia.
  - intros Hneg. split; [done|]. split; [done|].
    intros v' cid' [= <-] [= <-]. split.
    + intros Hdb Hnan Hover.
      rewrite (sold_overflow _ _ _ _ _ _ _ _ Hget Hdb Hnan Hover) in Hflush.
      discriminate.
    + intros _ _. split; [done|]. split.
      * simpl. rewrite Hfound. do 3 f_equal. lia.
      * intros Hvalid Hpos.
        apply (float_mul_int_negative (Produto.preco p) quantidade); try done.
        unfold Py.float_mul_int. by rewrite Hconv.
Qed.

End SalesFacts.

Lemma sample_sale_form q n :
  Sample.int q = Some n -> sale_form Sample.int (Sample.sale_of q) 1 n.
Proof.
  intros Hq. split; [done|]. split.
  - by exists "1"%string.
  - by exists q.
Qed.

(** Product("Widget", qty=10, price=5.00), three units sold: seven units
    are left and the total is 15.00, that is 8444249301319680 * 2^-49. *)
Lemma nova_venda_success_witness :
  let db' := snd (serve (nova_venda Sample.int (Sample.sale_of "3"))
                    Sample.quiet Sample.widget_db) in
  (3 <= 10
   /\ produtos db' = [Produto.mk 1 "Widget" 7 Sample.five None None]
   /\ get_produto db' 1
      = Some (0%nat, Produto.mk 1 "Widget" 7 Sample.five None None)
   /\ clientes db' = []
   /\ exists venda,
        vendas db' = [venda]
        /\ Venda.valor_total venda
           = SFmul 53 1024 Sample.five
               (binary_normalize 53 1024 3 0 false)
        /\ Py.float_mul_int Sample.five 3 = Some (Venda.valor_total venda)
        /\ Venda.quantidade venda = 3
        /\ Venda.produto_id venda = 1
        /\ in_int64 3 = true)
  /\ SFmul 53 1024 Sample.five (binary_normalize 53 1024 3 0 false)
     = S754_finite false 8444249301319680 (-49)
  /\ vendas db'
     = [Venda.mk 1 0 3 (S754_finite false 8444249301319680 (-49)) 1 None].
Proof.
  cbv zeta. split; [|split; vm_compute; reflexivity].
  apply (nova_venda_success Sample.int Sample.quiet Sample.widget_db
           (Sample.sale_of "3") 1 3 0%nat Sample.widget).
  - by apply sample_sale_form.
  - reflexivity.
  - vm_compute. reflexivity.
Defined.

(** Product("Widget", qty=10), eleven units asked for: rejected. *)
Lemma nova_venda_insufficient_witness :
  (forall restam db',
     serve (nova_venda Sample.int (Sample.sale_of "11"))
       Sample.quiet Sample.widget_db
     = (Return (sale_insufficient restam), db') ->
     10 < 11)
  /\ (10 < 11 ->
      serve (nova_venda Sample.int (Sample.sale_of "11"))
        Sample.quiet Sample.widget_db
      = (Return (sale_insufficient 10), Sample.widget_db)).
Proof.
  apply (nova_venda_insufficient Sample.int Sample.quiet Sample.widget_db
           (Sample.sale_of "11") 1 11 0%nat Sample.widget).
  - by apply sample_sale_form.
  - vm_compute. discriminate.
  - reflexivity.
Defined.


(** C8 as stated fails for the product id 2^64, which no product has: the
    view does not reach the comparison of the stock, where the missing
    record would be dereferenced (AttributeError); the lookup raises
    OverflowError. *)
Lemma nova_venda_unknown_overflow :
  let req := Sample.sale_of_product "18446744073709551616" "1" in
  let out := serve (nova_venda Sample.int req) Sample.quiet Sample.widget_db in
  sale_form Sample.int req (2 ^ 64) 1
  /\ get_produto Sample.widget_db (2 ^ 64) = None
  /\ out = (Raise OverflowError, Sample.widget_db)
  /\ fst out <> Raise AttributeError.
Proof.
  cbv zeta.
  split; [split; [done|]; split;
          [by exists "18446744073709551616"%string | by exists "1"%string]|].
  split; [reflexivity|].
  split; [vm_compute; reflexivity|].
  vm_compute. discriminate.
Defined.

(** Product("Widget", qty=10, price=5.00).  A sale of -3 units is
    accepted: thirteen units in stock, a total of -15.00.  A sale of
    -9223372036854775800 units passes the stock check and has a total,
    but the stock it leaves, 9223372036854775810, is not a 64-bit
    integer: the commit raises OverflowError and nothing is stored. *)
Lemma nova_venda_negative_witness :
  let out := serve (nova_venda Sample.int (Sample.sale_of "-3"))
               Sample.quiet Sample.widget_db in
  (out = (Return sale_ok,
          mkTables [Produto.mk 1 "Widget" 13 Sample.five None None] []
            [Venda.mk 1 0 (-3) (S754_finite true 8444249301319680 (-49)) 1
               None])
   /\ get_produto (snd out) 1
      = Some (0%nat, Produto.set_quantidade (10 + Z.abs (-3)) Sample.widget)
   /\ Py.float_lt_zero (S754_finite true 8444249301319680 (-49)) = true)
  /\ serve (nova_venda Sample.int (Sample.sale_of "-9223372036854775800"))
       Sample.quiet Sample.widget_db
     = (Raise OverflowError, Sample.widget_db).
Proof.
  cbv zeta. split.
  - destruct (nova_venda_negative Sample.int Sample.quiet Sample.widget_db
                (Sample.sale_of "-3") 1 (-3) 0%nat Sample.widget) as [_ H].
    + by apply sample_sale_form.
    + vm_compute. discriminate.
    + reflexivity.
    + vm_compute. discriminate.
    + destruct H as (_ & _ & H); [reflexivity|].
      destruct (H (S754_finite true 8444249301319680 (-49)) None)
        as [_ Hok].
      * vm_compute. reflexivity.
      * reflexivity.
      * destruct Hok as (Hout & Hget & Hsign).
        -- vm_compute. reflexivity.
        -- vm_compute. discriminate.
        -- split; [exact Hout|]. split; [exact Hget|].
           apply Hsign; vm_compute; reflexivity.
  - destruct (nova_venda_negative Sample.int Sample.quiet Sample.widget_db
                (Sample.sale_of "-9223372036854775800") 1
                (- 9223372036854775800) 0%nat Sample.widget) as [_ H].
    + apply sample_sale_form. vm_compute. reflexivity.
    + vm_compute. discriminate.
    + reflexivity.
    + vm_compute. discriminate.
    + destruct H as (_ & _ & H); [reflexivity|].
      destruct (H (S754_finite true 5629499534213120 13) None)
        as [Hover _].
      * vm_compute. reflexivity.
      * reflexivity.
      * apply Hover.
        -- repeat constructor.
        -- reflexivity.
        -- left. vm_compute. reflexivity.
Defined.

(** C9 as stated fails for a negative quantity of magnitude 2^1024, on a
    product with 10 units at the price 5.00: the stock check passes, and
    the view raises OverflowError at the multiplication instead of
    accepting the sale; the stock does not grow. *)
Lemma nova_venda_negative_overflow :
  let req := Sample.sale_of Sample.minus_two_to_1024 in
  let out := serve (nova_venda Sample.int req) Sample.quiet Sample.widget_db in
  sale_form Sample.int req 1 (- 2 ^ 1024)
  /\ get_produto Sample.widget_db 1 = Some (0%nat, Sample.widget)
  /\ 0 <= Produto.quantidade Sample.widget
  /\ - 2 ^ 1024 < 0
  /\ Py.float_gt_zero (Produto.preco Sample.widget) = true
  /\ out = (Raise OverflowError, Sample.widget_db)
  /\ ~ (fst out = Return sale_ok
        /\ exists p', get_produto (snd out) 1 = Some (0%nat, p')
                      /\ Produto.quantidade p' = 10 + Z.abs (- 2 ^ 1024)).
Proof.
  assert (Hout :
    serve (nova_venda Sample.int (Sample.sale_of Sample.minus_two_to_1024))
      Sample.quiet Sample.widget_db
    = (Raise OverflowError, Sample.widget_db)) by (vm_compute; reflexivity).
  cbv zeta. rewrite Hout.
  split; [apply sample_sale_form; vm_compute; reflexivity|].
  split; [reflexivity|].
  split; [vm_compute; discriminate|].
  split; [reflexivity|].
  split; [reflexivity|].
  split; [reflexivity|].
  intros [Hok _]. discriminate Hok.
Defined.

(** ** Trimmed strings *)

Lemma list_ascii_of_string_app (a b : string) :
  list_ascii_of_string (a ++ b)
  = list_ascii_of_string a ++ list_ascii_of_string b.
Proof. induction a as [|c a IH]; simpl; [done|]. by rewrite IH. Qed.

Lemma string_of_list_ascii_app (a b : list ascii) :
  string_of_list_ascii (a ++ b)
  = (string_of_list_ascii a ++ string_of_list_ascii b)%string.
Proof. induction a as [|c a IH]; simpl; [done|]. by rewrite IH. Qed.

Lemma head_rev {A} (l : list A) : head (rev l) = last l.
Proof.
  induction l as [|x l _] using rev_ind; [done|].
  by rewrite rev_app_distr, last_snoc.
Qed.

(** The white space at the head of a list is what [lstrip_list] drops. *)
Lemma lstrip_list_split (l : list ascii) :
  exists lead,
    l = lead ++ Py.lstrip_list l
    /\ Forall (fun c => Py.isspace c = true) lead
    /\ (forall c, head (Py.lstrip_list l) = Some c -> Py.isspace c = false).
Proof.
  induction l as [|c l (lead & Hl & Hlead & Hhead)]; simpl.
  - exists []. by repeat split.
  - destruct (Py.isspace c) eqn:Hc.
    + exists (c :: lead). split; [simpl; by f_equal|].
      split; [by constructor | done].
    + exists []. split; [done|]. split; [constructor|].
      simpl. by intros ? [= <-].
Qed.

Lemma lstrip_list_blank (lead rest : list ascii) :
  Forall (fun c => Py.isspace c = true) lead ->
  Py.lstrip_list (lead ++ rest) = Py.lstrip_list rest.
Proof.
  induction 1 as [|c lead Hc _ IH]; simpl; [done|]. by rewrite Hc.
Qed.

Lemma lstrip_list_head (l : list ascii) (c : ascii) :
  head l = Some c -> Py.isspace c = false -> Py.lstrip_list l = l.
Proof. destruct l as [|c' l]; [done|]. simpl. intros [= ->] ->. done. Qed.

(** [strip] gives back a trimmed string from which only white space was
    taken, at both ends; this determines it. *)
Lemma strip_padded (lead core trail : string) :
  blank lead -> blank trail -> trimmed core ->
  Py.strip (lead ++ core ++ trail) = core.
Proof.
  unfold blank, trimmed, Py.strip.
  intros Hlead Htrail [(c1 & Hc1 & Hs1) (c2 & Hc2 & Hs2)].
  rewrite !list_ascii_of_string_app.
  rewrite lstrip_list_blank by done.
  assert (Hhead : forall l l' : list ascii,
            head l = Some c1 -> head (l ++ l') = Some c1).
  { by intros [|? ?] ?. }
  rewrite (lstrip_list_head
             (list_ascii_of_string core ++ list_ascii_of_string trail) c1);
    [|by apply Hhead|done].
  rewrite rev_app_distr, lstrip_list_blank
    by (by apply Forall_rev).
  rewrite (lstrip_list_head _ c2); [| |done].
  - by rewrite rev_involutive, string_of_list_ascii_of_string.
  - by rewrite head_rev.
Qed.


Lemma strip_split (s : string) :
  Py.strip s <> ""%string ->
  exists lead trail,
    s = (lead ++ Py.strip s ++ trail)%string
    /\ blank lead /\ blank trail /\ trimmed (Py.strip s).
Proof.
  unfold Py.strip. intros Hne.
  destruct (lstrip_list_split (list_ascii_of_string s))
    as (lead & Hs & Hlead & Hhead).
  set (l1 := Py.lstrip_list (list_ascii_of_string s)) in *.
  destruct (lstrip_list_split (rev l1)) as (trail & Hl1 & Htrail & Hlast).
  set (l2 := Py.lstrip_list (rev l1)) in *.
  assert (Hl1' : l1 = rev l2 ++ rev trail).
  { rewrite <- (rev_involutive l1), Hl1. by rewrite rev_app_distr. }
  assert (Hne2 : l2 <> []).
  { intros H2. apply Hne. by rewrite H2. }
  exists (string_of_list_ascii lead), (string_of_list_ascii (rev trail)).
  split; [|split; [|split]].
  - rewrite <- !string_of_list_ascii_app, <- Hl1', <- Hs.
    by rewrite string_of_list_ascii_of_string.
  - unfold blank. by rewrite list_ascii_of_string_of_list_ascii.
  - unfold blank. rewrite list_ascii_of_string_of_list_ascii.
    by apply Forall_rev.
  - unfold trimmed. rewrite list_ascii_of_string_of_list_ascii. split.
    + destruct (rev l2) as [|c r] eqn:Hrev.
      { destruct Hne2. by rewrite <- (rev_involutive l2), Hrev. }
      exists c. split; [done|]. apply Hhead. by rewrite Hl1'.
    + destruct l2 as [|c l2'] eqn:Hl2; [done|].
      exists c. split; [|by apply Hlast].
      by rewrite <- head_rev, rev_involutive.
Qed.


(** ** CSV import *)

Lemma refuses_produto_error p e :
  refuses_produto p = Some e -> e = OverflowError \/ e = IntegrityError.
Proof.
  unfold refuses_produto. destruct (negb _); [intros [= <-]; by left|].
  destruct (Py.is_nan _); [intros [= <-]; by right | done].
Qed.

Lemma refuses_venda_error v e :
  refuses_venda v = Some e -> e = OverflowError \/ e = IntegrityError.
Proof.
  unfold refuses_venda. destruct (negb _); [intros [= <-]; by left|].
  destruct (Py.is_nan _); [intros [= <-]; by right | done].
Qed.

Lemma first_refusal_error {A} `{EqDecision A} (refuses : A -> option Exn)
    (stored seen : list A) e :
  (forall r e', refuses r = Some e' ->
                e' = OverflowError \/ e' = IntegrityError) ->
  first_refusal refuses stored seen = Some e ->
  e = OverflowError \/ e = IntegrityError.
Proof.
  intros Hr. unfold first_refusal.
  induction (written stored seen) as [|x l IH]; [done|]. simpl.
  destruct (refuses x) as [e'|] eqn:Hx; [|done].
  simpl. intros [= <-]. by eapply Hr.
Qed.

(** A flush is refused with OverflowError or with IntegrityError. *)
Lemma flush_refusal_error stored seen e :
  flush_refusal stored seen = Some e ->
  e = OverflowError \/ e = IntegrityError.
Proof.
  unfold flush_refusal.
  destruct (first_refusal refuses_produto _ _) as [e'|] eqn:Hp.
  - intros [= <-]. eapply first_refusal_error; [|exact Hp].
    apply refuses_produto_error.
  - intros Hv. eapply first_refusal_error; [|exact Hv].
    apply refuses_venda_error.
Qed.

(** With the sales as they are stored, a flush writes products only. *)
Lemma flush_refusal_produtos stored seen :
  vendas seen = vendas stored ->
  flush_refusal stored seen
  = first_refusal refuses_produto (produtos stored) (produtos seen).
Proof.
  intros Hv. unfold flush_refusal. rewrite Hv.
  rewrite (first_refusal_stored refuses_venda) by done.
  by destruct (first_refusal _ _ _).
Qed.

Section ImportFacts.

Variable py_int : string -> option Z.
Variable py_float : string -> option Py.float.
Variable py_str_exn : Exn -> string.

(** Lines 345-352: the lookup, the write of the row, its flush. *)
Lemma upsert_run (l : Linha) counts env s :
  upsert (linha_nome l) (linha_qtd l) (linha_preco_venda l)
    (linha_preco_custo l) (linha_validade l) counts env s
  = if decide (fault env = Some (calls s))
    then (Raise DBError, mkSession (committed s) (pending s) (S (calls s)))
    else written_answer s (upserted l (produtos (pending s)))
           (counted l (produtos (pending s)) counts).
Proof.
  destruct counts as [n a]. unfold upsert.
  unfold Produto_query_filter_by_nome_first, bind at 1 2.
  rewrite db_call_run.
  destruct (decide (fault env = Some (calls s))) as [Hf|Hf]; [done|].
  simpl. unfold bind at 1. simpl.
  unfold written_answer, counted, upserted, find_nome.
  destruct (list_find _ (produtos (pending s))) as [[i p]|] eqn:Hfind; simpl.
  - pose proof (alter_found _ (fun p0 =>
      Produto.set_quantidade (Produto.quantidade p0 + linha_qtd l) p0)
      _ _ _ Hfind) as Halter.
    assert (Hi : (i < length (produtos (pending s)))%nat).
    { apply list_find_Some in Hfind as (Hi & _). by eapply lookup_lt_Some. }
    assert (Hrow :
      (if Py.float_gt_zero (linha_preco_custo l)
       then alter (Produto.set_preco_compra (Some (linha_preco_custo l))) i
              (alter (fun p0 => Produto.set_quantidade
                                  (Produto.quantidade p0 + linha_qtd l) p0)
                 i (produtos (pending s)))
       else alter (fun p0 => Produto.set_quantidade
                               (Produto.quantidade p0 + linha_qtd l) p0)
              i (produtos (pending s)))
      = <[i := restocked l p]> (produtos (pending s))).
    { rewrite Halter. unfold restocked.
      destruct (Py.float_gt_zero (linha_preco_custo l)); [|done].
      apply list_eq. intros j.
      destruct (decide (i = j)) as [<-|Hne].
      + by rewrite list_lookup_alter_eq, !list_lookup_insert_eq.
      + by rewrite list_lookup_alter_ne, !list_lookup_insert_ne. }
    unfold bind at 1. simpl. unfold bind at 1.
    assert (Hwrite :
      (if Py.float_gt_zero (linha_preco_custo l)
       then update_produto i
              (Produto.set_preco_compra (Some (linha_preco_custo l)))
       else ret tt) env
        (mkSession (committed s)
           (with_produtos
              (alter (fun p0 => Produto.set_quantidade
                                  (Produto.quantidade p0 + linha_qtd l) p0) i)
              (pending s)) (S (calls s)))
      = (Return tt,
         set_pending_produtos s
           (<[i := restocked l p]> (produtos (pending s))))).
    { rewrite <- Hrow. unfold set_pending_produtos.
      by destruct (Py.float_gt_zero (linha_preco_custo l)). }
    rewrite Hwrite, flush_run. simpl.
    by destruct (flush_refusal _ _).
  - unfold bind at 1. simpl. unfold bind at 1. rewrite flush_run. simpl.
    unfold set_pending_produtos, inserted. simpl.
    by destruct (flush_refusal _ _).
Qed.

(** The lookup and the flush raise no ValueError. *)
Lemma upsert_no_ValueError (l : Linha) counts env s e s' :
  upsert (linha_nome l) (linha_qtd l) (linha_preco_venda l)
    (linha_preco_custo l) (linha_validade l) counts env s = (Raise e, s') ->
  is_ValueError e = false.
Proof.
  rewrite upsert_run. destruct (decide _); [by intros [= <- _]|].
  unfold written_answer. cbv zeta.
  destruct (flush_refusal _ _) as [e'|] eqn:Hflush; [|discriminate].
  intros [= <- _]. by destruct (flush_refusal_error _ _ _ Hflush) as [->| ->].
Qed.

(** The body of the loop reads a row by the rules of section 4.6. *)
Lemma importar_linha_parse row counts env s :
  importar_linha py_int py_float row counts env s
  = match spec_parse_row py_int py_float row with
    | None => (Return counts, s)
    | Some l =>
        upsert (linha_nome l) (linha_qtd l) (linha_preco_venda l)
          (linha_preco_custo l) (linha_validade l) counts env s
    end.
Proof.
  unfold importar_linha, spec_parse_row.
  destruct row as [|c0 [|c1 [|c2 rest]]]; try reflexivity.
  change ((length (c0 :: c1 :: c2 :: rest) <? 3)%nat) with false. cbv iota.
  unfold try_except, bind, getitem, int, float, of_option, ret, raise,
    Py.truthy; simpl.
  destruct (String.eqb (Py.strip c0) ""); simpl; [done|].
  destruct (py_int c1) as [qtd|]; simpl; [|done].
  destruct (py_float (Py.replace_comma c2)) as [venda|]; simpl; [|done].
  assert (Hup : forall custo validade,
    (let (r, s') := upsert (Py.strip c0) qtd venda custo validade counts env s in
     match r with
     | Return a => (Return a, s')
     | Raise e => if is_ValueError e then (Return counts, s') else (Raise e, s')
     end)
    = upsert (Py.strip c0) qtd venda custo validade counts env s).
  { intros custo validade.
    pose proof (upsert_no_ValueError
                  (mkLinha (Py.strip c0) qtd venda custo validade)
                  counts env s) as Hno. simpl in Hno.
    destruct (upsert _ _ _ _ _ _ _ _) as [[a|e] s']; [done|].
    by rewrite (Hno e s' eq_refl). }
  destruct rest as [|c3 rest]; simpl; [apply Hup|].
  destruct (String.eqb c3 ""); simpl.
  { destruct rest; apply Hup. }
  destruct (py_float (Py.replace_comma c3)) as [custo|]; simpl; [|done].
  destruct rest; apply Hup.
Qed.

Lemma importar_linha_run row counts env s :
  importar_linha py_int py_float row counts env s
  = match spec_parse_row py_int py_float row with
    | None => (Return counts, s)
    | Some l =>
        if decide (fault env = Some (calls s))
        then (Raise DBError,
              mkSession (committed s) (pending s) (S (calls s)))
        else written_answer s (upserted l (produtos (pending s)))
               (counted l (produtos (pending s)) counts)
    end.
Proof.
  rewrite importar_linha_parse.
  destruct (spec_parse_row py_int py_float row) as [l|]; [|done].
  apply upsert_run.
Qed.

Lemma spec_parse_row_nome row l :
  spec_parse_row py_int py_float row = Some l ->
  Py.strip <$> row !! 0%nat = Some (linha_nome l).
Proof.
  unfold spec_parse_row. destruct row as [|c0 [|c1 [|c2 rest]]]; try done.
  destruct (String.eqb _ _); [done|].
  destruct (py_int c1); [|done]. destruct (py_float _); [|done].
  destruct (match rest with [] => _ | _ => _ end); [|done].
  by intros [= <-].
Qed.

(** The name of a row that is not skipped is its first column without
    the white space at its ends, and is not empty. *)
Lemma spec_parse_row_trimmed row l :
  spec_parse_row py_int py_float row = Some l ->
  exists c0 lead trail,
    row !! 0%nat = Some c0
    /\ c0 = (lead ++ linha_nome l ++ trail)%string
    /\ blank lead /\ blank trail /\ trimmed (linha_nome l).
Proof.
  unfold spec_parse_row. destruct row as [|c0 [|c1 [|c2 rest]]]; try done.
  destruct (String.eqb_spec (Py.strip c0) "") as [|Hne]; [done|].
  destruct (py_int c1); [|done]. destruct (py_float _); [|done].
  destruct (match rest with [] => _ | _ => _ end); [|done].
  intros [= <-]. simpl.
  destruct (strip_split c0 Hne) as (lead & trail & Hc0 & Hlead & Htrail & Ht).
  by exists c0, lead, trail.
Qed.


Lemma blank_cost row l :
  spec_parse_row py_int py_float row = Some l ->
  row !! 3%nat = None \/ row !! 3%nat = Some ""%string ->
  linha_preco_custo l = Py.float_zero.
Proof.
  unfold spec_parse_row. destruct row as [|c0 [|c1 [|c2 rest]]]; try done.
  destruct (String.eqb _ _); [done|].
  destruct (py_int c1); [|done]. destruct (py_float _); [|done].
  destruct rest as [|c3 rest]; simpl.
  - by intros [= <-].
  - intros Hl [?|[= ->]]; [done|]. simpl in Hl. by injection Hl as <-.
Qed.


Lemma import_rows_cons row rows start :
  import_rows py_int py_float (row :: rows) start
  = import_rows py_int py_float rows
      match spec_parse_row py_int py_float row with
      | Some l => (upserted l (fst start), counted l (fst start) (snd start))
      | None => start
      end.
Proof. reflexivity. Qed.

Lemma parsed_rows_cons row rows :
  parsed_rows py_int py_float (row :: rows)
  = match spec_parse_row py_int py_float row with
    | Some l => l :: parsed_rows py_int py_float rows
    | None => parsed_rows py_int py_float rows
    end.
Proof. reflexivity. Qed.

(** The loop, with the round trips it makes: one for each row that is not
    skipped.  It stops at the round trip that the engine refuses and at
    the row that it does not take. *)
Lemma for_rows_outcome rows : forall counts env s,
  vendas (pending s) = vendas (committed s) ->
  match import_outcome py_int py_float env (produtos (committed s)) rows
          (produtos (pending s)) counts (calls s) with
  | Return (ps, c) =>
      for_rows py_int py_float rows counts env s
      = (Return c,
         mkSession (committed s)
           (mkTables ps (clientes (pending s)) (vendas (pending s)))
           (calls s + length (parsed_rows py_int py_float rows)))
  | Raise e =>
      exists s', for_rows py_int py_float rows counts env s = (Raise e, s')
                 /\ committed s' = committed s
  end.
Proof.
  induction rows as [|row rows IH]; intros counts env s Hv.
  { simpl. unfold ret. rewrite Nat.add_0_r. by destruct s as [c [] n]. }
  rewrite parsed_rows_cons. cbn [for_rows import_outcome]. unfold bind.
  rewrite importar_linha_run.
  destruct (spec_parse_row py_int py_float row) as [l|]; [|by apply IH].
  destruct (decide (fault env = Some (calls s))) as [Hf|Hf]; [by eexists|].
  unfold written_answer. cbv zeta.
  rewrite flush_refusal_produtos by done. simpl.
  destruct (first_refusal refuses_produto _ _) as [e|]; [by eexists|].
  specialize (IH (counted l (produtos (pending s)) counts) env
                (set_pending_produtos s (upserted l (produtos (pending s))))
                Hv).
  simpl in IH.
  destruct (import_outcome _ _ _ _ _ _ _ _) as [[ps c]|e]; [|done].
  rewrite IH. simpl. do 2 f_equal. lia.
Qed.

(** The loop when no round trip is refused. *)
Lemma import_outcome_quiet env stored rows : forall seen counts n,
  (forall j, (n <= j < n + length (parsed_rows py_int py_float rows))%nat ->
             answers env j) ->
  import_outcome py_int py_float env stored rows seen counts n
  = match import_refusal py_int py_float stored rows seen with
    | Some e => Raise e
    | None => Return (import_rows py_int py_float rows (seen, counts))
    end.
Proof.
  induction rows as [|row rows IH]; intros seen counts n Hans; [done|].
  rewrite import_rows_cons. rewrite parsed_rows_cons in Hans.
  cbn [import_outcome import_refusal].
  destruct (spec_parse_row py_int py_float row) as [l|]; [|by apply IH].
  rewrite decide_False by (apply Hans; simpl; lia).
  destruct (first_refusal _ _ _); [done|].
  apply IH. intros j Hj. apply Hans. simpl. lia.
Qed.


(** The loop that went through took every row and every round trip. *)
Lemma import_outcome_Return env stored rows : forall seen counts n ps c,
  import_outcome py_int py_float env stored rows seen counts n
  = Return (ps, c) ->
  (ps, c) = import_rows py_int py_float rows (seen, counts)
  /\ import_refusal py_int py_float stored rows seen = None
  /\ (forall j,
        (n <= j < n + length (parsed_rows py_int py_float rows))%nat ->
        answers env j)
  /\ (first_refusal refuses_produto stored seen = None ->
      first_refusal refuses_produto stored ps = None).
Proof.
  induction rows as [|row rows IH]; intros seen counts n ps c.
  { simpl. intros [= <- <-]. repeat split; [|done]. intros j Hj. lia. }
  rewrite import_rows_cons, parsed_rows_cons.
  cbn [import_outcome import_refusal].
  destruct (spec_parse_row py_int py_float row) as [l|]; [|by apply IH].
  destruct (decide (fault env = Some n)) as [|Hn]; [done|].
  destruct (first_refusal _ _ _) eqn:Hrow; [done|].
  intros Hout. destruct (IH _ _ _ _ _ Hout) as (Hrows & Hno & Hans & Hlast).
  split; [done|]. split; [done|]. split.
  - intros j Hj. simpl in Hj.
    destruct (decide (j = n)) as [->|]; [done|]. apply Hans. lia.
  - intros _. by apply Hlast.
Qed.

(** Every outcome of the import of a file. *)
Lemma importar_csv_run req arquivo env db :
  lookup_key "arquivo_csv" (files req) = Some arquivo ->
  filename arquivo <> ""%string ->
  serve (importar_csv py_int py_float py_str_exn req) env db
  = match import_outcome py_int py_float env (produtos db)
            (tail (rows arquivo)) (produtos db) (0, 0) 0 with
    | Raise e => (Return (import_error py_str_exn e), db)
    | Return (ps, c) =>
        if decide (fault env
                   = Some (length (parsed_rows py_int py_float
                                     (tail (rows arquivo)))))
        then (Return (import_error py_str_exn DBError), db)
        else (Return (import_done c), mkTables ps (clientes db) (vendas db))
    end.
Proof.
  intros Hfile Hname. unfold serve, importar_csv.
  rewrite Hfile. apply String.eqb_neq in Hname. rewrite Hname.
  unfold try_except, bind at 1.
  pose proof (for_rows_outcome (tail (rows arquivo)) (0, 0) env
                (mkSession db db 0) eq_refl) as Hrun. simpl in Hrun.
  destruct (import_outcome _ _ _ _ _ _ _ _) as [[ps c]|e] eqn:Hout.
  - rewrite Hrun. unfold bind at 1. rewrite commit_run. simpl.
    apply import_outcome_Return in Hout as (_ & _ & _ & Hlast).
    rewrite flush_refusal_produtos by done. simpl.
    rewrite Hlast by (by apply first_refusal_stored).
    by destruct (decide _).
  - destruct Hrun as (s' & -> & Hc). simpl. by rewrite Hc.
Qed.

(** The import of a file, when the engine refuses no round trip. *)
Lemma importar_csv_quiet req arquivo env db :
  lookup_key "arquivo_csv" (files req) = Some arquivo ->
  filename arquivo <> ""%string ->
  fault env = None ->
  let after :=
    import_rows py_int py_float (tail (rows arquivo)) (produtos db, (0, 0)) in
  serve (importar_csv py_int py_float py_str_exn req) env db
  = match import_refusal py_int py_float (produtos db) (tail (rows arquivo))
            (produtos db) with
    | Some e => (Return (import_error py_str_exn e), db)
    | None =>
        (Return (import_done (snd after)),
         mkTables (fst after) (clientes db) (vendas db))
    end.
Proof.
  intros Hfile Hname Hquiet. cbv zeta.
  rewrite (importar_csv_run _ _ _ _ Hfile Hname).
  rewrite import_outcome_quiet
    by (intros j _; unfold answers; by rewrite Hquiet).
  destruct (import_refusal _ _ _ _ _); [done|].
  destruct (import_rows _ _ _ _) as [ps c]. simpl.
  by rewrite decide_False by (by rewrite Hquiet).
Qed.

(** A row for a product that the engine takes is never refused. *)
Lemma import_refusal_skipped stored rows seen :
  Forall (fun row => spec_parse_row py_int py_float row = None) rows ->
  import_refusal py_int py_float stored rows seen = None.
Proof.
  induction 1 as [|row rows Hrow _ IH]; [done|].
  simpl. by rewrite Hrow.
Qed.


Lemma find_nome_is_Some nome (stored : list Produto.t) :
  is_Some (find_nome nome stored)
  <-> exists p, p ∈ stored /\ Produto.nome p = nome.
Proof.
  unfold find_nome. split.
  - intros [[i p] Hfind]. apply list_find_Some in Hfind as (Hi & Hp & _).
    exists p. split; [|done]. by eapply list_elem_of_lookup_2.
  - intros (p & Hin & Hp). by eapply list_find_elem_of.
Qed.

(** C3.  For a row that parses, when the engine answers the lookup: the
    product looked for is the first stored one whose name is equal, as a
    string, to the trimmed name of the row (its first column without the
    white space at its ends).  If there is one, the row's quantity is
    added to its stock, its purchase cost becomes the row's cost when
    that is above zero and is kept otherwise (so for a cost of zero and
    for an absent or empty cost column), nothing else of it changes, and
    the update is counted.  If there is none, a product with the fields
    of the row is added at the end (a cost that is a NaN being stored as
    no cost), and counted as new.  The row written is in the transaction
    in either case; the body of the loop returns the counters unless the
    engine refuses a row written.  In a transaction that has written
    nothing before, the engine takes the row when its quantity, added to
    the stock if there is one, is a 64-bit integer and its price is no
    NaN, and refuses it with OverflowError when that quantity is not a
    64-bit integer. *)
Theorem importar_linha_upsert row l counts env s :
  spec_parse_row py_int py_float row = Some l ->
  answers env (calls s) ->
  let stored := produtos (pending s) in
  let out := importar_linha py_int py_float row counts env s in
  (exists c0 lead trail,
     row !! 0%nat = Some c0
     /\ c0 = (lead ++ linha_nome l ++ trail)%string
     /\ blank lead /\ blank trail /\ trimmed (linha_nome l))
  /\ (is_Some (find_nome (linha_nome l) stored)
      <-> exists p, p ∈ stored /\ Produto.nome p = linha_nome l)
  /\ (forall i p,
        find_nome (linha_nome l) stored = Some (i, p) ->
        out = written_answer s
                (<[i := Produto.mk (Produto.id p) (Produto.nome p)
                          (Produto.quantidade p + linha_qtd l)
                          (Produto.preco p)
                          (if Py.float_gt_zero (linha_preco_custo l)
                           then Some (linha_preco_custo l)
                           else Produto.preco_compra p)
                          (Produto.validade p)]> stored)
                (fst counts, snd counts + 1)
        /\ (Py.float_gt_zero (linha_preco_custo l) = false ->
            Produto.preco_compra (restocked l p) = Produto.preco_compra p)
        /\ (row !! 3%nat = None \/ row !! 3%nat = Some ""%string ->
            Produto.preco_compra (restocked l p) = Produto.preco_compra p)
        /\ (pending s = committed s ->
            (in_int64 (Produto.quantidade p + linha_qtd l) = true ->
             Py.is_nan (Produto.preco p) = false ->
             fst out = Return (fst counts, snd counts + 1))
            /\ (in_int64 (Produto.quantidade p + linha_qtd l) = false ->
                Forall (fun x => in_int64 (Produto.quantidade x) = true)
                  stored ->
                fst out = Raise OverflowError)))
  /\ (find_nome (linha_nome l) stored = None ->
      out = written_answer s
              (stored ++
                 [Produto.mk (next_id (Produto.id <$> stored))
                    (linha_nome l) (linha_qtd l) (linha_preco_venda l)
                    (if Py.is_nan (linha_preco_custo l) then None
                     else Some (linha_preco_custo l))
                    (Some (linha_validade l))])
              (fst counts + 1, snd counts)
      /\ (pending s = committed s ->
          (in_int64 (linha_qtd l) = true ->
           Py.is_nan (linha_preco_venda l) = false ->
           fst out = Return (fst counts + 1, snd counts))
          /\ (in_int64 (linha_qtd l) = false ->
              fst out = Raise OverflowError))).
Proof.
  intros Hparse Hans stored out. subst out.
  rewrite importar_linha_run, Hparse, decide_False by done.
  fold stored. unfold counted, upserted.
  split; [by apply spec_parse_row_trimmed|].
  split; [apply find_nome_is_Some|].
  split.
  - intros i p Hfind. rewrite Hfind. split; [done|]. split.
    { unfold restocked. simpl. by intros ->. }
    split.
    { intros Hblank. unfold restocked. simpl.
      by rewrite (blank_cost _ _ Hparse Hblank). }
    intros Hsame. unfold written_answer. cbv zeta.
    rewrite flush_refusal_produtos by (simpl; by rewrite Hsame).
    simpl. rewrite <- Hsame. fold stored.
    apply list_find_Some in Hfind as (Hi & _).
    rewrite first_refusal_insert by (by eapply lookup_lt_Some || done).
    unfold restocked, refuses_produto. simpl. split.
    + intros -> ->. simpl. by destruct (decide _).
    + intros Hover Hall. rewrite Hover. simpl.
      rewrite decide_False; [done|]. intros Hin.
      rewrite Forall_forall in Hall. specialize (Hall _ Hin).
      simpl in Hall. congruence.
  - intros Hfind. rewrite Hfind. split; [done|].
    intros Hsame. unfold written_answer. cbv zeta.
    rewrite flush_refusal_produtos by (simpl; by rewrite Hsame).
    simpl. rewrite <- Hsame. fold stored.
    rewrite first_refusal_snoc by done.
    rewrite decide_False by (by apply (next_id_not_in Produto.id)).
    unfold inserted, refuses_produto. simpl. split.
    + by intros -> ->.
    + by intros ->.
Qed.

(** C10.  A row whose trimmed name is the name of stored products changes
    at most the first of them: the table keeps its length (no product is
    added) and every other place keeps its row, whatever else the row
    holds; when the row parses and the engine answers, the first product
    of that name is the one restocked. *)
Theorem importar_linha_first_match row counts env s nome i p :
  Py.strip <$> row !! 0%nat = Some nome ->
  find_nome nome (produtos (pending s)) = Some (i, p) ->
  let stored := produtos (pending s) in
  let after :=
    produtos (pending (snd (importar_linha py_int py_float row counts env s))) in
  length after = length stored
  /\ (forall j, j <> i -> after !! j = stored !! j)
  /\ (forall j, (j < i)%nat ->
        forall p', stored !! j = Some p' -> Produto.nome p' <> nome)
  /\ (forall l,
        spec_parse_row py_int py_float row = Some l ->
        answers env (calls s) ->
        after !! i = Some (restocked l p)).
Proof.
  intros Hnome Hfind stored after. subst after.
  rewrite importar_linha_run.
  assert (Hfirst : forall j, (j < i)%nat ->
            forall p', stored !! j = Some p' -> Produto.nome p' <> nome).
  { intros j Hj p' Hp'. apply list_find_Some in Hfind as (_ & _ & Hmin).
    by eapply Hmin. }
  destruct (spec_parse_row py_int py_float row) as [l|] eqn:Hparse.
  - pose proof (spec_parse_row_nome _ _ Hparse) as Hl.
    rewrite Hnome in Hl. injection Hl as Hl.
    assert (Hi : (i < length stored)%nat).
    { apply list_find_Some in Hfind as (Hi & _). by eapply lookup_lt_Some. }
    destruct (decide (fault env = Some (calls s))) as [Hf|Hf]; simpl.
    + fold stored. split; [done|]. split; [done|]. split; [done|].
      unfold answers. intros; done.
    + unfold upserted. rewrite <- Hl, Hfind. fold stored.
      split; [by rewrite length_insert|].
      split; [intros j Hj; by rewrite list_lookup_insert_ne|].
      split; [done|].
      intros l' [= <-] _. by rewrite list_lookup_insert_eq.
  - simpl. fold stored. split; [done|]. split; [done|]. split; done.
Qed.

End ImportFacts.

(** Widget in stock, and the row ("  Widget ", 5, "10,50", "", ""), its
    name between white space: the product named Widget gets five units
    more and keeps its purchase cost. *)
Lemma importar_linha_upsert_witness :
  importar_linha Sample.int Sample.float Sample.padded_row (0, 0) Sample.quiet
    (mkSession Sample.widget_db Sample.widget_db 0)
  = (Return (0, 1),
     mkSession Sample.widget_db
       (mkTables [Produto.mk 1 "Widget" 15 Sample.five None None] [] []) 1)
  /\ fst (importar_linha Sample.int Sample.float Sample.padded_row (0, 0)
            Sample.quiet (mkSession Sample.widget_db Sample.widget_db 0))
     = Return (0, 1).
Proof.
  pose proof (importar_linha_upsert Sample.int Sample.float Sample.padded_row
    (mkLinha "Widget" 5 Sample.ten_and_a_half Py.float_zero "") (0, 0)
    Sample.quiet (mkSession Sample.widget_db Sample.widget_db 0)) as H.
  destruct H as (_ & _ & H & _).
  - vm_compute. reflexivity.
  - vm_compute. discriminate.
  - destruct (H 0%nat Sample.widget) as (Hrun & _ & _ & Htaken);
      [reflexivity|].
    split; [exact Hrun|].
    apply Htaken; reflexivity.
Defined.


(** C6 as stated fails for the row ("Widget", 5, "10,50", " "), whose
    cost column is blank: by the rules of the claim the cost is 0.0 and
    the row restocks the widget; the code reads the column as a decimal,
    which it is not, and skips the row. *)
Lemma importar_csv_blank_cost :
  let row := ["Widget"; "5"; "10,50"; " "]%string in
  let s := mkSession Sample.widget_db Sample.widget_db 0 in
  row !! 3%nat = Some " "%string
  /\ blank " "
  /\ claimed_parse_row Sample.int Sample.float row
     = Some (mkLinha "Widget" 5 Sample.ten_and_a_half Py.float_zero "")
  /\ importar_linha Sample.int Sample.float row (0, 0) Sample.quiet s
     = (Return (0, 0), s)
  /\ importar_linha Sample.int Sample.float row (0, 0) Sample.quiet s
     <> match claimed_parse_row Sample.int Sample.float row with
        | None => (Return (0, 0), s)
        | Some l =>
            upsert (linha_nome l) (linha_qtd l) (linha_preco_venda l)
              (linha_preco_custo l) (linha_validade l) (0, 0) Sample.quiet s
        end.
Proof.
  cbv zeta.
  split; [reflexivity|].
  split; [repeat constructor|].
  split; [vm_compute; reflexivity|].
  split; [vm_compute; reflexivity|].
  vm_compute. discriminate.
Defined.

(** Two products named Widget: the row restocks the first, the second
    keeps its 4 units. *)
Lemma importar_linha_first_match_witness :
  let after :=
    produtos (pending (snd (importar_linha Sample.int Sample.float
      Sample.widget_row (0, 0) Sample.quiet
      (mkSession Sample.twin_db Sample.twin_db 0)))) in
  length after = 2%nat
  /\ after !! 1%nat = Some (Produto.mk 2 "Widget" 4 Sample.five (Some Sample.five) None)
  /\ after !! 0%nat = Some (Produto.mk 1 "Widget" 15 Sample.five None None).
Proof.
  pose proof (importar_linha_first_match Sample.int Sample.float
    Sample.widget_row (0, 0) Sample.quiet
    (mkSession Sample.twin_db Sample.twin_db 0) "Widget" 0%nat
    (Produto.mk 1 "Widget" 10 Sample.five None None)) as H.
  destruct H as (Hlen & Hother & _ & Hfirst).
  - reflexivity.
  - reflexivity.
  - split; [exact Hlen|]. split.
    + exact (Hother 1%nat ltac:(discriminate)).
    + apply (Hfirst (mkLinha "Widget" 5 Sample.ten_and_a_half Py.float_zero "")).
      * vm_compute. reflexivity.
      * vm_compute. discriminate.
Defined.

(** ** Clearing the sales *)

(** C5.  The view answers in both cases.  When the engine refuses the
    DELETE or the commit, the session is rolled back and the tables are
    the ones before the call, all sales rows included; otherwise no sales
    row is left, and the products and customers are as they were. *)
Theorem limpar_vendas_all_or_nothing env db :
  serve limpar_vendas env db
  = if decide (fault env = Some 0%nat \/ fault env = Some 1%nat)
    then (Return (Redirect "gerenciamento" ("Erro.", "danger")), db)
    else (Return (Redirect "gerenciamento" (msg_historico_limpo, "success")),
          mkTables (produtos db) (clientes db) []).
Proof.
  unfold serve, limpar_vendas, try_except, query_Venda_delete.
  unfold bind at 1 2 3. rewrite db_call_run. simpl.
  destruct (decide (fault env = Some 0%nat)) as [H0|H0]; simpl.
  { rewrite decide_True by auto. done. }
  unfold bind at 1. rewrite commit_run. simpl.
  assert (Hflush : flush_refusal db (with_vendas (fun _ => []) db) = None).
  { unfold flush_refusal. simpl.
    rewrite (first_refusal_stored refuses_produto) by done.
    apply first_refusal_stored, list_subseteq_nil. }
  rewrite Hflush.
  destruct (decide (fault env = Some 1%nat)) as [H1|H1]; simpl.
  - rewrite decide_True by auto. done.
  - rewrite decide_False by intuition. done.
Qed.

(** ** The report *)

Lemma reads_bind {A B} (m : M A) (k : A -> M B) :
  reads_only m -> (forall a, reads_only (k a)) -> reads_only (bind m k).
Proof.
  intros Hm Hk env s. unfold bind. specialize (Hm env s).
  destruct (m env s) as [[a|e] s']; simpl in *; [|done].
  destruct Hm as [Hc Hp]. specialize (Hk a env s'). by rewrite <- Hc, <- Hp.
Qed.

Lemma reads_ret {A} (a : A) : reads_only (ret a).
Proof. by intros env s. Qed.

Lemma reads_of_option {A} e (o : option A) : reads_only (of_option e o).
Proof. by destruct o; intros env s. Qed.

Lemma reads_db_call : reads_only db_call.
Proof.
  intros env s. unfold db_call.
  destruct (fault env) as [n|]; [destruct (Nat.eqb n (calls s))|]; done.
Qed.

Lemma reads_for_each {A} (f : A -> M unit) (l : list A) :
  (forall x, reads_only (f x)) -> reads_only (for_each f l).
Proof.
  intros Hf. induction l as [|x l IH]; simpl.
  - apply reads_ret.
  - apply reads_bind; [apply Hf | done].
Qed.

Lemma reads_get_pending : reads_only get_pending.
Proof. by intros env s. Qed.

Lemma reads_relatorios : reads_only relatorios.
Proof.
  unfold relatorios.
  repeat first
    [ apply reads_bind; [|intros ?]
    | apply reads_for_each; intros ?
    | apply reads_ret | apply reads_of_option | apply reads_db_call
    | apply reads_get_pending
    | match goal with
      | |- reads_only (match ?x with _ => _ end) => destruct x
      end ].
Qed.

Lemma serve_reads (v : M Response) env db :
  reads_only v -> snd (serve v env db) = db.
Proof.
  intros Hv. unfold serve. specialize (Hv env (mkSession db db 0)).
  destruct (v env _) as [r s]. simpl in *. by destruct Hv.
Qed.

Lemma bind_Return {A B} (m : M A) (k : A -> M B) env s b s' :
  bind m k env s = (Return b, s') ->
  exists a s1, m env s = (Return a, s1) /\ k a env s1 = (Return b, s').
Proof.
  unfold bind. destruct (m env s) as [[a|e] s1]; [eauto | discriminate].
Qed.

(** The report writes nothing, and what it renders is the low-stock list
    of the stored products. *)
Lemma relatorios_reads env db :
  snd (serve relatorios env db) = db
  /\ forall r, fst (serve relatorios env db) = Return r ->
               r = RenderRelatorios (estoque_baixo (produtos db)).
Proof.
  split; [apply serve_reads, reads_relatorios|].
  intros r. unfold serve.
  destruct (relatorios env (mkSession db db 0)) as [res s'] eqn:Hrun.
  simpl. intros ->. unfold relatorios in Hrun.
  apply bind_Return in Hrun as ([] & s1 & H1 & Hrun).
  apply bind_Return in Hrun as (t & s2 & H2 & Hrun).
  assert (Ht : t = db).
  { pose proof (reads_db_call env (mkSession db db 0)) as [_ Hp].
    rewrite H1 in Hp. simpl in Hp. unfold get_pending in H2.
    injection H2 as <- _. done. }
  subst t.
  do 4 (apply bind_Return in Hrun as ([] & ? & _ & Hrun)).
  unfold ret in Hrun. by injection Hrun as <- _.
Qed.

(** C7.  The low-stock list of the report holds exactly the products
    whose quantity is below 5, in the order of the table: those with a
    quantity from 0 to 4 are in it, those with 5 or more are not.  The
    view renders this list for the stored products and writes nothing. *)
Theorem estoque_baixo_exact (stored : list Produto.t) :
  (forall p, p ∈ estoque_baixo stored
             <-> p ∈ stored /\ Produto.quantidade p < 5)
  /\ (forall p, p ∈ stored -> 0 <= Produto.quantidade p <= 4 ->
                p ∈ estoque_baixo stored)
  /\ (forall p, 5 <= Produto.quantidade p -> p ∉ estoque_baixo stored)
  /\ estoque_baixo stored `sublist_of` stored
  /\ (forall env cs vs,
        snd (serve relatorios env (mkTables stored cs vs))
        = mkTables stored cs vs
        /\ forall r,
             fst (serve relatorios env (mkTables stored cs vs)) = Return r ->
             r = RenderRelatorios (estoque_baixo stored)).
Proof.
  assert (Hiff : forall p, p ∈ estoque_baixo stored
                           <-> p ∈ stored /\ Produto.quantidade p < 5).
  { intros p. unfold estoque_baixo.
    rewrite !list_elem_of_In, filter_In, Z.ltb_lt. done. }
  split; [exact Hiff|]. split; [|split; [|split]].
  - intros p Hin Hq. apply Hiff. split; [done|lia].
  - intros p Hq Hin. apply Hiff in Hin. lia.
  - clear Hiff. unfold estoque_baixo.
    induction stored as [|p stored' IH]; simpl; [constructor|].
    destruct (Produto.quantidade p <? 5).
    + by apply sublist_skip.
    + by apply sublist_cons.
  - intros env cs vs. apply relatorios_reads.
Qed.

(** Stocks of 0, 4 and 5 units: the report is rendered, with the first
    two products in its low-stock list. *)
Lemma estoque_baixo_exact_witness :
  snd (serve relatorios Sample.quiet Sample.stock_db) = Sample.stock_db
  /\ RenderRelatorios
       [Produto.mk 1 "A" 0 Sample.five None None;
        Produto.mk 2 "B" 4 Sample.five None None]
     = RenderRelatorios (estoque_baixo (produtos Sample.stock_db)).
Proof.
  destruct (estoque_baixo_exact (produtos Sample.stock_db))
    as (_ & _ & _ & _ & H).
  destruct (H Sample.quiet [] []) as [Hdb Hr].
  split; [exact Hdb|]. apply Hr. vm_compute. reflexivity.
Defined.

(** ** The sales rows on record *)

Lemma keeps_ret {A} (a : A) : keeps_sales (ret a).
Proof. by intros V env s. Qed.

Lemma keeps_raise {A} (e : Exn) : keeps_sales (@raise A e).
Proof. by intros V env s. Qed.

Lemma keeps_bind {A B} (m : M A) (k : A -> M B) :
  keeps_sales m -> (forall a, keeps_sales (k a)) -> keeps_sales (bind m k).
Proof.
  intros Hm Hk V env s HV. unfold bind.
  specialize (Hm V env s HV). destruct (m env s) as [[a|e] s']; simpl in *.
  - by apply Hk.
  - done.
Qed.

Lemma keeps_try_except {A} (body : M A) handles (handler : Exn -> M A) :
  keeps_sales body -> (forall e, keeps_sales (handler e)) ->
  keeps_sales (try_except body handles handler).
Proof.
  intros Hm Hk V env s HV. unfold try_except.
  specialize (Hm V env s HV). destruct (body env s) as [[a|e] s']; simpl in *.
  - done.
  - destruct (handles e); [by apply Hk | done].
Qed.

Lemma keeps_of_option {A} e (o : option A) : keeps_sales (of_option e o).
Proof. destruct o; [apply keeps_ret | apply keeps_raise]. Qed.

Lemma keeps_db_call : keeps_sales db_call.
Proof.
  intros V env s HV. unfold db_call.
  destruct (fault env) as [n|]; [destruct (Nat.eqb n (calls s))|]; done.
Qed.

Lemma keeps_get_pending : keeps_sales get_pending.
Proof. by intros V env s. Qed.

Lemma keeps_ask_now : keeps_sales ask_now.
Proof. by intros V env s. Qed.

Lemma keeps_modify_pending (f : Tables -> Tables) :
  (forall V t, V `prefix_of` vendas t -> V `prefix_of` vendas (f t)) ->
  keeps_sales (modify_pending f).
Proof. intros Hf V env s [Hp Hc]. split; [by apply Hf | done]. Qed.

Lemma keeps_flush : keeps_sales flush.
Proof.
  intros V env s HV. rewrite flush_run. by destruct (flush_refusal _ _).
Qed.

Lemma keeps_commit : keeps_sales commit.
Proof.
  apply keeps_bind; [apply keeps_flush|]. intros _.
  apply keeps_bind; [apply keeps_db_call|]. intros _ V env s [Hp _]. by split.
Qed.

Lemma keeps_query_get {A} (key : A -> Z) (rows : list A) id :
  keeps_sales (query_get key rows id).
Proof.
  unfold query_get. destruct (list_find _ rows).
  - apply keeps_bind; [apply keeps_db_call|]. intros _. apply keeps_ret.
  - destruct (in_int64 id); [|apply keeps_raise].
    apply keeps_bind; [apply keeps_db_call|]. intros _. apply keeps_ret.
Qed.

Lemma keeps_rollback : keeps_sales rollback.
Proof. intros V env s [_ Hc]. by split. Qed.

Lemma keeps_update_produto i f : keeps_sales (update_produto i f).
Proof. by apply keeps_modify_pending. Qed.

Lemma keeps_add_produto n q v c d : keeps_sales (add_produto n q v c d).
Proof. by apply keeps_modify_pending. Qed.

Lemma keeps_delete_produto i : keeps_sales (delete_produto i).
Proof. by apply keeps_modify_pending. Qed.

Lemma keeps_update_cliente i f : keeps_sales (update_cliente i f).
Proof. by apply keeps_modify_pending. Qed.

Lemma keeps_add_cliente n t e c : keeps_sales (add_cliente n t e c).
Proof. by apply keeps_modify_pending. Qed.

Lemma keeps_delete_cliente i : keeps_sales (delete_cliente i).
Proof. by apply keeps_modify_pending. Qed.

(** A new sale goes after the rows on record. *)
Lemma keeps_add_venda p c q v : keeps_sales (add_venda p c q v).
Proof.
  apply keeps_bind; [apply keeps_ask_now|]. intros t.
  apply keeps_modify_pending. intros V tb HV. simpl.
  by apply prefix_app_r.
Qed.

Lemma keeps_Produto_query_get id : keeps_sales (Produto_query_get id).
Proof.
  apply keeps_bind; [apply keeps_get_pending|]. intros t.
  apply keeps_query_get.
Qed.

Lemma keeps_Cliente_query_get id : keeps_sales (Cliente_query_get id).
Proof.
  apply keeps_bind; [apply keeps_get_pending|]. intros t.
  apply keeps_query_get.
Qed.

Lemma keeps_Produto_query_filter_by_nome_first nome :
  keeps_sales (Produto_query_filter_by_nome_first nome).
Proof.
  apply keeps_bind; [apply keeps_db_call|]. intros _.
  apply keeps_bind; [apply keeps_get_pending|]. intros t. apply keeps_ret.
Qed.

Create HintDb keeps discriminated.
#[export] Hint Resolve keeps_ret keeps_raise keeps_of_option keeps_db_call
  keeps_get_pending keeps_ask_now keeps_flush keeps_commit keeps_rollback
  keeps_update_produto keeps_add_produto keeps_delete_produto
  keeps_update_cliente keeps_add_cliente keeps_delete_cliente keeps_add_venda
  keeps_Produto_query_get keeps_Cliente_query_get
  keeps_Produto_query_filter_by_nome_first : keeps.

(** Goes through a view, one statement at a time. *)
Ltac keeps_step :=
  match goal with
  | |- keeps_sales (bind _ _) => apply keeps_bind; [|intros ?]
  | |- keeps_sales (try_except _ _ _) => apply keeps_try_except; [|intros ?]
  | |- keeps_sales (or_404 _) => apply keeps_of_option
  | |- keeps_sales (let _ := _ in _) => cbv zeta
  | |- keeps_sales (match ?x with _ => _ end) => destruct x
  | |- keeps_sales _ => solve [auto with keeps]
  end.

Section SalesOnRecord.

Variable py_int : string -> option Z.
Variable py_float : string -> option Py.float.
Variable py_str_exn : Exn -> string.

Lemma keeps_int str : keeps_sales (int py_int str).
Proof. apply keeps_of_option. Qed.

Lemma keeps_float str : keeps_sales (float py_float str).
Proof. apply keeps_of_option. Qed.

Lemma keeps_form_getitem req k : keeps_sales (form_getitem req k).
Proof. apply keeps_of_option. Qed.

Lemma keeps_getitem row i : keeps_sales (getitem row i).
Proof. apply keeps_of_option. Qed.

Hint Resolve keeps_int keeps_float keeps_form_getitem keeps_getitem : keeps.

Lemma keeps_float_or_None x : keeps_sales (float_or_None py_float x).
Proof. unfold float_or_None. repeat keeps_step. Qed.

Lemma keeps_int_or_None x : keeps_sales (int_or_None py_int x).
Proof. unfold int_or_None. repeat keeps_step. Qed.

Hint Resolve keeps_float_or_None keeps_int_or_None : keeps.

Lemma keeps_adicionar req : keeps_sales (adicionar py_int py_float req).
Proof. unfold adicionar. repeat keeps_step. Qed.

Lemma keeps_editar id req : keeps_sales (editar py_int py_float id req).
Proof. unfold editar. repeat keeps_step. Qed.

Lemma keeps_deletar id : keeps_sales (deletar id).
Proof. unfold deletar. repeat keeps_step. Qed.

Lemma keeps_adicionar_cliente req : keeps_sales (adicionar_cliente req).
Proof. unfold adicionar_cliente. repeat keeps_step. Qed.

Lemma keeps_editar_cliente id req : keeps_sales (editar_cliente id req).
Proof. unfold editar_cliente. repeat keeps_step. Qed.

Lemma keeps_deletar_cliente id : keeps_sales (deletar_cliente id).
Proof. unfold deletar_cliente. repeat keeps_step. Qed.

Lemma keeps_nova_venda req : keeps_sales (nova_venda py_int req).
Proof. unfold nova_venda. repeat keeps_step. Qed.

Lemma keeps_for_each {A} (f : A -> M unit) (l : list A) :
  (forall x, keeps_sales (f x)) -> keeps_sales (for_each f l).
Proof.
  intros Hf. induction l as [|x l IH]; simpl.
  - apply keeps_ret.
  - apply keeps_bind; [apply Hf | done].
Qed.

Lemma keeps_relatorios : keeps_sales relatorios.
Proof.
  unfold relatorios.
  repeat first [ apply keeps_for_each; intros ? | keeps_step ].
Qed.

Lemma keeps_upsert n q v c d counts : keeps_sales (upsert n q v c d counts).
Proof. unfold upsert. repeat keeps_step. Qed.

Hint Resolve keeps_upsert : keeps.

Lemma keeps_importar_linha row counts :
  keeps_sales (importar_linha py_int py_float row counts).
Proof. unfold importar_linha. repeat keeps_step. Qed.

Lemma keeps_for_rows rows : forall counts,
  keeps_sales (for_rows py_int py_float rows counts).
Proof.
  induction rows as [|row rows IH]; intros counts; simpl.
  - apply keeps_ret.
  - apply keeps_bind; [apply keeps_importar_linha | done].
Qed.

Hint Resolve keeps_for_rows : keeps.

Lemma keeps_importar_csv req :
  keeps_sales (importar_csv py_int py_float py_str_exn req).
Proof. unfold importar_csv. repeat keeps_step. Qed.

Lemma keeps_view r req :
  r <> RLimparVendas ->
  keeps_sales (view py_int py_float py_str_exn r req).
Proof.
  intros Hr. destruct r; simpl; try done;
    auto using keeps_adicionar, keeps_editar, keeps_deletar,
      keeps_adicionar_cliente, keeps_editar_cliente, keeps_deletar_cliente,
      keeps_nova_venda, keeps_relatorios, keeps_importar_csv.
Qed.

Lemma serve_keeps (v : M Response) env db :
  keeps_sales v -> vendas db `prefix_of` vendas (snd (serve v env db)).
Proof.
  intros Hv. unfold serve.
  specialize (Hv (vendas db) env (mkSession db db 0)).
  destruct (v env (mkSession db db 0)) as [r s]. simpl in *.
  by apply Hv.
Qed.

Lemma run_keeps steps : forall db,
  Forall (fun st => step_route st <> RLimparVendas) steps ->
  vendas db `prefix_of` vendas (run py_int py_float py_str_exn steps db).
Proof.
  induction steps as [|st steps IH]; intros db Hsteps; simpl; [done|].
  apply Forall_cons in Hsteps as [Hst Hsteps].
  etransitivity; [|apply IH; exact Hsteps].
  apply serve_keeps. by apply keeps_view.
Qed.

(** C4.  Over any sequence of requests to the views that add, edit and
    delete products and customers, record sales, import a file or show
    the report, a sales row on record stays at its place with every field
    as it was recorded, its total included: no view writes to a row of the
    sales table.  (The one other view, which clears the sales, deletes
    rows.) *)
Theorem vendas_valor_total_fixed steps db i venda :
  Forall (fun st => step_route st <> RLimparVendas) steps ->
  vendas db !! i = Some venda ->
  vendas (run py_int py_float py_str_exn steps db) !! i = Some venda
  /\ (forall venda',
        vendas (run py_int py_float py_str_exn steps db) !! i = Some venda' ->
        Venda.valor_total venda' = Venda.valor_total venda).
Proof.
  intros Hsteps Hi.
  pose proof (run_keeps steps db Hsteps) as Hpre.
  assert (Hrow : vendas (run py_int py_float py_str_exn steps db) !! i
                 = Some venda) by (by eapply prefix_lookup_Some).
  split; [done|]. intros venda'. rewrite Hrow. by intros [= <-].
Qed.

End SalesOnRecord.

(** The widget was sold at 5.00 for a total of 15.00; its price is then
    edited to 10.50 and one more unit is sold: the first sale still reads
    15.00. *)
Lemma vendas_valor_total_fixed_witness :
  let steps :=
    [mkStep (REditar 1) Sample.price_change Sample.quiet;
     mkStep RNovaVenda (Sample.sale_of "1") Sample.quiet] in
  let db' := run Sample.int Sample.float Sample.str_exn steps Sample.sold_db in
  vendas db' !! 0%nat = Some (Venda.mk 1 0 3 Sample.fifteen 1 None)
  /\ (forall venda',
        vendas db' !! 0%nat = Some venda' ->
        Venda.valor_total venda' = Sample.fifteen).
Proof.
  apply (vendas_valor_total_fixed Sample.int Sample.float Sample.str_exn
           [mkStep (REditar 1) Sample.price_change Sample.quiet;
            mkStep RNovaVenda (Sample.sale_of "1") Sample.quiet]
           Sample.sold_db 0%nat (Venda.mk 1 0 3 Sample.fifteen 1 None)).
  - repeat constructor; discriminate.
  - reflexivity.
Defined.

(* ================================================================ *)
(** * Further properties of the views *)

(** ** Invariants of the tables *)

Lemma maintains_ret {A} I (a : A) : maintains I (ret a).
Proof. by intros env s. Qed.

Lemma maintains_raise {A} I (e : Exn) : maintains I (@raise A e).
Proof. by intros env s. Qed.

Lemma maintains_bind {A B} I (m : M A) (k : A -> M B) :
  maintains I m -> (forall a, maintains I (k a)) -> maintains I (bind m k).
Proof.
  intros Hm Hk env s Hp Hc. unfold bind.
  specialize (Hm env s Hp Hc). destruct (m env s) as [[a|e] s']; simpl in *.
  - destruct Hm. by apply Hk.
  - done.
Qed.

Lemma maintains_try_except {A} I (body : M A) handles (handler : Exn -> M A) :
  maintains I body -> (forall e, maintains I (handler e)) ->
  maintains I (try_except body handles handler).
Proof.
  intros Hm Hk env s Hp Hc. unfold try_except.
  specialize (Hm env s Hp Hc). destruct (body env s) as [[a|e] s']; simpl in *.
  - done.
  - destruct (handles e); [|done]. destruct Hm. by apply Hk.
Qed.

Lemma maintains_of_option {A} I e (o : option A) : maintains I (of_option e o).
Proof. destruct o; [apply maintains_ret | apply maintains_raise]. Qed.

Lemma maintains_db_call I : maintains I db_call.
Proof.
  intros env s Hp Hc. unfold db_call.
  destruct (fault env) as [n|]; [destruct (Nat.eqb n (calls s))|]; done.
Qed.

Lemma maintains_get_pending I : maintains I get_pending.
Proof. by intros env s. Qed.

Lemma maintains_ask_now I : maintains I ask_now.
Proof. by intros env s. Qed.

Lemma maintains_modify_pending (I : Tables -> Prop) (f : Tables -> Tables) :
  (forall t, I t -> I (f t)) -> maintains I (modify_pending f).
Proof. intros Hf env s Hp Hc. split; [by apply Hf | done]. Qed.

Lemma maintains_flush I : maintains I flush.
Proof.
  intros env s Hp Hc. rewrite flush_run. by destruct (flush_refusal _ _).
Qed.

Lemma maintains_commit I : maintains I commit.
Proof.
  apply maintains_bind; [apply maintains_flush|]. intros _.
  apply maintains_bind; [apply maintains_db_call|].
  intros _ env s Hp _. by split.
Qed.

Lemma maintains_query_get {A} I (key : A -> Z) (rows : list A) id :
  maintains I (query_get key rows id).
Proof.
  unfold query_get. destruct (list_find _ rows).
  - apply maintains_bind; [apply maintains_db_call|]. intros _.
    apply maintains_ret.
  - destruct (in_int64 id); [|apply maintains_raise].
    apply maintains_bind; [apply maintains_db_call|]. intros _.
    apply maintains_ret.
Qed.

Lemma maintains_rollback I : maintains I rollback.
Proof. intros env s _ Hc. by split. Qed.

Lemma maintains_for_each {A} I (f : A -> M unit) (l : list A) :
  (forall x, maintains I (f x)) -> maintains I (for_each f l).
Proof.
  intros Hf. induction l as [|x l IH]; simpl.
  - apply maintains_ret.
  - apply maintains_bind; [apply Hf | done].
Qed.

Lemma serve_maintains I (v : M Response) env db :
  maintains I v -> I db -> I (snd (serve v env db)).
Proof.
  intros Hv Hdb. unfold serve.
  specialize (Hv env (mkSession db db 0) Hdb Hdb).
  destruct (v env (mkSession db db 0)) as [r s]. simpl in *. by destruct Hv.
Qed.

(** Walks through a view; what is left are the writes, each with the
    obligation that it keeps the property. *)
Ltac maintains_step :=
  match goal with
  | |- maintains _ (bind _ _) => apply maintains_bind; [|intros ?]
  | |- maintains _ (try_except _ _ _) => apply maintains_try_except; [|intros ?]
  | |- maintains _ (for_each _ _) => apply maintains_for_each; intros ?
  | |- maintains _ (ret _) => apply maintains_ret
  | |- maintains _ (raise _) => apply maintains_raise
  | |- maintains _ (of_option _ _) => apply maintains_of_option
  | |- maintains _ (or_404 _) => apply maintains_of_option
  | |- maintains _ (form_getitem _ _) => apply maintains_of_option
  | |- maintains _ (getitem _ _) => apply maintains_of_option
  | |- maintains _ (int _ _) => apply maintains_of_option
  | |- maintains _ (float _ _) => apply maintains_of_option
  | |- maintains _ db_call => apply maintains_db_call
  | |- maintains _ get_pending => apply maintains_get_pending
  | |- maintains _ ask_now => apply maintains_ask_now
  | |- maintains _ flush => apply maintains_flush
  | |- maintains _ commit => apply maintains_commit
  | |- maintains _ (query_get _ _ _) => apply maintains_query_get
  | |- maintains _ rollback => apply maintains_rollback
  | |- maintains _ (modify_pending _) => apply maintains_modify_pending; intros ? ?
  | |- maintains _ (let _ := _ in _) => cbv zeta
  | |- maintains _ (match ?x with _ => _ end) => destruct x
  end.

Ltac maintains_walk :=
  unfold view, adicionar, editar, deletar, adicionar_cliente, editar_cliente,
    deletar_cliente, nova_venda, relatorios, importar_csv, limpar_vendas,
    importar_linha, upsert, float_or_None, int_or_None,
    Produto_query_get, Cliente_query_get, Produto_query_filter_by_nome_first,
    update_produto, update_cliente, add_produto, add_cliente, add_venda,
    delete_produto, delete_cliente, query_Venda_delete;
  repeat maintains_step.

Lemma fmap_alter_same {A B} (g : A -> B) (f : A -> A) (l : list A) (i : nat) :
  (forall x, g (f x) = g x) -> g <$> alter f i l = g <$> l.
Proof.
  intros Hf. apply list_eq. intros j. rewrite !list_lookup_fmap.
  destruct (decide (i = j)) as [<-|Hne].
  - rewrite list_lookup_alter_eq. destruct (l !! i); simpl; [|done].
    by rewrite Hf.
  - by rewrite list_lookup_alter_ne.
Qed.

Lemma next_id_above (ids : list Z) x : x ∈ ids -> x < next_id ids.
Proof.
  unfold next_id. induction ids as [|y ids IH]; simpl.
  - by intros ?%elem_of_nil.
  - intros [->|Hin]%elem_of_cons; [lia|]. specialize (IH Hin). lia.
Qed.

(** The key given to a new row is not in use. *)
Lemma next_id_fresh (ids : list Z) : NoDup ids -> NoDup (ids ++ [next_id ids]).
Proof.
  intros Hids. apply NoDup_app. split; [done|]. split.
  - intros x Hx ->%list_elem_of_singleton.
    pose proof (next_id_above ids _ Hx). lia.
  - apply NoDup_singleton.
Qed.

Lemma NoDup_fmap_delete {A B} (g : A -> B) (l : list A) (i : nat) :
  NoDup (g <$> l) -> NoDup (g <$> delete i l).
Proof.
  intros Hl. rewrite list_fmap_delete.
  eapply sublist_NoDup; [exact Hl | apply sublist_delete].
Qed.

Section Invariants.

Variable py_int : string -> option Z.
Variable py_float : string -> option Py.float.
Variable py_str_exn : Exn -> string.

Lemma maintains_for_rows I rows :
  (forall row counts,
     maintains I (importar_linha py_int py_float row counts)) ->
  forall counts, maintains I (for_rows py_int py_float rows counts).
Proof.
  intros Hrow. induction rows as [|row rows IH]; intros counts; simpl.
  - apply maintains_ret.
  - apply maintains_bind; [apply Hrow | done].
Qed.

Ltac maintains_view :=
  maintains_walk;
  try (apply maintains_for_rows; intros ? ?; maintains_walk).

Lemma maintains_keys_unique r req :
  maintains keys_unique (view py_int py_float py_str_exn r req).
Proof.
  destruct r; maintains_view;
    match goal with H : keys_unique _ |- _ => destruct H as (Hp & Hc & Hv) end;
    unfold keys_unique, with_produtos, with_clientes, with_vendas; simpl;
    repeat split; try done;
    first
      [ rewrite fmap_app; by apply next_id_fresh
      | by apply NoDup_fmap_delete
      | by rewrite fmap_alter_same
      | apply NoDup_nil_2 ].
Qed.

(** X1.  Primary keys.  Whatever the requests and whichever of them fail,
    the tables never come to hold two products, two customers or two
    sales with the same id. *)
Theorem run_keys_unique steps db :
  keys_unique db ->
  keys_unique (run py_int py_float py_str_exn steps db).
Proof.
  revert db. induction steps as [|st steps IH]; intros db Hdb; simpl; [done|].
  apply IH. apply serve_maintains; [apply maintains_keys_unique | done].
Qed.

(** X2.  Each view writes only to its own tables.  The product views and
    the import leave the customers and the sales as they are; the
    customer views leave the products and the sales; a sale leaves the
    customers; clearing the sales leaves the products and the customers;
    the report leaves everything. *)
Theorem view_frame r req env db :
  frame r db (snd (serve (view py_int py_float py_str_exn r req) env db)).
Proof.
  assert (Hprod : forall v : M Response,
            maintains (fun t => clientes t = clientes db
                                /\ vendas t = vendas db) v ->
            clientes (snd (serve v env db)) = clientes db
            /\ vendas (snd (serve v env db)) = vendas db).
  { intros v Hv. by apply (serve_maintains _ v env db Hv). }
  assert (Hcli : forall v : M Response,
            maintains (fun t => produtos t = produtos db
                                /\ vendas t = vendas db) v ->
            produtos (snd (serve v env db)) = produtos db
            /\ vendas (snd (serve v env db)) = vendas db).
  { intros v Hv. by apply (serve_maintains _ v env db Hv). }
  destruct r; simpl.
  1-3, 9: apply Hprod; maintains_view;
    unfold with_produtos; simpl; intuition.
  1-3: apply Hcli; maintains_view; unfold with_clientes; simpl; intuition.
  - apply (serve_maintains (fun t => clientes t = clientes db)); [|done].
    maintains_view; unfold with_produtos, with_vendas; simpl; intuition.
  - apply serve_reads, reads_relatorios.
  - refine (serve_maintains
              (fun t => produtos t = produtos db /\ clientes t = clientes db)
              _ env db _ _); [|done].
    maintains_view; unfold with_vendas; simpl; intuition.
Qed.

End Invariants.

(** ** Nothing is stored without the success answer *)

Lemma no_commit_ret {A} (a : A) : no_commit (ret a).
Proof. by intros env s. Qed.

Lemma no_commit_raise {A} (e : Exn) : no_commit (@raise A e).
Proof. by intros env s. Qed.

Lemma no_commit_bind {A B} (m : M A) (k : A -> M B) :
  no_commit m -> (forall a, no_commit (k a)) -> no_commit (bind m k).
Proof.
  intros Hm Hk env s. unfold bind. specialize (Hm env s).
  destruct (m env s) as [[a|e] s']; simpl in *; [|done].
  by rewrite Hk.
Qed.

Lemma no_commit_try_except {A} (body : M A) handles (handler : Exn -> M A) :
  no_commit body -> (forall e, no_commit (handler e)) ->
  no_commit (try_except body handles handler).
Proof.
  intros Hm Hk env s. unfold try_except. specialize (Hm env s).
  destruct (body env s) as [[a|e] s']; simpl in *; [done|].
  destruct (handles e); [by rewrite Hk | done].
Qed.

Lemma no_commit_of_option {A} e (o : option A) : no_commit (of_option e o).
Proof. destruct o; [apply no_commit_ret | apply no_commit_raise]. Qed.

Lemma no_commit_db_call : no_commit db_call.
Proof.
  intros env s. unfold db_call.
  destruct (fault env) as [n|]; [destruct (Nat.eqb n (calls s))|]; done.
Qed.

Lemma no_commit_flush : no_commit flush.
Proof. intros env s. rewrite flush_run. by destruct (flush_refusal _ _). Qed.

Lemma no_commit_query_get {A} (key : A -> Z) (rows : list A) id :
  no_commit (query_get key rows id).
Proof.
  intros env s. rewrite query_get_run.
  destruct (list_find _ rows); [done|]. by destruct (negb _).
Qed.

Lemma no_commit_modify_pending f : no_commit (modify_pending f).
Proof. by intros env s. Qed.

Lemma no_commit_rollback : no_commit rollback.
Proof. by intros env s. Qed.

Lemma no_commit_for_each {A} (f : A -> M unit) (l : list A) :
  (forall x, no_commit (f x)) -> no_commit (for_each f l).
Proof.
  intros Hf. induction l as [|x l IH]; simpl.
  - apply no_commit_ret.
  - apply no_commit_bind; [apply Hf | done].
Qed.

Ltac no_commit_step :=
  match goal with
  | |- no_commit (bind _ _) => apply no_commit_bind; [|intros ?]
  | |- no_commit (try_except _ _ _) => apply no_commit_try_except; [|intros ?]
  | |- no_commit (for_each _ _) => apply no_commit_for_each; intros ?
  | |- no_commit (ret _) => apply no_commit_ret
  | |- no_commit (raise _) => apply no_commit_raise
  | |- no_commit (of_option _ _) => apply no_commit_of_option
  | |- no_commit (or_404 _) => apply no_commit_of_option
  | |- no_commit (form_getitem _ _) => apply no_commit_of_option
  | |- no_commit (getitem _ _) => apply no_commit_of_option
  | |- no_commit (int _ _) => apply no_commit_of_option
  | |- no_commit (float _ _) => apply no_commit_of_option
  | |- no_commit db_call => apply no_commit_db_call
  | |- no_commit flush => apply no_commit_flush
  | |- no_commit (query_get _ _ _) => apply no_commit_query_get
  | |- no_commit get_pending => by intros ? ?
  | |- no_commit ask_now => by intros ? ?
  | |- no_commit rollback => apply no_commit_rollback
  | |- no_commit (modify_pending _) => apply no_commit_modify_pending
  | |- no_commit (let _ := _ in _) => cbv zeta
  | |- no_commit (match ?x with _ => _ end) => destruct x
  end.

Ltac no_commit_walk :=
  unfold importar_linha, upsert, float_or_None, int_or_None,
    Produto_query_get, Cliente_query_get, Produto_query_filter_by_nome_first,
    update_produto, update_cliente, add_produto, add_cliente, add_venda,
    delete_produto, delete_cliente, query_Venda_delete;
  repeat no_commit_step.

Lemma commits_only_of_no_commit {A} (P : A -> Prop) (m : M A) :
  no_commit m -> commits_only_with P m.
Proof. intros Hm env s. left. apply Hm. Qed.

Lemma commits_only_bind {A B} (P : B -> Prop) (m : M A) (k : A -> M B) :
  no_commit m -> (forall a, commits_only_with P (k a)) ->
  commits_only_with P (bind m k).
Proof.
  intros Hm Hk env s. unfold bind. specialize (Hm env s).
  destruct (m env s) as [[a|e] s']; simpl in *; [|by left].
  rewrite <- Hm. apply Hk.
Qed.

(** The last two statements of a view that writes: commit, then answer. *)
Lemma commits_only_commit_ret {A} (P : A -> Prop) (a : A) :
  P a -> commits_only_with P (commit ;;; ret a).
Proof.
  intros Ha env s. unfold bind. rewrite commit_run.
  destruct (flush_refusal _ _); simpl; [by left|].
  destruct (decide _); simpl; [by left|]. right. by exists a.
Qed.

Lemma commits_only_try_except {A} (P : A -> Prop) (body : M A) handles
    (handler : Exn -> M A) :
  commits_only_with P body -> (forall e, no_commit (handler e)) ->
  commits_only_with P (try_except body handles handler).
Proof.
  intros Hm Hk env s. unfold try_except. specialize (Hm env s).
  destruct (body env s) as [[a|e] s']; simpl in *; [done|].
  destruct Hm as [Hm|(a & [=] & _)].
  destruct (handles e); [|by left]. left. by rewrite Hk.
Qed.

Ltac commits_only_step :=
  match goal with
  | |- commits_only_with _ (bind commit (fun _ => ret _)) =>
      apply commits_only_commit_ret
  | |- commits_only_with _ (bind _ _) =>
      apply commits_only_bind; [no_commit_walk|intros ?]
  | |- commits_only_with _ (try_except _ _ _) =>
      apply commits_only_try_except; [|intros ?; no_commit_walk]
  | |- commits_only_with _ (let _ := _ in _) => cbv zeta
  | |- commits_only_with _ (match ?x with _ => _ end) => destruct x
  | |- commits_only_with _ _ =>
      apply commits_only_of_no_commit; solve [no_commit_walk]
  end.

Section StoredAnswers.

Variable py_int : string -> option Z.
Variable py_float : string -> option Py.float.
Variable py_str_exn : Exn -> string.

Lemma no_commit_for_rows rows : forall counts,
  no_commit (for_rows py_int py_float rows counts).
Proof.
  induction rows as [|row rows IH]; intros counts; simpl.
  - apply no_commit_ret.
  - apply no_commit_bind; [no_commit_walk | done].
Qed.

Lemma view_commits_only r req :
  commits_only_with (stored_answer r)
    (view py_int py_float py_str_exn r req).
Proof.
  destruct r; simpl;
    unfold adicionar, editar, deletar, adicionar_cliente, editar_cliente,
      deletar_cliente, nova_venda, importar_csv, limpar_vendas;
    repeat commits_only_step; try done.
  - apply commits_only_of_no_commit. unfold relatorios. no_commit_walk.
  - apply no_commit_for_rows.
  - by eexists _, _.
Qed.

(** X3.  Nothing is stored without the success answer.  For every view,
    request and fault: the stored tables after the request are the ones
    before it, unless the view answered with its success message (there
    is none for the report, which never stores). *)
Theorem stored_only_with_answer r req env db :
  let out := serve (view py_int py_float py_str_exn r req) env db in
  snd out = db \/ exists resp, fst out = Return resp /\ stored_answer r resp.
Proof.
  simpl. unfold serve.
  pose proof (view_commits_only r req env (mkSession db db 0)) as H.
  destruct (view _ _ _ r req env _) as [res s]. simpl in *. done.
Qed.

End StoredAnswers.

(** ** What a view did when it answered *)

Lemma serve_Return (v : M Response) env db r :
  fst (serve v env db) = Return r ->
  exists s, v env (mkSession db db 0) = (Return r, s)
            /\ snd (serve v env db) = committed s.
Proof.
  unfold serve. destruct (v env (mkSession db db 0)) as [res s]. simpl.
  intros ->. by exists s.
Qed.

Lemma of_option_Return {A} e (o : option A) env s a s' :
  of_option e o env s = (Return a, s') -> o = Some a /\ s' = s.
Proof. destruct o; simpl; [by intros [= -> ->] | discriminate]. Qed.

Lemma ret_Return {A} (a b : A) env s s' :
  ret a env s = (Return b, s') -> b = a /\ s' = s.
Proof. by intros [= -> ->]. Qed.

Lemma modify_pending_Return f env s u s' :
  modify_pending f env s = (Return u, s') ->
  s' = mkSession (committed s) (f (pending s)) (calls s).
Proof. by intros [= _ <-]. Qed.

Lemma db_call_Return env s u s' :
  db_call env s = (Return u, s') ->
  s' = mkSession (committed s) (pending s) (S (calls s))
  /\ answers env (calls s).
Proof.
  destruct (db_call_cases env s) as [[-> Ha]|[-> _]]; [|discriminate].
  by intros [= _ <-].
Qed.

Lemma commit_Return env s u s' :
  commit env s = (Return u, s') ->
  s' = mkSession (pending s) (pending s) (S (calls s))
  /\ answers env (calls s)
  /\ flush_refusal (committed s) (pending s) = None.
Proof.
  rewrite commit_run. destruct (flush_refusal _ _); [discriminate|].
  destruct (decide _) as [|Ha]; [discriminate|]. by intros [= <-].
Qed.

Lemma query_get_Return {A} (key : A -> Z) (rows : list A) id env s r s' :
  query_get key rows id env s = (Return r, s') ->
  r = list_find (fun x => key x = id) rows
  /\ s' = mkSession (committed s) (pending s) (S (calls s))
  /\ answers env (calls s)
  /\ (r = None -> in_int64 id = true).
Proof.
  rewrite query_get_run. destruct (list_find _ rows) as [found|].
  - destruct (decide _) as [|Ha]; [discriminate|]. by intros [= <- <-].
  - destruct (in_int64 id); [|discriminate]. simpl.
    destruct (decide _) as [|Ha]; [discriminate|]. by intros [= <- <-].
Qed.

Lemma Produto_query_get_Return id env s r s' :
  Produto_query_get id env s = (Return r, s') ->
  r = list_find (fun p => Produto.id p = id) (produtos (pending s))
  /\ s' = mkSession (committed s) (pending s) (S (calls s))
  /\ answers env (calls s)
  /\ (r = None -> in_int64 id = true).
Proof. apply query_get_Return. Qed.

Lemma Cliente_query_get_Return id env s r s' :
  Cliente_query_get id env s = (Return r, s') ->
  r = list_find (fun c => Cliente.id c = id) (clientes (pending s))
  /\ s' = mkSession (committed s) (pending s) (S (calls s))
  /\ answers env (calls s)
  /\ (r = None -> in_int64 id = true).
Proof. apply query_get_Return. Qed.

Lemma float_or_None_Return py_float x env s r s' :
  float_or_None py_float x env s = (Return r, s') ->
  r = optional_float py_float x /\ s' = s.
Proof.
  unfold float_or_None, optional_float. destruct x as [str|].
  - destruct (Py.truthy str).
    + unfold bind, float, of_option. destruct (py_float str); [|discriminate].
      by intros [= <- <-].
    + by intros [= <- <-].
  - by intros [= <- <-].
Qed.

Lemma optional_float_blank py_float x :
  x = None \/ x = Some ""%string -> optional_float py_float x = None.
Proof. by intros [->| ->]. Qed.


(** Takes apart a run that returned, statement by statement. *)
Ltac inv_run H :=
  repeat
    (apply bind_Return in H as (? & ? & ? & H));
  repeat match goal with
  | E : of_option ?e ?o ?env ?s = (Return _, _) |- _ =>
      apply (of_option_Return e o env s) in E as [? ->]
  | E : or_404 ?o ?env ?s = (Return _, _) |- _ =>
      apply (of_option_Return NotFound o env s) in E as [? ->]
  | E : form_getitem ?req ?k ?env ?s = (Return _, _) |- _ =>
      apply (of_option_Return BadRequestKeyError (form_get req k) env s) in E
        as [? ->]
  | E : int ?f ?x ?env ?s = (Return _, _) |- _ =>
      apply (of_option_Return ValueError (f x) env s) in E as [? ->]
  | E : float ?f ?x ?env ?s = (Return _, _) |- _ =>
      apply (of_option_Return ValueError (f x) env s) in E as [? ->]
  | E : float_or_None ?f ?x ?env ?s = (Return _, _) |- _ =>
      apply (float_or_None_Return f x env s) in E as [-> ->]
  | E : Produto_query_get ?id ?env ?s = (Return _, _) |- _ =>
      apply (Produto_query_get_Return id env s) in E as (-> & -> & ? & ?)
  | E : Cliente_query_get ?id ?env ?s = (Return _, _) |- _ =>
      apply (Cliente_query_get_Return id env s) in E as (-> & -> & ? & ?)
  | E : update_produto ?i ?f ?env ?s = (Return _, _) |- _ =>
      apply (modify_pending_Return _ env s) in E as ->
  | E : update_cliente ?i ?f ?env ?s = (Return _, _) |- _ =>
      apply (modify_pending_Return _ env s) in E as ->
  | E : add_produto _ _ _ _ _ ?env ?s = (Return _, _) |- _ =>
      apply (modify_pending_Return _ env s) in E as ->
  | E : add_cliente _ _ _ _ ?env ?s = (Return _, _) |- _ =>
      apply (modify_pending_Return _ env s) in E as ->
  | E : delete_produto _ ?env ?s = (Return _, _) |- _ =>
      apply (modify_pending_Return _ env s) in E as ->
  | E : delete_cliente _ ?env ?s = (Return _, _) |- _ =>
      apply (modify_pending_Return _ env s) in E as ->
  | E : commit ?env ?s = (Return _, _) |- _ =>
      apply (commit_Return env s) in E as (-> & ? & ?)
  | E : db_call ?env ?s = (Return _, _) |- _ =>
      apply (db_call_Return env s) in E as [-> ?]
  | E : ret ?a ?env ?s = (Return _, _) |- _ =>
      apply (ret_Return a _ env s) in E as [? ->]
  end.

Section ProductFacts.

Variable py_int : string -> option Z.
Variable py_float : string -> option Py.float.

Lemma refuses_produto_None p :
  refuses_produto p = None
  <-> in_int64 (Produto.quantidade p) = true
      /\ Py.is_nan (Produto.preco p) = false.
Proof.
  unfold refuses_produto.
  destruct (in_int64 _), (Py.is_nan _); simpl; split; try done; by intros [].
Qed.

(** The flush of a transaction that only added a product writes that
    product. *)
Lemma flush_refusal_added db nome q preco custo val :
  flush_refusal db (added db nome q preco custo val)
  = refuses_produto
      (Produto.mk (next_id (Produto.id <$> produtos db)) nome q preco custo
         val).
Proof.
  rewrite flush_refusal_produtos by done. simpl.
  rewrite first_refusal_snoc by done.
  by rewrite decide_False by (by apply (next_id_not_in Produto.id)).
Qed.

(** The tables after the view answered that the product was added. *)
Lemma adicionar_Return req env db :
  fst (serve (adicionar py_int py_float req) env db) = Return adicionar_ok ->
  exists nome quantidade preco,
    snd (serve (adicionar py_int py_float req) env db)
    = added db nome quantidade preco
        (sql_real (optional_float py_float (form_get req "preco_compra")))
        (form_get req "validade").
Proof.
  intros Hok. apply serve_Return in Hok as (s & Hrun & ->).
  unfold adicionar in Hrun. destruct (method req) eqn:Hm.
  { by apply ret_Return in Hrun as [? _]. }
  inv_run Hrun. simpl. by eexists _, _, _.
Qed.

(** X4.  Adding a product.  When the view answers that the product was
    added, the form held a name, an integer quantity and a decimal price,
    the quantity is a 64-bit integer and the price is no NaN (the engine
    takes no other), and the tables hold exactly one more product: the
    last one, under an id above every id in use, with the fields of the
    form.  A purchase cost that is missing from the form or empty is
    stored as None, not as zero, and so is a cost that is a NaN; any other
    cost is stored as it is read. *)
Theorem adicionar_stores req env db :
  let out := serve (adicionar py_int py_float req) env db in
  fst out = Return adicionar_ok ->
  exists nome qs quantidade ps preco,
    method req = POST
    /\ form_get req "nome" = Some nome
    /\ form_get req "quantidade" = Some qs /\ py_int qs = Some quantidade
    /\ form_get req "preco" = Some ps /\ py_float ps = Some preco
    /\ in_int64 quantidade = true
    /\ Py.is_nan preco = false
    /\ snd out
       = added db nome quantidade preco
           (sql_real (optional_float py_float (form_get req "preco_compra")))
           (form_get req "validade")
    /\ (form_get req "preco_compra" = None
        \/ form_get req "preco_compra" = Some ""%string ->
        sql_real (optional_float py_float (form_get req "preco_compra"))
        = None)
    /\ (forall custo,
          optional_float py_float (form_get req "preco_compra") = Some custo ->
          sql_real (optional_float py_float (form_get req "preco_compra"))
          = if Py.is_nan custo then None else Some custo)
    /\ (forall p, p ∈ produtos db ->
                  Produto.id p < next_id (Produto.id <$> produtos db)).
Proof.
  simpl. intros Hok. apply serve_Return in Hok as (s & Hrun & ->).
  unfold adicionar in Hrun. destruct (method req) eqn:Hm.
  { by apply ret_Return in Hrun as [? _]. }
  inv_run Hrun. simpl in *.
  match goal with H : flush_refusal _ _ = None |- _ => rename H into Hflush end.
  match type of Hflush with
  | flush_refusal db
      (with_produtos (fun l => l ++ [Produto.mk _ ?n ?q ?v ?c ?d]) db) = None =>
      change (flush_refusal db (added db n q v c d) = None) in Hflush
  end.
  rewrite flush_refusal_added in Hflush.
  apply refuses_produto_None in Hflush as [Hq Hp]. simpl in Hq, Hp.
  eexists _, _, _, _, _. repeat split; try eassumption.
  - intros Hblank. by rewrite optional_float_blank.
  - by intros custo ->.
  - intros p Hp'. apply next_id_above. by apply list_elem_of_fmap_2.
Qed.



Lemma deletar_run id env db :
  serve (deletar id) env db = deletar_outcome id env db.
Proof.
  unfold serve, deletar, deletar_outcome.
  unfold bind at 1. rewrite Produto_query_get_run. simpl.
  fold (get_produto db id).
  destruct (get_produto db id) as [[i p]|]; simpl.
  - destruct (decide (fault env = Some 0%nat)); [done|]. simpl.
    unfold bind at 1. simpl. unfold bind at 1. simpl.
    unfold bind at 1. rewrite commit_run. simpl.
    assert (Hflush : forall t, t = with_produtos (delete i) db ->
              flush_refusal db t = None).
    { intros t ->. rewrite flush_refusal_produtos by done. simpl.
      apply first_refusal_stored. intros x Hx.
      by eapply list_elem_of_delete_inv. }
    rewrite Hflush by done. by destruct (decide (fault env = Some 1%nat)).
  - destruct (in_int64 id); simpl; [|done].
    by destruct (decide (fault env = Some 0%nat)).
Qed.

Lemma get_produto_delete db id i p :
  NoDup (Produto.id <$> produtos db) ->
  get_produto db id = Some (i, p) ->
  get_produto (without_produto_at db i) id = None.
Proof.
  unfold get_produto, without_produto_at. simpl. intros Hnd Hfind.
  apply list_find_Some in Hfind as (Hi & Hid & _).
  apply list_find_None, Forall_forall. intros q Hq Hqid.
  apply list_elem_of_lookup in Hq as [j Hj].
  assert (Hj' : exists j', j' <> i /\ produtos db !! j' = Some q).
  { destruct (decide (j < i)%nat).
    - exists j. split; [lia|]. by rewrite list_lookup_delete_lt in Hj.
    - exists (S j). split; [lia|]. by rewrite list_lookup_delete_ge in Hj by lia. }
  destruct Hj' as (j' & Hne & Hj'). apply Hne.
  eapply (NoDup_lookup _ j' i (Produto.id q) Hnd);
    rewrite list_lookup_fmap.
  - by rewrite Hj'.
  - rewrite Hi. simpl. congruence.
Qed.


Lemma get_produto_added db nome q preco custo val :
  get_produto (added db nome q preco custo val)
    (next_id (Produto.id <$> produtos db))
  = Some (length (produtos db),
          Produto.mk (next_id (Produto.id <$> produtos db)) nome q preco
            custo val).
Proof.
  unfold get_produto, added. simpl.
  rewrite list_find_app_r.
  - simpl. rewrite decide_True by done. done.
  - apply list_find_None, Forall_forall. intros p Hp Hid.
    assert (Hlt : Produto.id p < next_id (Produto.id <$> produtos db)).
    { apply next_id_above. by apply list_elem_of_fmap_2. }
    lia.
Qed.

(** X7.  A product just added can be found and deleted again.  After the
    view stored a product, the lookup by the new id finds it at the end of
    the table, and deleting that id (the engine answering) gives back the
    tables as they were before the addition. *)
Theorem adicionar_deletar_round_trip req env db env' :
  fst (serve (adicionar py_int py_float req) env db) = Return adicionar_ok ->
  answers env' 0 -> answers env' 1 ->
  let db1 := snd (serve (adicionar py_int py_float req) env db) in
  let id := next_id (Produto.id <$> produtos db) in
  (exists p, get_produto db1 id = Some (length (produtos db), p)
             /\ produtos db1 = produtos db ++ [p])
  /\ serve (deletar id) env' db1 = (Return deletar_ok, db).
Proof.
  intros Hok Ha0 Ha1. simpl.
  destruct (adicionar_Return req env db Hok) as (nome & q & preco & ->).
  split.
  - eexists. split; [apply get_produto_added | done].
  - rewrite deletar_run. unfold deletar_outcome.
    rewrite get_produto_added, !decide_False by done.
    f_equal. unfold without_produto_at, added. simpl.
    destruct db as [ps' cs vs]. simpl. f_equal.
    rewrite delete_middle with (l1 := ps') (l2 := []).
    by rewrite app_nil_r.
Qed.

End ProductFacts.

Lemma import_done_not_error (py_str_exn : Exn -> string) counts e :
  import_done counts <> import_error py_str_exn e.
Proof. discriminate. Qed.

(** ** More on the CSV import *)

Section ImportMore.

Variable py_int : string -> option Z.
Variable py_float : string -> option Py.float.
Variable py_str_exn : Exn -> string.


Lemma upserted_counted (l : Linha) stored counts :
  fst (counted l stored counts) + snd (counted l stored counts)
  = fst counts + snd counts + 1
  /\ Z.of_nat (length (upserted l stored)) - fst (counted l stored counts)
     = Z.of_nat (length stored) - fst counts
  /\ fst counts <= fst (counted l stored counts)
  /\ snd counts <= snd (counted l stored counts).
Proof.
  unfold counted, upserted.
  destruct (find_nome (linha_nome l) stored) as [[i p]|]; simpl.
  - rewrite length_insert. lia.
  - rewrite length_app. simpl. lia.
Qed.

Lemma import_rows_counts rows : forall stored counts,
  let after := import_rows py_int py_float rows (stored, counts) in
  fst (snd after) + snd (snd after)
  = fst counts + snd counts
    + Z.of_nat (length (parsed_rows py_int py_float rows))
  /\ Z.of_nat (length (fst after)) - fst (snd after)
     = Z.of_nat (length stored) - fst counts
  /\ fst counts <= fst (snd after)
  /\ snd counts <= snd (snd after).
Proof.
  induction rows as [|row rows IH]; intros stored counts.
  { simpl. lia. }
  cbv zeta. rewrite import_rows_cons, parsed_rows_cons.
  destruct (spec_parse_row py_int py_float row) as [l|]; simpl fst; simpl snd.
  - specialize (IH (upserted l stored) (counted l stored counts)).
    cbv zeta in IH. pose proof (upserted_counted l stored counts).
    simpl length. lia.
  - apply IH.
Qed.

(** X9.  The counters of the import.  The two counters are those of the
    rows of the file taken in order: the number of rows that added a
    product and the number of rows that restocked one.  They are not
    negative and add up to the number of rows that were not skipped.
    Every answer of the view is an error message, with the tables as
    they were, or the message that reports these two counters, and then
    the table has grown by exactly the number reported as new.  The view
    reports the counters when the engine refuses no round trip and takes
    every row written. *)
Theorem importar_csv_counts req arquivo env db :
  lookup_key "arquivo_csv" (files req) = Some arquivo ->
  filename arquivo <> ""%string ->
  let out := serve (importar_csv py_int py_float py_str_exn req) env db in
  let body := tail (rows arquivo) in
  let after := import_rows py_int py_float body (produtos db, (0, 0)) in
  let count_novos := fst (snd after) in
  let count_at := snd (snd after) in
  let reported :=
    Redirect "index" (msg_importacao count_novos count_at, "success") in
  0 <= count_novos /\ 0 <= count_at
  /\ count_novos + count_at
     = Z.of_nat (length (parsed_rows py_int py_float body))
  /\ ((exists e, out = (Return (import_error py_str_exn e), db))
      \/ (fst out = Return reported
          /\ Z.of_nat (length (produtos (snd out)))
             = Z.of_nat (length (produtos db)) + count_novos))
  /\ (forall e, reported <> import_error py_str_exn e)
  /\ (fault env = None ->
      import_refusal py_int py_float (produtos db) body (produtos db) = None ->
      fst out = Return reported).
Proof.
  intros Hfile Hname. cbv zeta.
  pose proof (import_rows_counts (tail (rows arquivo)) (produtos db) (0, 0))
    as H. cbv zeta in H. cbn [fst snd] in H.
  split; [lia|]. split; [lia|]. split; [lia|]. split; [|split].
  - rewrite (importar_csv_run py_int py_float py_str_exn _ _ env db
               Hfile Hname).
    destruct (import_outcome _ _ _ _ _ _ _ _) as [[ps c]|e] eqn:Hout.
    + apply import_outcome_Return in Hout as (Hrows & _).
      rewrite <- Hrows in H |- *. cbn [fst snd] in H.
      destruct (decide _); [left; by eexists|]. right.
      split; [done|]. simpl. lia.
    + left. by eexists.
  - discriminate.
  - intros Hquiet Hno.
    rewrite (importar_csv_quiet py_int py_float py_str_exn req arquivo env db
               Hfile Hname Hquiet), Hno. done.
Qed.

Lemma upserted_names (l : Linha) stored :
  names_unique stored -> names_unique (upserted l stored).
Proof.
  unfold names_unique, upserted, find_nome. intros Hnd.
  destruct (list_find _ stored) as [[i p]|] eqn:Hfind.
  - apply list_find_Some in Hfind as (Hi & _).
    rewrite list_fmap_insert. simpl.
    rewrite list_insert_id; [done|]. by rewrite list_lookup_fmap, Hi.
  - rewrite fmap_app. simpl. apply NoDup_app. split; [done|]. split.
    + intros x Hx ->%list_elem_of_singleton.
      apply list_elem_of_fmap in Hx as (p & Hp & Hin).
      apply list_find_None in Hfind. rewrite Forall_forall in Hfind.
      by apply (Hfind p Hin).
    + apply NoDup_singleton.
Qed.

Lemma upserted_identities (l : Linha) stored j p :
  stored !! j = Some p ->
  exists p', upserted l stored !! j = Some p' /\ same_identity p p'.
Proof.
  unfold upserted, find_nome. intros Hj.
  destruct (list_find _ stored) as [[i q]|] eqn:Hfind.
  - apply list_find_Some in Hfind as (Hi & _).
    destruct (decide (i = j)) as [->|Hne].
    + exists (restocked l q). rewrite list_lookup_insert_eq
        by (by eapply lookup_lt_Some).
      split; [done|]. rewrite Hj in Hi. injection Hi as ->. by repeat split.
    + exists p. rewrite list_lookup_insert_ne by done. by repeat split.
  - exists p. rewrite lookup_app_l by (by eapply lookup_lt_Some).
    by repeat split.
Qed.

(** A property of the products that the update of one row keeps is kept
    by the whole import. *)
Lemma maintains_importar_csv (I : Tables -> Prop) req :
  (forall l t, I t ->
     I (mkTables (upserted l (produtos t)) (clientes t) (vendas t))) ->
  maintains I (importar_csv py_int py_float py_str_exn req).
Proof.
  intros Hup. unfold importar_csv.
  destruct (lookup_key _ _) as [arquivo|]; [|apply maintains_ret].
  destruct (String.eqb _ _); [apply maintains_ret|].
  apply maintains_try_except; [|intros e; apply maintains_ret].
  apply maintains_bind.
  2: { intros counts. apply maintains_bind; [apply maintains_commit|].
       intros _. apply maintains_ret. }
  apply maintains_for_rows. intros row counts env s Hp Hc.
  rewrite importar_linha_run.
  destruct (spec_parse_row py_int py_float row) as [l|]; [|done].
  destruct (decide _); [done|]. simpl.
  split; [by apply Hup | done].
Qed.

(** X10.  The import keeps the names apart.  If no two stored products have
    the same name, then after the import, whatever the file and whether
    it goes through or not, still no two have: a name that comes twice in
    the file makes one product, restocked by the second row. *)
Theorem importar_csv_names_unique req env db :
  names_unique (produtos db) ->
  names_unique (produtos
    (snd (serve (importar_csv py_int py_float py_str_exn req) env db))).
Proof.
  intros Hdb.
  apply (serve_maintains (fun t => names_unique (produtos t))); [|done].
  apply maintains_importar_csv. intros l t Ht. simpl. by apply upserted_names.
Qed.

(** X11.  What the import leaves alone.  Every product stored before the
    import is still there after it, at the same place, with the same id,
    name, sale price and expiry: a row for an existing product changes its
    stock (and possibly its purchase cost), never its price.  Products
    are only ever added at the end. *)
Theorem importar_csv_identities req env db :
  identities_kept (produtos db)
    (snd (serve (importar_csv py_int py_float py_str_exn req) env db)).
Proof.
  apply (serve_maintains (identities_kept (produtos db))).
  - apply maintains_importar_csv. intros l t Ht j p Hj.
    destruct (Ht j p Hj) as (p1 & Hp1 & Hsame). simpl.
    destruct (upserted_identities l (produtos t) j p1 Hp1)
      as (p2 & Hp2 & Hsame2).
    exists p2. split; [done|].
    destruct Hsame as (? & ? & ? & ?), Hsame2 as (? & ? & ? & ?).
    repeat split; congruence.
  - intros j p Hj. exists p. by repeat split.
Qed.

End ImportMore.

(** ** More on the sale form *)

Section SaleForm.

Variable py_int : string -> option Z.

(** X12.  A malformed sale form.  A POST without a product id or without a
    quantity is answered with a 400, and one whose product id or quantity
    is not an integer with an unhandled ValueError; this is decided before
    the first round trip to the engine (so whatever its state), in the
    order product id, then quantity, and nothing is stored. *)
Theorem nova_venda_bad_form req env db :
  method req = POST ->
  let out := serve (nova_venda py_int req) env db in
  (form_get req "produto_id" = None -> out = (Raise BadRequestKeyError, db))
  /\ (forall s, form_get req "produto_id" = Some s -> py_int s = None ->
                out = (Raise ValueError, db))
  /\ (forall s produto_id,
        form_get req "produto_id" = Some s -> py_int s = Some produto_id ->
        (form_get req "quantidade" = None ->
         out = (Raise BadRequestKeyError, db))
        /\ (forall q, form_get req "quantidade" = Some q -> py_int q = None ->
                      out = (Raise ValueError, db))).
Proof.
  intros Hm. simpl. unfold serve, nova_venda. rewrite Hm.
  unfold form_getitem, int. split; [|split].
  - intros ->. reflexivity.
  - intros s -> Hs. unfold bind. simpl. by rewrite Hs.
  - intros s pid -> Hs. split.
    + intros ->. unfold bind. simpl. by rewrite Hs.
    + intros q -> Hq. unfold bind. simpl. by rewrite Hs, Hq.
Qed.


End SaleForm.

(** ** Figures of the report *)

Lemma units_sold_snoc t name vs v :
  units_sold t name (vs ++ [v])
  = units_sold t name vs
    + (if decide (Produto.nome <$> produto_of t v = Some name)
       then Venda.quantidade v else 0).
Proof.
  induction vs as [|w vs IH]; simpl.
  - destruct (decide _); lia.
  - rewrite IH. destruct (decide (_ <$> produto_of t w = _)); lia.
Qed.

Lemma dict_add_lookup k n (d : list (string * Z)) :
  NoDup (fst <$> d) ->
  NoDup (fst <$> dict_add k n d)
  /\ (forall k', k' ∈ (fst <$> dict_add k n d) <-> k' = k \/ k' ∈ (fst <$> d))
  /\ (forall k' m, (k', m) ∈ dict_add k n d ->
        (k' = k /\ ((exists m0, (k, m0) ∈ d /\ m = m0 + n)
                    \/ ((k ∉ (fst <$> d)) /\ m = n)))
        \/ (k' <> k /\ (k', m) ∈ d)).
Proof.
  intros Hnd. unfold dict_add.
  destruct (list_find _ d) as [[i [k0 m0]]|] eqn:Hfind.
  - apply list_find_Some in Hfind as (Hi & Hk & _). simpl in Hk. subst k0.
    assert (Hkeys : fst <$> <[i := (k, m0 + n)]> d = fst <$> d).
    { rewrite list_fmap_insert. simpl. apply list_insert_id.
      by rewrite list_lookup_fmap, Hi. }
    simpl. rewrite Hkeys. split; [done|]. split.
    + intros k'. split; [by right|]. intros [->|?]; [|done].
      apply list_elem_of_fmap. exists (k, m0). split; [done|].
      by eapply list_elem_of_lookup_2.
    + intros k' m Hin. apply list_elem_of_lookup in Hin as [j Hj].
      destruct (decide (i = j)) as [<-|Hne].
      * rewrite list_lookup_insert_eq in Hj by (by eapply lookup_lt_Some).
        injection Hj as <- <-. left. split; [done|]. left.
        exists m0. split; [by eapply list_elem_of_lookup_2 | done].
      * rewrite list_lookup_insert_ne in Hj by done.
        right. split; [|by eapply list_elem_of_lookup_2].
        intros ->. apply Hne.
        eapply (NoDup_lookup _ i j k Hnd); rewrite list_lookup_fmap.
        -- by rewrite Hi.
        -- by rewrite Hj.
  - apply list_find_None in Hfind. rewrite Forall_forall in Hfind.
    assert (Hk : k ∉ (fst <$> d)).
    { intros Hin. apply list_elem_of_fmap in Hin as ([k1 m1] & -> & Hin).
      by apply (Hfind _ Hin). }
    rewrite fmap_app. simpl. split; [|split].
    + apply NoDup_app. split; [done|]. split; [|apply NoDup_singleton].
      by intros x Hx ->%list_elem_of_singleton.
    + intros k'. rewrite elem_of_app, list_elem_of_singleton. tauto.
    + intros k' m [Hin|Hin%list_elem_of_singleton]%elem_of_app.
      * right. split; [|done]. intros ->. apply Hk.
        apply list_elem_of_fmap. by exists (k, m).
      * injection Hin as -> ->. left. split; [done|]. right. split; [done|lia].
Qed.

(** The dict of line 285 after the sales [vs]. *)
Lemma vendas_por_produto_fold t (vs : list Venda.t) :
  let d :=
    fold_left
      (fun d v =>
         match produto_of t v with
         | Some p => dict_add (Produto.nome p) (Venda.quantidade v) d
         | None => d
         end) vs [] in
  NoDup (fst <$> d)
  /\ (forall name, name ∈ (fst <$> d)
        <-> exists v, v ∈ vs /\ Produto.nome <$> produto_of t v = Some name)
  /\ (forall name m, (name, m) ∈ d -> m = units_sold t name vs).
Proof.
  induction vs as [|v vs IH] using rev_ind; simpl.
  { split; [apply NoDup_nil_2|]. split.
    - intros name. split; [by intros ?%elem_of_nil|].
      by intros (v & ?%elem_of_nil & _).
    - by intros name m ?%elem_of_nil. }
  rewrite fold_left_app. simpl. simpl in IH.
  set (d := fold_left _ vs []) in *.
  destruct IH as (Hnd & Hkeys & Hvals).
  destruct (produto_of t v) as [p|] eqn:Hp.
  - destruct (dict_add_lookup (Produto.nome p) (Venda.quantidade v) d Hnd)
      as (Hnd' & Hkeys' & Hvals').
    split; [done|]. split.
    + intros name. rewrite Hkeys', Hkeys. split.
      * intros [->|(w & Hw & Hname)].
        -- exists v. split; [apply elem_of_app; right; by left|].
           by rewrite Hp.
        -- exists w. split; [apply elem_of_app; by left | done].
      * intros (w & Hw & Hname). apply elem_of_app in Hw as [Hw|Hw].
        -- right. by exists w.
        -- apply list_elem_of_singleton in Hw as ->.
           left. rewrite Hp in Hname. by injection Hname.
    + intros name m Hin. rewrite units_sold_snoc, Hp. simpl.
      destruct (Hvals' name m Hin) as [[-> Hcase]|[Hne Hin']].
      * rewrite decide_True by done.
        destruct Hcase as [(m0 & Hm0 & ->)|[Hnot ->]].
        -- by rewrite (Hvals _ _ Hm0).
        -- assert (Hzero : forall ws,
             (forall w, w ∈ ws ->
                Produto.nome <$> produto_of t w <> Some (Produto.nome p)) ->
             units_sold t (Produto.nome p) ws = 0).
           { induction ws as [|w ws IHws]; intros Hall; simpl; [done|].
             rewrite decide_False by (apply Hall; by left).
             apply IHws. intros w' Hw'. apply Hall. by right. }
           rewrite Hzero; [lia|]. intros w Hw Hname. apply Hnot.
           apply Hkeys. by exists w.
      * rewrite decide_False by congruence. rewrite (Hvals _ _ Hin'). lia.
  - split; [done|]. split.
    + intros name. rewrite Hkeys. split.
      * intros (w & Hw & Hname). exists w.
        split; [apply elem_of_app; by left | done].
      * intros (w & Hw & Hname). apply elem_of_app in Hw as [Hw|Hw].
        -- by exists w.
        -- apply list_elem_of_singleton in Hw as ->. by rewrite Hp in Hname.
    + intros name m Hin. rewrite units_sold_snoc, Hp. simpl.
      rewrite (Hvals _ _ Hin). lia.
Qed.

(** X14.  The sales-by-product chart.  Its labels are pairwise different and
    are exactly the names of the stored products that the sales refer to;
    the value under a label is the total quantity of the sales whose
    product, looked up by id, has that name (so two products of one name
    share a bar), and a sale whose product is gone counts for nothing. *)
Theorem vendas_por_produto_totals t :
  NoDup (grafico_prod_labels t)
  /\ length (grafico_prod_labels t) = length (grafico_prod_values t)
  /\ (forall name, name ∈ grafico_prod_labels t
        <-> exists v, v ∈ vendas t
                      /\ Produto.nome <$> produto_of t v = Some name)
  /\ (forall i name m,
        grafico_prod_labels t !! i = Some name ->
        grafico_prod_values t !! i = Some m ->
        m = units_sold t name (vendas t)).
Proof.
  unfold grafico_prod_labels, grafico_prod_values, vendas_por_produto.
  pose proof (vendas_por_produto_fold t (vendas t)) as (Hnd & Hkeys & Hvals).
  simpl in *. split; [done|]. split; [by rewrite !length_fmap|].
  split; [done|].
  intros i name m Hl Hv. rewrite list_lookup_fmap in Hl.
  rewrite list_lookup_fmap in Hv.
  destruct (fold_left _ (vendas t) [] !! i) as [[k n]|] eqn:Hi; [|done].
  simpl in *. injection Hl as ->. injection Hv as ->.
  apply Hvals. by eapply list_elem_of_lookup_2.
Qed.

Lemma fold_left_add_acc (l : list Z) (a : Z) :
  fold_left Z.add l a = a + fold_left Z.add l 0.
Proof.
  revert a. induction l as [|x l IH]; intros a; simpl; [lia|].
  rewrite (IH (a + x)), (IH (0 + x)). lia.
Qed.

Lemma sum_ints_app (l k : list Z) : sum_ints (l ++ k) = sum_ints l + sum_ints k.
Proof.
  unfold sum_ints. rewrite fold_left_app.
  by rewrite (fold_left_add_acc k (fold_left Z.add l 0)).
Qed.

Lemma sum_ints_cons (x : Z) (l : list Z) : sum_ints (x :: l) = x + sum_ints l.
Proof. apply (sum_ints_app [x] l). Qed.

Lemma sum_ints_insert (l : list Z) (i : nat) (x y : Z) :
  l !! i = Some y -> sum_ints (<[i := x]> l) = sum_ints l - y + x.
Proof.
  intros Hi. rewrite insert_take_drop by (by eapply lookup_lt_Some).
  rewrite <- (take_drop_middle l i y Hi) at 3.
  rewrite !sum_ints_app, !sum_ints_cons. lia.
Qed.

Lemma total_itens_vendidos_sum (vs : list Venda.t) :
  total_itens_vendidos vs = sum_ints (Venda.quantidade <$> vs).
Proof.
  unfold total_itens_vendidos, sum_ints. generalize 0.
  induction vs as [|v vs IH]; intros a; simpl; [done|]. apply IH.
Qed.

Lemma dict_add_sum k n (d : list (string * Z)) :
  sum_ints (snd <$> dict_add k n d) = sum_ints (snd <$> d) + n.
Proof.
  unfold dict_add. destruct (list_find _ d) as [[i [k0 m0]]|] eqn:Hfind.
  - apply list_find_Some in Hfind as (Hi & _).
    rewrite list_fmap_insert. simpl.
    rewrite (sum_ints_insert _ i _ m0) by (by rewrite list_lookup_fmap, Hi).
    lia.
  - rewrite fmap_app, sum_ints_app. simpl. unfold sum_ints at 2. simpl. lia.
Qed.

(** X15.  The chart against the total.  The values of the sales-by-product
    chart add up to the units of the sales whose product is still stored;
    when no sale refers to a deleted product, that is the total of units
    sold that the report shows beside it. *)
Theorem grafico_prod_values_sum t :
  sum_ints (grafico_prod_values t)
  = total_itens_vendidos (resolvable t (vendas t))
  /\ ((forall v, v ∈ vendas t -> is_Some (produto_of t v)) ->
      sum_ints (grafico_prod_values t) = total_itens_vendidos (vendas t)).
Proof.
  assert (Hsum : forall vs,
    sum_ints (snd <$> fold_left
      (fun d v =>
         match produto_of t v with
         | Some p => dict_add (Produto.nome p) (Venda.quantidade v) d
         | None => d
         end) vs [])
    = total_itens_vendidos (resolvable t vs)).
  { intros vs. induction vs as [|v vs IH] using rev_ind; [done|].
    rewrite fold_left_app. unfold resolvable in *. rewrite List.filter_app.
    rewrite total_itens_vendidos_sum, fmap_app, sum_ints_app,
      <- total_itens_vendidos_sum, <- IH.
    simpl. destruct (produto_of t v) as [p|].
    - rewrite bool_decide_true by eauto. rewrite dict_add_sum. simpl.
      unfold sum_ints at 3. simpl. lia.
    - rewrite bool_decide_false by (by intros [? ?]). simpl.
      unfold sum_ints at 3. simpl. lia. }
  split; [apply Hsum|].
  intros Hall. unfold grafico_prod_values, vendas_por_produto.
  rewrite Hsum. f_equal. unfold resolvable.
  induction (vendas t) as [|v vs IH]; simpl; [done|].
  rewrite bool_decide_true by (apply Hall; by left).
  f_equal. apply IH. intros w Hw. apply Hall. by right.
Qed.

(** ** CSV export *)

Lemma reads_load_produto loaded id : reads_only (load_produto loaded id).
Proof.
  unfold load_produto. apply reads_bind; [apply reads_get_pending|].
  intros t. destruct (bool_decide _); [apply reads_ret|].
  apply reads_bind; [apply reads_db_call | intros _; apply reads_ret].
Qed.

Lemma reads_load_cliente loaded id : reads_only (load_cliente loaded id).
Proof.
  unfold load_cliente. destruct id as [id|]; [|apply reads_ret].
  apply reads_bind; [apply reads_get_pending|].
  intros t. destruct (bool_decide _); [apply reads_ret|].
  apply reads_bind; [apply reads_db_call | intros _; apply reads_ret].
Qed.

Lemma reads_export_vendas vs : forall lp lc,
  reads_only (export_vendas vs lp lc).
Proof.
  induction vs as [|v vs IH]; intros lp lc; simpl; [apply reads_ret|].
  apply reads_bind; [apply reads_load_produto|]. intros p.
  apply reads_bind; [apply reads_load_cliente|]. intros c.
  apply reads_bind; [apply IH | intros rows; apply reads_ret].
Qed.

Lemma reads_exportar tipo : reads_only (exportar tipo).
Proof.
  unfold exportar.
  repeat match goal with
         | |- reads_only (if ?b then _ else _) => destruct b
         | |- reads_only (bind _ _) => apply reads_bind; [|intros ?]
         | |- reads_only (ret _) => apply reads_ret
         | |- reads_only db_call => apply reads_db_call
         | |- reads_only get_pending => apply reads_get_pending
         | |- reads_only (export_vendas _ _ _) => apply reads_export_vendas
         end.
Qed.

Lemma serve_as_reads {A} (v : M A) env db :
  reads_only v -> snd (serve_as v env db) = db.
Proof.
  intros Hv. unfold serve_as. specialize (Hv env (mkSession db db 0)).
  destruct (v env _) as [r s]. simpl in *. by destruct Hv.
Qed.

Lemma db_call_quiet env s :
  fault env = None ->
  db_call env s = (Return tt, mkSession (committed s) (pending s) (S (calls s))).
Proof. intros H. apply db_call_answers. unfold answers. congruence. Qed.

Lemma load_produto_quiet env loaded id s :
  fault env = None ->
  exists loaded' n,
    load_produto loaded id env s
    = (Return (snd <$> list_find (fun p => Produto.id p = id)
                         (produtos (pending s)), loaded'),
       mkSession (committed s) (pending s) n).
Proof.
  intros Hq. unfold load_produto, bind, get_pending. simpl.
  destruct (bool_decide _).
  - exists loaded, (calls s). unfold ret. by destruct s.
  - rewrite db_call_quiet by done. simpl. by eexists _, _.
Qed.

Lemma load_cliente_quiet env loaded (v : Venda.t) s :
  fault env = None ->
  exists loaded' n,
    load_cliente loaded (Venda.cliente_id v) env s
    = (Return (cliente_of (pending s) v, loaded'),
       mkSession (committed s) (pending s) n).
Proof.
  intros Hq. unfold load_cliente, cliente_of.
  destruct (Venda.cliente_id v) as [id|].
  - unfold bind, get_pending. simpl. destruct (bool_decide _).
    + exists loaded, (calls s). unfold ret. by destruct s.
    + rewrite db_call_quiet by done. simpl. by eexists _, _.
  - exists loaded, (calls s). unfold ret. by destruct s.
Qed.

Lemma export_vendas_quiet env vs : forall lp lc s,
  fault env = None ->
  exists n,
    export_vendas vs lp lc env s
    = (Return (export_row_venda (pending s) <$> vs),
       mkSession (committed s) (pending s) n).
Proof.
  induction vs as [|v vs IH]; intros lp lc s Hq; simpl.
  { exists (calls s). unfold ret. by destruct s. }
  unfold bind at 1.
  destruct (load_produto_quiet env lp (Venda.produto_id v) s Hq)
    as (lp' & n1 & ->). simpl.
  unfold bind at 1.
  destruct (load_cliente_quiet env lc v
              (mkSession (committed s) (pending s) n1) Hq)
    as (lc' & n2 & ->). simpl.
  unfold bind at 1.
  destruct (IH lp' lc' (mkSession (committed s) (pending s) n2) Hq)
    as (n3 & ->). simpl.
  exists n3. done.
Qed.

(** The three exports when the engine answers every call. *)
Lemma exportar_quiet env db :
  fault env = None ->
  serve_as (exportar "produtos") env db
  = (Return (mkAttachment "produtos.csv"
               (header_produtos :: (row_produto <$> produtos db))), db)
  /\ serve_as (exportar "vendas") env db
     = (Return (mkAttachment "vendas.csv"
                  (header_vendas :: (export_row_venda db <$> vendas db))),
        db)
  /\ serve_as (exportar "clientes") env db
     = (Return (mkAttachment "clientes.csv"
                  (header_clientes :: (row_cliente <$> clientes db))),
        db).
Proof.
  intros Hq. unfold serve_as, exportar. simpl. unfold bind, get_pending.
  rewrite !db_call_quiet by done. simpl. split; [done|]. split; [|done].
  destruct (export_vendas_quiet env (vendas db) [] []
              (mkSession db db 1) Hq) as (n & ->).
  done.
Qed.

(** X16.  The shape of an export.  The view never writes.  For a kind other
    than the three it knows it makes no round trip and answers with an
    empty file named dados.csv, without even a header.  For the three
    kinds, when the engine answers, the file has the header of its kind
    and then one row for each stored record, in the order of the table. *)
Theorem exportar_shape tipo env db :
  snd (serve_as (exportar tipo) env db) = db
  /\ (tipo <> "produtos"%string -> tipo <> "vendas"%string ->
      tipo <> "clientes"%string ->
      serve_as (exportar tipo) env db
      = (Return (mkAttachment "dados.csv" []), db))
  /\ (fault env = None ->
      serve_as (exportar "produtos") env db
      = (Return (mkAttachment "produtos.csv"
                   (header_produtos :: (row_produto <$> produtos db))), db)
      /\ serve_as (exportar "vendas") env db
         = (Return (mkAttachment "vendas.csv"
                      (header_vendas :: (export_row_venda db <$> vendas db))),
            db)
      /\ serve_as (exportar "clientes") env db
         = (Return (mkAttachment "clientes.csv"
                      (header_clientes :: (row_cliente <$> clientes db))),
            db)).
Proof.
  split; [apply serve_as_reads, reads_exportar|]. split.
  - intros H1 H2 H3. unfold serve_as, exportar.
    apply String.eqb_neq in H1, H2, H3. by rewrite H1, H2, H3.
  - apply exportar_quiet.
Qed.

Lemma list_find_delete_other {A} (P : A -> Prop) `{!forall x, Decision (P x)}
    (l : list A) (i : nat) (x : A) :
  l !! i = Some x -> ~ P x ->
  snd <$> list_find P (delete i l) = snd <$> list_find P l.
Proof.
  revert i. induction l as [|y l IH]; intros i Hi Hx; [done|].
  destruct i as [|i]; simpl in *.
  - injection Hi as ->. rewrite decide_False by done.
    by destruct (list_find P l) as [[? ?]|].
  - destruct (decide (P y)); [done|].
    specialize (IH i Hi Hx).
    destruct (list_find P (delete i l)) as [[? ?]|],
             (list_find P l) as [[? ?]|]; simpl in *; congruence.
Qed.

Lemma produto_of_deleted db id i p (v : Venda.t) :
  NoDup (Produto.id <$> produtos db) ->
  get_produto db id = Some (i, p) ->
  produto_of (without_produto_at db i) v
  = if decide (Venda.produto_id v = id) then None else produto_of db v.
Proof.
  intros Hnd Hget. unfold produto_of. destruct (decide _) as [->|Hne].
  - pose proof (get_produto_delete db _ i p Hnd Hget) as Hgone.
    unfold get_produto in Hgone. by rewrite Hgone.
  - unfold without_produto_at. simpl.
    apply list_find_Some in Hget as (Hi & Hid & _).
    apply (list_find_delete_other _ _ _ p Hi). congruence.
Qed.

(** X17.  Deleting a product, then exporting the sales.  With unique ids,
    after a product has been deleted the export of the sales (same rows,
    same order) reads "Removido" as the product of each sale that referred
    to it; the other sales keep the product name they had, and all keep
    their customer, quantity and total. *)
Theorem deletar_then_exportar id env db i p env' :
  NoDup (Produto.id <$> produtos db) ->
  get_produto db id = Some (i, p) ->
  answers env 0 -> answers env 1 ->
  fault env' = None ->
  let db' := snd (serve (deletar id) env db) in
  exists rows,
    fst (serve_as (exportar "vendas") env' db')
    = Return (mkAttachment "vendas.csv" (header_vendas :: rows))
    /\ length rows = length (vendas db)
    /\ forall j v,
         vendas db !! j = Some v ->
         rows !! j
         = Some (row_venda v
                   (if decide (Venda.produto_id v = id) then removido
                    else match produto_of db v with
                         | Some q => Produto.nome q
                         | None => removido
                         end)
                   match cliente_of db v with
                   | Some c => Cliente.nome c
                   | None => balcao
                   end).
Proof.
  intros Hnd Hget Ha0 Ha1 Hq. simpl.
  rewrite deletar_run. unfold deletar_outcome.
  rewrite Hget, !decide_False by done. simpl.
  destruct (exportar_quiet env' (without_produto_at db i) Hq)
    as (_ & -> & _). simpl.
  eexists. split; [reflexivity|]. split; [by rewrite length_fmap|].
  intros j v Hj. rewrite list_lookup_fmap. simpl. rewrite Hj. simpl.
  unfold export_row_venda.
  rewrite (produto_of_deleted db id i p v Hnd Hget).
  by destruct (decide _).
Qed.

Section ExportImport.

Variable py_int : string -> option Z.
Variable py_float : string -> option Py.float.
Variable py_str_exn : Exn -> string.
Variable py_str_float : Py.float -> string.
Variable py_str_datetime : Z -> string.

Lemma import_rows_skipped rows start :
  Forall (fun row => spec_parse_row py_int py_float row = None) rows ->
  import_rows py_int py_float rows start = start.
Proof.
  revert start. induction rows as [|row rows IH]; intros start Hall; [done|].
  apply Forall_cons in Hall as [Hrow Hall].
  rewrite import_rows_cons, Hrow. by apply IH.
Qed.

(** X18.  An export of the products is not a file for the import.  The
    export writes the id in the first column and the name in the second,
    where the import reads the name and the quantity: a row of the export
    is taken only if the product's name reads as an integer, and then
    under the text of the id as its name, the old name as its quantity.
    So when no stored name reads as an integer, importing the exported
    file stores nothing and reports 0 new and 0 updated. *)
Theorem exportar_then_importar env db env' :
  fault env = None -> fault env' = None ->
  (forall p l,
     spec_parse_row py_int py_float
       (List.map (cell_text py_str_float py_str_datetime) (row_produto p))
     = Some l ->
     linha_nome l = Py.strip (Py.str_of_int (Produto.id p))
     /\ py_int (Produto.nome p) = Some (linha_qtd l))
  /\ ((forall p, p ∈ produtos db -> py_int (Produto.nome p) = None) ->
      forall a,
        fst (serve_as (exportar "produtos") env db) = Return a ->
        serve (importar_csv py_int py_float py_str_exn
                 (upload_request (att_filename a)
                    (read_back py_str_float py_str_datetime a)))
          env' db
        = (Return (import_done (0, 0)), db)).
Proof.
  intros Hq Hq'. split.
  - intros p l. unfold spec_parse_row, row_produto. simpl.
    destruct (String.eqb _ _); [done|].
    destruct (py_int (Produto.nome p)) as [q|]; [|done].
    destruct (py_float _); [|done].
    destruct (if String.eqb _ _ then _ else _); [|done].
    by intros [= <-].
  - intros Hnames a Ha.
    destruct (exportar_quiet env db Hq) as (Hp & _).
    rewrite Hp in Ha. simpl in Ha.
    injection Ha as <-.
    rewrite (importar_csv_quiet py_int py_float py_str_exn _
               (mkUpload "produtos.csv"
                  (read_back py_str_float py_str_datetime
                     (mkAttachment "produtos.csv"
                        (header_produtos :: (row_produto <$> produtos db)))))
               env' db); [|done|done|done].
    assert (Hskipped :
      Forall (fun row => spec_parse_row py_int py_float row = None)
        (tail (rows (mkUpload "produtos.csv"
                       (read_back py_str_float py_str_datetime
                          (mkAttachment "produtos.csv"
                             (header_produtos
                                :: (row_produto <$> produtos db)))))))).
    2: { rewrite import_refusal_skipped, import_rows_skipped by done.
         by destruct db. }
    simpl.
    apply Forall_forall. intros row Hrow.
    apply list_elem_of_In, in_map_iff in Hrow as (cells & <- & Hcells).
    apply list_elem_of_In, list_elem_of_fmap in Hcells as (p & -> & Hin).
    unfold spec_parse_row, row_produto. simpl.
    destruct (String.eqb _ _); [done|]. by rewrite (Hnames p Hin).
Qed.

End ExportImport.

(** ** Configuration *)

Lemma replace_first_prefix old new s :
  String.prefix old s = true ->
  replace_first old new s
  = (new ++ string_drop (String.length old) s)%string.
Proof.
  intros H. destruct s as [|c s].
  - change (replace_first old new "")
      with (if String.prefix old "" then
              (new ++ string_drop (String.length old) "")%string
            else ""%string).
    by rewrite H.
  - change (replace_first old new (String c s))
      with (if String.prefix old (String c s) then
              (new ++ string_drop (String.length old) (String c s))%string
            else String c (replace_first old new s)).
    by rewrite H.
Qed.

(** X19.  The database URI.  Whatever DATABASE_URL holds, the URI that is
    configured is not empty and does not start with "postgres://".  A
    value with that scheme is used with the scheme "postgresql://" and the
    rest as it is; any other non-empty value is used as it is; without a
    value, or with an empty one, the local SQLite file is used. *)
Theorem database_uri_scheme :
  (forall e, String.prefix "postgres://" (database_uri e) = false
             /\ database_uri e <> ""%string)
  /\ (forall u, String.prefix "postgres://" u = true ->
                database_uri (Some u)
                = ("postgresql://" ++ string_drop 11 u)%string)
  /\ (forall u, u <> ""%string -> String.prefix "postgres://" u = false ->
                database_uri (Some u) = u)
  /\ database_uri None = "sqlite:///estoque.db"%string
  /\ database_uri (Some ""%string) = "sqlite:///estoque.db"%string.
Proof.
  assert (Hpg : forall u, String.prefix "postgres://" u = true ->
                  database_uri (Some u)
                  = ("postgresql://" ++ string_drop 11 u)%string).
  { intros u Hu. unfold database_uri.
    assert (Hne : Py.truthy u = true) by (by destruct u).
    rewrite Hne, Hu. simpl andb. cbv iota.
    by rewrite (replace_first_prefix _ _ _ Hu). }
  assert (Hother : forall u, u <> ""%string ->
                     String.prefix "postgres://" u = false ->
                     database_uri (Some u) = u).
  { intros u Hne Hu. unfold database_uri. rewrite Hu, andb_false_r.
    destruct u; [done|]. done. }
  split; [|by repeat split].
  intros [u|]; [|by split].
  destruct (String.eqb_spec u "") as [->|Hne]; [by split|].
  destruct (String.prefix "postgres://" u) eqn:Hu.
  - rewrite (Hpg u Hu). split; [reflexivity | discriminate].
  - rewrite (Hother u Hne Hu). by split.
Qed.

(** ** Authentication *)

Lemma list_find_username_app (users : list User.t) (n : string) (u : User.t) :
  n ∉ (User.username <$> users) -> User.username u = n ->
  list_find (fun v => User.username v = n) (users ++ [u])
  = Some (length users, u).
Proof.
  intros Hn Hu. apply list_find_Some. split_and!.
  - by rewrite lookup_app_r, Nat.sub_diag.
  - done.
  - intros j v Hj Hlt Hv. apply Hn.
    rewrite lookup_app_l in Hj by done.
    apply list_elem_of_fmap. exists v. split; [done|].
    by eapply list_elem_of_lookup_2.
Qed.

Lemma list_find_username_None (users : list User.t) (n : string) :
  list_find (fun v => User.username v = n) users = None
  <-> n ∉ (User.username <$> users).
Proof.
  rewrite list_find_None, Forall_forall. split.
  - intros H [v [-> Hv]]%list_elem_of_fmap. by apply (H v).
  - intros H v Hv Hn. apply H, list_elem_of_fmap. by exists v.
Qed.

Section AuthFacts.

Variable generate_password_hash : string -> string -> string.
Variable check_password_hash : string -> string -> bool.

Ltac auth_run :=
  cbv beta iota zeta delta
    [auth_serve registrar login abind a_of_option aret araise
     User_query_filter_by_username_first load_user a_db_call add_user
     a_commit login_user is_authenticated fst snd users_committed
     users_pending auth_calls logged_in Nat.eqb].

Ltac destruct_find :=
  match goal with
  | |- context [@list_find _ ?P ?D ?l] =>
      let Hfind := fresh "Hfind" in
      destruct (@list_find _ P D l) as [[? ?]|] eqn:Hfind;
      [simpl (_ <$> Some _)|simpl (_ <$> None)]
  end.

(** X20.  Registration.  The view never logs the visitor in.  It stores
    a user only with the answer that sends to the login page, and then
    the name was given in the form, was not taken, and the new row is the
    last one, with the hash of the password of the form; with any other
    outcome the users are as before.  So user names that are pairwise
    different stay so. *)
Theorem registrar_usernames salt req env users visitor :
  let out := auth_serve (registrar generate_password_hash salt req) env
               users visitor in
  out.2 = visitor
  /\ (out.1.2 = users
      \/ exists n p,
           out.1.1 = Return (ARedirect "login"
                               (Some (msg_conta_criada, "success"%string)))
           /\ method req = POST
           /\ form_get req "username" = Some n
           /\ form_get req "password" = Some p
           /\ (n ∉ (User.username <$> users))
           /\ out.1.2 = users ++ [User.mk (next_id (User.id <$> users)) n
                                    (generate_password_hash salt p)])
  /\ (NoDup (User.username <$> users) -> NoDup (User.username <$> out.1.2)).
Proof.
  cbv zeta.
  assert (H : let out := auth_serve (registrar generate_password_hash salt
                                       req) env users visitor in
    out.2 = visitor
    /\ (out.1.2 = users
      \/ exists n p,
           out.1.1 = Return (ARedirect "login"
                               (Some (msg_conta_criada, "success"%string)))
           /\ method req = POST
           /\ form_get req "username" = Some n
           /\ form_get req "password" = Some p
           /\ (n ∉ (User.username <$> users))
           /\ out.1.2 = users ++ [User.mk (next_id (User.id <$> users)) n
                                    (generate_password_hash salt p)])).
  { cbv zeta. auth_run.
    destruct (method req) eqn:Hm; [split; [done|by left]|].
    destruct (form_get req "username") as [n|] eqn:Hn;
      [|split; [done|by left]].
    destruct (form_get req "password") as [p|] eqn:Hp;
      [|split; [done|by left]].
    assert (Hnew : list_find (fun u => User.username u = n) users = None ->
      visitor = visitor
      /\ (users ++ [User.mk (next_id (User.id <$> users)) n
                     (generate_password_hash salt p)] = users
          \/ exists n0 p0,
               Return (ARedirect "login"
                         (Some (msg_conta_criada, "success"%string)))
               = Return (ARedirect "login"
                           (Some (msg_conta_criada, "success"%string)))
               /\ POST = POST
               /\ Some n = Some n0
               /\ Some p = Some p0
               /\ (n0 ∉ (User.username <$> users))
               /\ users ++ [User.mk (next_id (User.id <$> users)) n
                              (generate_password_hash salt p)]
                  = users ++ [User.mk (next_id (User.id <$> users)) n0
                                (generate_password_hash salt p0)])).
    { intros Hfind%list_find_username_None. split; [done|]. right.
      by exists n, p. }
    destruct (fault env) as [[|[|k]]|] eqn:Hf; auth_run;
      [split; [done|by left]|..];
      (destruct_find; auth_run; [split; [done|by left]|]);
      rewrite ?Hf; auth_run;
      solve [split; [done|by left] | by apply Hnew]. }
  cbv zeta in H. destruct H as [Hv Hs]. split_and!; [done|done|].
  intros Hnd. destruct Hs as [->|(n & p & _ & _ & _ & _ & Hn & ->)]; [done|].
  rewrite fmap_app. apply NoDup_app. split_and!; [done| |].
  - intros x Hx [->|[]%elem_of_nil]%elem_of_cons. done.
  - apply NoDup_singleton.
Qed.

(** X21.  Login.  The view never writes to the users.  A visitor who was
    not logged in is logged in afterwards only if the request was a POST
    whose user name is that of a stored user, the first of that name, and
    whose password passes the check against the hash stored for that
    user; the visitor is then logged in as that user and sent to the
    index.  An unknown name and a wrong password get one and the same
    answer. *)
Theorem login_sound req env users :
  let out := auth_serve (login check_password_hash req) env users None in
  out.1.2 = users
  /\ (forall id, out.2 = Some id ->
        exists n p i u,
          method req = POST
          /\ form_get req "username" = Some n
          /\ form_get req "password" = Some p
          /\ list_find (fun v => User.username v = n) users = Some (i, u)
          /\ check_password_hash (User.password_hash u) p = true
          /\ User.id u = id
          /\ out.1.1 = Return (ARedirect "index" None))
  /\ (forall n p,
        method req = POST ->
        form_get req "username" = Some n ->
        form_get req "password" = Some p ->
        fault env <> Some 0%nat ->
        (forall u, u ∈ users -> User.username u = n ->
                   check_password_hash (User.password_hash u) p = false) ->
        out = (Return (ARender "login.html"
                         (Some (msg_credenciais, "danger"%string))),
               users, None)).
Proof.
  cbv zeta. auth_run.
  destruct (method req) eqn:Hm; [split_and!; [done|done|done]|].
  destruct (form_get req "username") as [n|] eqn:Hn;
    [|split_and!; [done|done|done]].
  destruct (form_get req "password") as [p|] eqn:Hp;
    [|split_and!; [done|done|done]].
  destruct (fault env) as [[|k]|] eqn:Hf; auth_run;
    [split_and!; [done|done|by intros ? ? _ _ _ ?]|..];
    (destruct_find; auth_run;
     [match goal with
      | |- context [check_password_hash ?h p] =>
          destruct (check_password_hash h p) eqn:Hc
      end; auth_run|];
     (split_and!; [done| |]);
     [..|by intros]);
    try done.
  all: try (intros id [= <-]; by eexists n, p, _, _).
  all: intros ? ? _ [= <-] [= <-] _ Hall;
    match goal with
    | H : list_find _ _ = Some _ |- _ =>
        apply list_find_Some in H as (Hi & Hu & _)
    end;
    apply list_elem_of_lookup_2 in Hi;
    by rewrite (Hall _ Hi Hu) in Hc.
Qed.

(** X22.  A visitor who is logged in.  When the browser session holds the
    id of a stored user and the engine answers, the login view sends to
    the index without reading the form: the visitor stays logged in as the
    same user, whatever name and password the request holds. *)
Theorem login_already_authenticated req env users id :
  id ∈ (User.id <$> users) ->
  fault env <> Some 0%nat ->
  auth_serve (login check_password_hash req) env users (Some id)
  = (Return (ARedirect "index" None), users, Some id).
Proof.
  intros Hid Hf.
  unfold auth_serve, login, is_authenticated. cbn.
  unfold abind, load_user, abind, aret, a_db_call; cbn.
  assert (Hfind : is_Some (list_find (fun u => User.id u = id) users)).
  { apply list_elem_of_fmap in Hid as [u [-> Hu]].
    destruct (list_find (fun v => User.id v = User.id u) users) eqn:E;
      [done|].
    rewrite list_find_None, Forall_forall in E. by destruct (E u Hu). }
  destruct Hfind as [[i u] Hfind].
  destruct (fault env) as [[|k]|] eqn:E; [done| |];
    cbn; rewrite Hfind; cbn; done.
Qed.

(** X23.  Registering, then logging in.  Suppose the hash made of a password
    passes the check for that password.  When a name that is not taken is
    registered, a visitor who then gives the same name and password is
    logged in as the new user; with a password that does not pass the
    check against the stored hash the visitor stays logged out. *)
Theorem registrar_then_login salt req env users req' env' n p p' :
  check_password_hash (generate_password_hash salt p) p = true ->
  method req = POST ->
  form_get req "username" = Some n ->
  form_get req "password" = Some p ->
  n ∉ (User.username <$> users) ->
  fault env = None ->
  fault env' = None ->
  method req' = POST ->
  form_get req' "username" = Some n ->
  form_get req' "password" = Some p' ->
  let registered := auth_serve (registrar generate_password_hash salt req)
                      env users None in
  let new := User.mk (next_id (User.id <$> users)) n
               (generate_password_hash salt p) in
  registered
  = (Return (ARedirect "login" (Some (msg_conta_criada, "success"%string))),
     users ++ [new], None)
  /\ auth_serve (login check_password_hash req') env' registered.1.2 None
     = if check_password_hash (generate_password_hash salt p) p'
       then (Return (ARedirect "index" None), users ++ [new],
             Some (User.id new))
       else (Return (ARender "login.html"
                       (Some (msg_credenciais, "danger"%string))),
             users ++ [new], None).
Proof.
  intros Hcheck Hm Hn Hp Hfree Hf Hf' Hm' Hn' Hp'. cbv zeta.
  assert (Hreg : auth_serve (registrar generate_password_hash salt req) env
                   users None
    = (Return (ARedirect "login" (Some (msg_conta_criada, "success"%string))),
       users ++ [User.mk (next_id (User.id <$> users)) n
                   (generate_password_hash salt p)], None)).
  { apply list_find_username_None in Hfree.
    auth_run. rewrite Hm, Hn, Hp, Hf. auth_run.
    destruct_find; [done|].
    auth_run. rewrite Hf. by auth_run. }
  rewrite Hreg. split; [done|].
  pose proof (list_find_username_app users n
    (User.mk (next_id (User.id <$> users)) n (generate_password_hash salt p))
    Hfree eq_refl) as Happ.
  auth_run. rewrite Hm', Hn', Hp', Hf'. auth_run.
  destruct_find; [|done].
  injection Happ as -> ->.
  auth_run. by destruct (check_password_hash _ p').
Qed.

End AuthFacts.

(** ** The import template *)

Section TemplateImport.

Variable py_int : string -> option Z.
Variable py_float : string -> option Py.float.
Variable py_str_exn : Exn -> string.
Variable py_str_float : Py.float -> string.
Variable py_str_datetime : Z -> string.


End TemplateImport.

(** ** The further properties on the examples *)

Lemma run_keys_unique_witness :
  keys_unique
    (run Sample.int Sample.float Sample.str_exn
       [mkStep RAdicionar Sample.new_product Sample.quiet;
        mkStep RNovaVenda (Sample.sale_of "1") Sample.quiet;
        mkStep (RDeletar 1) Sample.new_product Sample.quiet]
       Sample.sold_db).
Proof.
  apply (run_keys_unique Sample.int Sample.float Sample.str_exn).
  unfold keys_unique. simpl.
  split_and!; first [apply NoDup_singleton | apply NoDup_nil_2].
Defined.

(** "nan" as the purchase cost: the product is added, without a cost. *)
Lemma adicionar_stores_witness :
  let req := Sample.new_product_nan_cost in
  let db := Sample.widget_db in
  let out := serve (adicionar Sample.int Sample.float req) Sample.quiet db in
  out
  = (Return adicionar_ok,
     mkTables [Sample.widget; Produto.mk 2 "Gadget" 3 Sample.five None None]
       [] [])
  /\ exists nome qs quantidade ps preco,
       method req = POST
       /\ form_get req "nome" = Some nome
       /\ form_get req "quantidade" = Some qs
       /\ Sample.int qs = Some quantidade
       /\ form_get req "preco" = Some ps /\ Sample.float ps = Some preco
       /\ in_int64 quantidade = true
       /\ Py.is_nan preco = false
       /\ snd out
          = added db nome quantidade preco
              (sql_real
                 (optional_float Sample.float (form_get req "preco_compra")))
              (form_get req "validade")
       /\ (form_get req "preco_compra" = None
           \/ form_get req "preco_compra" = Some ""%string ->
           sql_real
             (optional_float Sample.float (form_get req "preco_compra"))
           = None)
       /\ (forall custo,
             optional_float Sample.float (form_get req "preco_compra")
             = Some custo ->
             sql_real
               (optional_float Sample.float (form_get req "preco_compra"))
             = if Py.is_nan custo then None else Some custo)
       /\ (forall p, p ∈ produtos db ->
                     Produto.id p < next_id (Produto.id <$> produtos db)).
Proof.
  cbv zeta. split; [vm_compute; reflexivity|].
  apply (adicionar_stores Sample.int Sample.float Sample.new_product_nan_cost
           Sample.quiet Sample.widget_db).
  vm_compute. reflexivity.
Defined.



Lemma adicionar_deletar_round_trip_witness :
  let db := Sample.widget_db in
  let db1 := snd (serve (adicionar Sample.int Sample.float Sample.new_product)
                    Sample.quiet db) in
  let id := next_id (Produto.id <$> produtos db) in
  (exists p, get_produto db1 id = Some (length (produtos db), p)
             /\ produtos db1 = produtos db ++ [p])
  /\ serve (deletar id) Sample.quiet db1 = (Return deletar_ok, db).
Proof.
  cbv zeta.
  apply (adicionar_deletar_round_trip Sample.int Sample.float
           Sample.new_product Sample.quiet Sample.widget_db Sample.quiet).
  - vm_compute. reflexivity.
  - discriminate.
  - discriminate.
Defined.


(** A row that restocks, a row that adds and a row that is skipped: one
    new, one updated. *)
Lemma importar_csv_counts_witness :
  let req := Sample.upload_of
               [Sample.widget_row; ["Gadget"; "3"; "5"]%string; ["x"]%string] in
  fst (serve (importar_csv Sample.int Sample.float Sample.str_exn req)
         Sample.quiet Sample.widget_db)
  = Return (Redirect "index" (msg_importacao 1 1, "success"%string)).
Proof.
  cbv zeta.
  destruct (importar_csv_counts Sample.int Sample.float Sample.str_exn
              (Sample.upload_of
                 [Sample.widget_row; ["Gadget"; "3"; "5"]%string;
                  ["x"]%string])
              (mkUpload "estoque.csv"
                 (["nome"; "quantidade"; "preco_venda"; "preco_custo";
                   "validade"]%string
                    :: [Sample.widget_row; ["Gadget"; "3"; "5"]%string;
                        ["x"]%string]))
              Sample.quiet Sample.widget_db)
    as (_ & _ & _ & _ & _ & H).
  - reflexivity.
  - discriminate.
  - apply H; vm_compute; reflexivity.
Defined.

Lemma importar_csv_names_unique_witness :
  names_unique (produtos
    (snd (serve (importar_csv Sample.int Sample.float Sample.str_exn
                   (Sample.upload_of
                      [Sample.widget_row; ["Gadget"; "3"; "5"]%string;
                       ["Gadget"; "1"; "5"]%string]))
            Sample.quiet Sample.widget_db))).
Proof.
  apply (importar_csv_names_unique Sample.int Sample.float Sample.str_exn).
  apply NoDup_singleton.
Defined.

Lemma importar_csv_identities_witness :
  exists p',
    produtos
      (snd (serve (importar_csv Sample.int Sample.float Sample.str_exn
                     (Sample.upload_of [Sample.widget_row]))
              Sample.quiet Sample.widget_db)) !! 0%nat = Some p'
    /\ same_identity Sample.widget p'.
Proof.
  apply (importar_csv_identities Sample.int Sample.float Sample.str_exn
           (Sample.upload_of [Sample.widget_row]) Sample.quiet
           Sample.widget_db 0%nat Sample.widget).
  reflexivity.
Defined.

Lemma nova_venda_bad_form_witness :
  serve (nova_venda Sample.int (Sample.sale_of_product "one" "3"))
    Sample.quiet Sample.widget_db
  = (Raise ValueError, Sample.widget_db)
  /\ serve (nova_venda Sample.int (mkRequest POST [("produto_id", "1")]%string []))
       Sample.quiet Sample.widget_db
     = (Raise BadRequestKeyError, Sample.widget_db).
Proof.
  split.
  - apply (proj1 (proj2 (nova_venda_bad_form Sample.int
             (Sample.sale_of_product "one" "3") Sample.quiet Sample.widget_db
             eq_refl)) "one"%string); reflexivity.
  - apply (proj1 (proj2 (proj2 (nova_venda_bad_form Sample.int
             (mkRequest POST [("produto_id", "1")]%string [])
             Sample.quiet Sample.widget_db eq_refl))
             "1"%string 1 eq_refl eq_refl)).
    reflexivity.
Defined.


Lemma vendas_por_produto_totals_witness :
  3 = units_sold Sample.sold_db "Widget" (vendas Sample.sold_db).
Proof.
  apply (proj2 (proj2 (proj2 (vendas_por_produto_totals Sample.sold_db)))
           0%nat "Widget"%string 3); reflexivity.
Defined.

Lemma grafico_prod_values_sum_witness :
  sum_ints (grafico_prod_values Sample.sold_db)
  = total_itens_vendidos (vendas Sample.sold_db).
Proof.
  apply (proj2 (grafico_prod_values_sum Sample.sold_db)).
  intros v Hv. apply list_elem_of_singleton in Hv as ->. by eexists.
Defined.

Lemma exportar_shape_witness :
  serve_as (exportar "estoque") Sample.quiet Sample.sold_db
  = (Return (mkAttachment "dados.csv" []), Sample.sold_db)
  /\ serve_as (exportar "vendas") Sample.quiet Sample.sold_db
     = (Return (mkAttachment "vendas.csv"
                  (header_vendas
                     :: (export_row_venda Sample.sold_db
                           <$> vendas Sample.sold_db))),
        Sample.sold_db).
Proof.
  split.
  - apply (proj1 (proj2 (exportar_shape "estoque" Sample.quiet
                           Sample.sold_db))); discriminate.
  - apply (proj2 (proj2 (exportar_shape "vendas" Sample.quiet
                           Sample.sold_db))).
    reflexivity.
Defined.

Lemma deletar_then_exportar_witness :
  let db' := snd (serve (deletar 1) Sample.quiet Sample.sold_db) in
  exists rows,
    fst (serve_as (exportar "vendas") Sample.quiet db')
    = Return (mkAttachment "vendas.csv" (header_vendas :: rows))
    /\ length rows = length (vendas Sample.sold_db)
    /\ forall j v,
         vendas Sample.sold_db !! j = Some v ->
         rows !! j
         = Some (row_venda v
                   (if decide (Venda.produto_id v = 1) then removido
                    else match produto_of Sample.sold_db v with
                         | Some q => Produto.nome q
                         | None => removido
                         end)
                   match cliente_of Sample.sold_db v with
                   | Some c => Cliente.nome c
                   | None => balcao
                   end).
Proof.
  cbv zeta.
  apply (deletar_then_exportar 1 Sample.quiet Sample.sold_db 0%nat
           Sample.widget Sample.quiet).
  - apply NoDup_singleton.
  - reflexivity.
  - discriminate.
  - discriminate.
  - reflexivity.
Defined.

Lemma exportar_then_importar_witness :
  let a := mkAttachment "produtos.csv"
             (header_produtos :: (row_produto <$> produtos Sample.widget_db)) in
  fst (serve_as (exportar "produtos") Sample.quiet Sample.widget_db)
  = Return a
  /\ serve (importar_csv Sample.int Sample.float Sample.str_exn
              (upload_request (att_filename a)
                 (read_back Sample.str_float Sample.str_datetime a)))
       Sample.quiet Sample.widget_db
     = (Return (import_done (0, 0)), Sample.widget_db).
Proof.
  cbv zeta. split; [reflexivity|].
  apply (proj2 (exportar_then_importar Sample.int Sample.float Sample.str_exn
                  Sample.str_float Sample.str_datetime Sample.quiet
                  Sample.widget_db Sample.quiet eq_refl eq_refl)).
  - intros p Hp. apply list_elem_of_singleton in Hp as ->. reflexivity.
  - reflexivity.
Defined.


Lemma database_uri_scheme_witness :
  database_uri (Some "postgres://u:p@host/db"%string)
  = "postgresql://u:p@host/db"%string
  /\ database_uri (Some "mysql://host/db"%string) = "mysql://host/db"%string.
Proof.
  split.
  - apply (proj1 (proj2 database_uri_scheme) "postgres://u:p@host/db"%string).
    reflexivity.
  - apply (proj1 (proj2 (proj2 database_uri_scheme)) "mysql://host/db"%string).
    + discriminate.
    + reflexivity.
Defined.

Lemma registrar_usernames_witness :
  NoDup (User.username <$>
    (auth_serve (registrar Sample.generate_password_hash "x"
                   (Sample.credentials "bia" "secret"))
       Sample.quiet [Sample.ana] None).1.2).
Proof.
  apply (proj2 (proj2 (registrar_usernames Sample.generate_password_hash "x"
                         (Sample.credentials "bia" "secret") Sample.quiet
                         [Sample.ana] None))).
  apply NoDup_singleton.
Defined.

Lemma login_sound_witness :
  auth_serve (login Sample.check_password_hash
                (Sample.credentials "ana" "guess"))
    Sample.quiet [Sample.ana] None
  = (Return (ARender "login.html" (Some (msg_credenciais, "danger"%string))),
     [Sample.ana], None).
Proof.
  apply (proj2 (proj2 (login_sound Sample.check_password_hash
                         (Sample.credentials "ana" "guess") Sample.quiet
                         [Sample.ana]))
           "ana"%string "guess"%string).
  - reflexivity.
  - reflexivity.
  - reflexivity.
  - discriminate.
  - intros u Hu _. apply list_elem_of_singleton in Hu as ->. reflexivity.
Defined.

Lemma login_already_authenticated_witness :
  auth_serve (login Sample.check_password_hash
                (Sample.credentials "bia" "guess"))
    Sample.quiet [Sample.ana] (Some 1)
  = (Return (ARedirect "index" None), [Sample.ana], Some 1).
Proof.
  apply (login_already_authenticated Sample.check_password_hash).
  - apply list_elem_of_singleton. reflexivity.
  - discriminate.
Defined.

Lemma registrar_then_login_witness :
  let registered :=
    auth_serve (registrar Sample.generate_password_hash "x"
                  (Sample.credentials "bia" "secret"))
      Sample.quiet [Sample.ana] None in
  let new := User.mk (next_id (User.id <$> [Sample.ana])) "bia"
               (Sample.generate_password_hash "x" "secret") in
  registered
  = (Return (ARedirect "login" (Some (msg_conta_criada, "success"%string))),
     [Sample.ana] ++ [new], None)
  /\ auth_serve (login Sample.check_password_hash
                   (Sample.credentials "bia" "secret"))
       Sample.quiet registered.1.2 None
     = if Sample.check_password_hash
            (Sample.generate_password_hash "x" "secret") "secret"
       then (Return (ARedirect "index" None), [Sample.ana] ++ [new],
             Some (User.id new))
       else (Return (ARender "login.html"
                       (Some (msg_credenciais, "danger"%string))),
             [Sample.ana] ++ [new], None).
Proof.
  cbv zeta.
  apply (registrar_then_login Sample.generate_password_hash
           Sample.check_password_hash "x"
           (Sample.credentials "bia" "secret") Sample.quiet [Sample.ana]
           (Sample.credentials "bia" "secret") Sample.quiet
           "bia"%string "secret"%string "secret"%string).
  - reflexivity.
  - reflexivity.
  - reflexivity.
  - reflexivity.
  - intros Hin. apply list_elem_of_singleton in Hin. discriminate.
  - reflexivity.
  - reflexivity.
  - reflexivity.
  - reflexivity.
  - reflexivity.
Defined.
